(** * Orchestration core of the stock agent: session store, quiz
    sub-state-machine, tool-calling protocol, classification fallback and
    clarification rule.

    The Python sources are embedded as Rocq functions.  External
    collaborators (the completion service, the answer checker, the clock,
    the ISO-8601 parser, durable storage) appear as Section variables or as
    explicit arguments, so every statement holds for whatever they do. *)

From Stdlib Require Import List String Ascii ZArith Bool Lia Arith.
From Stdlib Require Import DecimalString Permutation.
Import ListNotations.
Local Open Scope string_scope.
Local Open Scope Z_scope.

Set Implicit Arguments.
Set Warnings "-register-all".

(* ================================================================== *)
(** * Part I.  The program                                             *)
(* ================================================================== *)

(** ** graph/state.py *)

(** A parsed quiz (tools/quiz/parser.py, [parse_single_quiz]): the
    dictionary with keys id, question, options, correct_answer (number,
    company, symbol) and background. *)
Record QuizQuestion : Type := mkQuiz {
  quiz_id : Z;
  quiz_question : string;
  quiz_options : list (string * string);
  correct_number : string;
  correct_company : string;
  correct_symbol : string;
  quiz_background : string
}.

(** The entries a quiz node puts in [state["data"]["results"]].  The
    [session_info] sub-dictionary (a display value carrying rounded float
    minutes) is not part of the model. *)
Inductive QuizResultEntry : Type :=
| QuizGeneration (quiz_text : string) (quiz_data : QuizQuestion)
| AnswerChecking (result_text : string) (is_correct session_completed : bool)
| WrongAnswerWithHint (wrong_answer_message user_answer hint_text : string)
                      (quiz_continues : bool)
| HintProvided (hint_text : string) (quiz_continues : bool)
| SessionCompleted (completion_text : string) (new_quiz_available : bool)
| ErrorEntry (error_text suggestion : string).

Record QuizPayload : Type := mkPayload {
  source : string;
  results : list QuizResultEntry;
  total_count : Z;
  summary : string;
  query_type : string
}.

(** [state["data"]]: the empty dictionary of a fresh state, or the payload
    written by the quiz node. *)
Inductive StateData : Type :=
| DataEmpty
| DataQuiz (p : QuizPayload).

Record ClarificationInfo : Type := mkClarification {
  original_query : string;
  clarified_query : string;
  start_date : string;
  end_date : string;
  market_scope : string;
  primary_criteria : string;
  secondary_criteria : string
}.

(** [StockAgentState].  The two dictionary-valued fields whose emptiness the
    code tests ([clarification_info], [quiz_current_question]) are options:
    [None] is the empty dictionary.  [context] is the background-knowledge
    bag, kept as its printed form. *)
Record StockAgentState : Type := mkState {
  api_key : string;
  data : StateData;
  context : string;
  query : string;
  response : string;
  query_category : string;
  clarification_info : option ClarificationInfo;
  request_id : string;
  quiz_session_active : bool;
  quiz_current_question : option QuizQuestion;
  quiz_session_start_time : string;
  quiz_hint_used : bool;
  quiz_session_phase : string;
  quiz_session_id : string
}.

Definition default_stock_agent_state : StockAgentState :=
  {| api_key := ""; data := DataEmpty; context := ""; query := "";
     response := ""; query_category := ""; clarification_info := None;
     request_id := "";
     quiz_session_active := false; quiz_current_question := None;
     quiz_session_start_time := ""; quiz_hint_used := false;
     quiz_session_phase := "inactive"; quiz_session_id := "" |}.

(** Item assignments [state[k] = v] used by the modelled code. *)
Definition set_data (s : StockAgentState) (d : StateData) : StockAgentState :=
  {| api_key := api_key s; data := d; context := context s; query := query s;
     response := response s; query_category := query_category s;
     clarification_info := clarification_info s; request_id := request_id s;
     quiz_session_active := quiz_session_active s;
     quiz_current_question := quiz_current_question s;
     quiz_session_start_time := quiz_session_start_time s;
     quiz_hint_used := quiz_hint_used s;
     quiz_session_phase := quiz_session_phase s;
     quiz_session_id := quiz_session_id s |}.

Definition set_query (s : StockAgentState) (q : string) : StockAgentState :=
  {| api_key := api_key s; data := data s; context := context s; query := q;
     response := response s; query_category := query_category s;
     clarification_info := clarification_info s; request_id := request_id s;
     quiz_session_active := quiz_session_active s;
     quiz_current_question := quiz_current_question s;
     quiz_session_start_time := quiz_session_start_time s;
     quiz_hint_used := quiz_hint_used s;
     quiz_session_phase := quiz_session_phase s;
     quiz_session_id := quiz_session_id s |}.

Definition set_response (s : StockAgentState) (r : string) : StockAgentState :=
  {| api_key := api_key s; data := data s; context := context s;
     query := query s; response := r; query_category := query_category s;
     clarification_info := clarification_info s; request_id := request_id s;
     quiz_session_active := quiz_session_active s;
     quiz_current_question := quiz_current_question s;
     quiz_session_start_time := quiz_session_start_time s;
     quiz_hint_used := quiz_hint_used s;
     quiz_session_phase := quiz_session_phase s;
     quiz_session_id := quiz_session_id s |}.

Definition set_query_category (s : StockAgentState) (c : string)
  : StockAgentState :=
  {| api_key := api_key s; data := data s; context := context s;
     query := query s; response := response s; query_category := c;
     clarification_info := clarification_info s; request_id := request_id s;
     quiz_session_active := quiz_session_active s;
     quiz_current_question := quiz_current_question s;
     quiz_session_start_time := quiz_session_start_time s;
     quiz_hint_used := quiz_hint_used s;
     quiz_session_phase := quiz_session_phase s;
     quiz_session_id := quiz_session_id s |}.

Definition set_clarification_info (s : StockAgentState)
  (c : option ClarificationInfo) : StockAgentState :=
  {| api_key := api_key s; data := data s; context := context s;
     query := query s; response := response s;
     query_category := query_category s;
     clarification_info := c; request_id := request_id s;
     quiz_session_active := quiz_session_active s;
     quiz_current_question := quiz_current_question s;
     quiz_session_start_time := quiz_session_start_time s;
     quiz_hint_used := quiz_hint_used s;
     quiz_session_phase := quiz_session_phase s;
     quiz_session_id := quiz_session_id s |}.

Definition set_quiz_session_phase (s : StockAgentState) (p : string)
  : StockAgentState :=
  {| api_key := api_key s; data := data s; context := context s;
     query := query s; response := response s;
     query_category := query_category s;
     clarification_info := clarification_info s; request_id := request_id s;
     quiz_session_active := quiz_session_active s;
     quiz_current_question := quiz_current_question s;
     quiz_session_start_time := quiz_session_start_time s;
     quiz_hint_used := quiz_hint_used s;
     quiz_session_phase := p;
     quiz_session_id := quiz_session_id s |}.

Definition set_quiz_hint_used (s : StockAgentState) (b : bool)
  : StockAgentState :=
  {| api_key := api_key s; data := data s; context := context s;
     query := query s; response := response s;
     query_category := query_category s;
     clarification_info := clarification_info s; request_id := request_id s;
     quiz_session_active := quiz_session_active s;
     quiz_current_question := quiz_current_question s;
     quiz_session_start_time := quiz_session_start_time s;
     quiz_hint_used := b;
     quiz_session_phase := quiz_session_phase s;
     quiz_session_id := quiz_session_id s |}.

(** The six assignments that every quiz start and teardown performs. *)
Definition set_quiz_fields (s : StockAgentState) (active : bool) (sid : string)
  (start : string) (q : option QuizQuestion) (hint : bool) (phase : string)
  : StockAgentState :=
  {| api_key := api_key s; data := data s; context := context s;
     query := query s; response := response s;
     query_category := query_category s;
     clarification_info := clarification_info s; request_id := request_id s;
     quiz_session_active := active;
     quiz_current_question := q;
     quiz_session_start_time := start;
     quiz_hint_used := hint;
     quiz_session_phase := phase;
     quiz_session_id := sid |}.

(** ** Time

    A [datetime] is the number of microseconds since a fixed origin and a
    [timedelta] a number of microseconds.  A function that reads the clock
    takes the reading as its argument [now]; the readings of one call are
    taken to be the same instant. *)
Definition datetime := Z.
Definition timedelta_minutes (m : Z) : Z := m * 60 * 1000000.

(** ** tools/quiz/session_manager.py *)

Inductive QuizSessionPhase : Type :=
| INACTIVE | ASKING | PROCESSING | COMPLETED.

Definition phase_value (p : QuizSessionPhase) : string :=
  match p with
  | INACTIVE => "inactive"
  | ASKING => "asking"
  | PROCESSING => "processing"
  | COMPLETED => "completed"
  end.

(** The row [save_quiz_result] inserts into [quiz_history]. *)
Record QuizHistoryRow : Type := mkRow {
  row_request_id : string;
  row_quiz_id : Z;
  row_quiz_question : string;
  row_correct_answer : string;
  row_user_answer : string;
  row_is_correct : bool;
  row_hint_used : bool;
  row_reward_stock : string;
  row_reward_amount : Z;
  row_completed_at : datetime
}.

(** Durable storage: the rows of [quiz_history] and whether the database can
    be written at the moment. *)
Record QuizDb : Type := mkDb {
  quiz_history : list QuizHistoryRow;
  db_writable : bool
}.

Record RewardInfo : Type := mkReward {
  reward_stock : string;
  reward_amount : Z
}.

Module QuizDatabase.

(** What a call of the storage collaborator did: [Some b] when it returned
    [b], [None] when it raised. *)
Definition SaveOutcome := option bool.

(** The signature of [save_quiz_result], with the clock and the table made
    explicit. *)
Definition SaveFn : Type :=
  datetime -> QuizDb -> string -> Z -> string -> string -> string ->
  bool -> bool -> string -> Z -> QuizDb * SaveOutcome.

(** [save_quiz_result]: the INSERT and commit run inside a try block; any
    failure is logged and reported as [False], leaving the table as it
    was. *)
Definition save_quiz_result : SaveFn :=
  fun now db request_id quiz_id quiz_question correct_answer user_answer
      is_correct hint_used reward_stock reward_amount =>
  if db_writable db then
    ({| quiz_history :=
          quiz_history db ++
          [ {| row_request_id := request_id; row_quiz_id := quiz_id;
               row_quiz_question := quiz_question;
               row_correct_answer := correct_answer;
               row_user_answer := user_answer;
               row_is_correct := is_correct; row_hint_used := hint_used;
               row_reward_stock := reward_stock;
               row_reward_amount := reward_amount;
               row_completed_at := now |} ];
        db_writable := true |}, Some true)
  else (db, Some false).

End QuizDatabase.

Module QuizSessionManager.

Definition SESSION_TIMEOUT_MINUTES : Z := 10.

Definition is_session_active (state : StockAgentState) : bool :=
  quiz_session_active state.

Section Teardown.
(** The storage collaborator [QuizDatabase.save_quiz_result]; the
    teardown is stated for any implementation of it, including one that
    raises. *)
Variable save_quiz_result : QuizDatabase.SaveFn.

(** [end_session].  The database write happens only when [save_to_db] is
    set and the current question is a non-empty dictionary; it sits in
    its own try block and its outcome is only logged.  The six resetting
    assignments follow in every case. *)
Definition end_session (now : datetime) (db : QuizDb)
  (state : StockAgentState) (save_to_db : bool) (user_answer : string)
  (is_correct : bool) (request_id : string)
  (reward_info : option RewardInfo) : QuizDb * StockAgentState :=
  let current_quiz := quiz_current_question state in
  let db' :=
    match save_to_db, current_quiz with
    | true, Some q =>
        let reward_info :=
          match reward_info with
          | None => {| reward_stock := ""; reward_amount := 0 |}
          | Some r => r
          end in
        let '(db1, success) :=
          save_quiz_result now db request_id
            (quiz_id q) (quiz_question q) (correct_company q)
            user_answer is_correct (quiz_hint_used state)
            (reward_stock reward_info) (reward_amount reward_info) in
        match success with
        | Some true => db1    (* logged: saved *)
        | Some false => db1   (* logged: not saved *)
        | None => db1         (* logged by the inner except *)
        end
    | _, _ => db
    end in
  (db',
   set_quiz_fields state false "" "" None false (phase_value INACTIVE)).

(** [end_session(state)] with every optional argument at its default. *)
Definition end_session_default (now : datetime) (db : QuizDb)
  (state : StockAgentState) : QuizDb * StockAgentState :=
  end_session now db state false "" false "" None.
End Teardown.

Definition update_session_phase (state : StockAgentState)
  (new_phase : QuizSessionPhase) : StockAgentState :=
  if negb (is_session_active state) then state
  else set_quiz_session_phase state (phase_value new_phase).

(** The dictionary [valid_transitions], looked up with [.get(k, [])]. *)
Definition valid_transitions : list (string * list string) :=
  [ (phase_value INACTIVE, [phase_value ASKING]);
    (phase_value ASKING, [phase_value PROCESSING; phase_value COMPLETED]);
    (phase_value PROCESSING, [phase_value COMPLETED]);
    (phase_value COMPLETED, [phase_value INACTIVE]) ].

Fixpoint dict_get {V : Type} (d : list (string * V)) (k : string)
  (default : V) : V :=
  match d with
  | [] => default
  | (k', v) :: d' => if String.eqb k' k then v else dict_get d' k default
  end.

Definition str_in_list (x : string) (l : list string) : bool :=
  existsb (String.eqb x) l.

Definition validate_session_transition (state : StockAgentState)
  (target_phase : QuizSessionPhase) : bool :=
  let current_phase := quiz_session_phase state in
  let allowed_targets := dict_get valid_transitions current_phase [] in
  str_in_list (phase_value target_phase) allowed_targets.

Section Expiry.
(** [datetime.fromisoformat] followed by the subtraction from
    [datetime.now()]: [None] when either raises. *)
Variable fromisoformat : string -> option datetime.
Variable save_quiz_result : QuizDatabase.SaveFn.

Definition is_session_expired (now : datetime) (state : StockAgentState)
  : bool :=
  if negb (is_session_active state) then false
  else
    let start_time_str := quiz_session_start_time state in
    if String.eqb start_time_str "" then true
    else
      match fromisoformat start_time_str with
      | None => true
      | Some start_time =>
          let elapsed_time := now - start_time in
          timedelta_minutes SESSION_TIMEOUT_MINUTES <? elapsed_time
      end.

(** [start_new_session]; [session_id] is the fresh token of
    [QuizDatabase.generate_session_id] and [current_time] the ISO text of
    [datetime.now()]. *)
Definition start_new_session (now : datetime) (db : QuizDb)
  (session_id current_time : string) (state : StockAgentState)
  (quiz_data : QuizQuestion) : QuizDb * StockAgentState :=
  let '(db, state) :=
    if quiz_session_active state
    then end_session_default save_quiz_result now db state
    else (db, state) in
  (db,
   set_quiz_fields state true session_id current_time (Some quiz_data) false
                   (phase_value ASKING)).

Definition cleanup_expired_session (now : datetime) (db : QuizDb)
  (state : StockAgentState) : QuizDb * StockAgentState :=
  if is_session_expired now state
  then end_session_default save_quiz_result now db state
  else (db, state).
End Expiry.

End QuizSessionManager.

(** ** Python dictionaries with string keys

    A [dict] keeps its items in insertion order; the session store sorts and
    slices them, so the order is part of the model.  Keys are unique in any
    dictionary built with [dict_set]. *)
Module PyDict.

Definition dict (V : Type) : Type := list (string * V).

Definition keys {V : Type} (d : dict V) : list string := map fst d.

Fixpoint lookup {V : Type} (d : dict V) (k : string) : option V :=
  match d with
  | [] => None
  | (k', v) :: d' => if String.eqb k' k then Some v else lookup d' k
  end.

(** [k in d] *)
Definition mem {V : Type} (d : dict V) (k : string) : bool :=
  match lookup d k with Some _ => true | None => false end.

(** [d[k] = v]: an existing key keeps its place, a new one goes last. *)
Fixpoint set {V : Type} (d : dict V) (k : string) (v : V) : dict V :=
  match d with
  | [] => [(k, v)]
  | (k', v') :: d' =>
      if String.eqb k' k then (k', v) :: d' else (k', v') :: set d' k v
  end.

(** [d.pop(k, None)] *)
Definition pop {V : Type} (d : dict V) (k : string) : dict V :=
  filter (fun kv => negb (String.eqb (fst kv) k)) d.

Definition pop_all {V : Type} (d : dict V) (ks : list string) : dict V :=
  fold_left (fun acc k => pop acc k) ks d.

End PyDict.

(** ** api_server.py: the session store *)
Module SessionStore.
Import PyDict.

(** The two module-level dictionaries. *)
Record Store : Type := mkStore {
  session_store : dict StockAgentState;
  session_timestamps : dict datetime
}.

Definition empty : Store :=
  {| session_store := []; session_timestamps := [] |}.

Definition SESSION_TIMEOUT_MINUTES : Z := 10.
Definition MAX_SESSIONS : nat := 5.

(** [sorted(items, key=lambda x: x[1])]: a stable sort, so items with equal
    timestamps keep their insertion order. *)
Fixpoint insert_by_time (x : string * datetime)
  (l : list (string * datetime)) : list (string * datetime) :=
  match l with
  | [] => [x]
  | y :: l' =>
      if snd x <=? snd y then x :: y :: l' else y :: insert_by_time x l'
  end.

Fixpoint sorted_by_time (l : list (string * datetime))
  : list (string * datetime) :=
  match l with
  | [] => []
  | x :: l' => insert_by_time x (sorted_by_time l')
  end.

Section Sweep.
Variable fromisoformat : string -> option datetime.

(** The first loop of [cleanup_expired_sessions]: which identifiers go
    on the list [expired_sessions]. *)
Definition is_expired_entry (now : datetime) (st : Store)
  (session_id : string) (timestamp : datetime) : bool :=
  if timedelta_minutes SESSION_TIMEOUT_MINUTES <? now - timestamp then true
  else
    match lookup (session_store st) session_id with
    | Some state =>
        if quiz_session_active state then
          QuizSessionManager.is_session_expired fromisoformat now state
        else false
    | None => false
    end.

Definition expired_sessions (now : datetime) (st : Store) : list string :=
  map fst
    (filter (fun it => is_expired_entry now st (fst it) (snd it))
            (session_timestamps st)).

Definition remove_sessions (st : Store) (ids : list string) : Store :=
  {| session_store := pop_all (session_store st) ids;
     session_timestamps := pop_all (session_timestamps st) ids |}.

(** The capacity step: when more than [MAX_SESSIONS] states are stored,
    the oldest timestamps go first. *)
Definition evict_oldest (st : Store) : Store :=
  if (MAX_SESSIONS <? List.length (session_store st))%nat then
    let sorted_sessions := sorted_by_time (session_timestamps st) in
    let sessions_to_remove :=
      firstn (List.length (session_store st) - MAX_SESSIONS)%nat
             sorted_sessions in
    remove_sessions st (map fst sessions_to_remove)
  else st.

Definition cleanup_expired_sessions (now : datetime) (st : Store)
  : Store :=
  evict_oldest (remove_sessions st (expired_sessions now st)).

(** [get_session_state]: sweep, then restore or create. *)
Definition get_session_state (now : datetime) (st : Store)
  (request_id : string) : Store * StockAgentState :=
  let st := cleanup_expired_sessions now st in
  match (if String.eqb request_id "" then None
         else lookup (session_store st) request_id) with
  | Some state =>
      ({| session_store := session_store st;
          session_timestamps := set (session_timestamps st) request_id now |},
       state)
  | None =>
      let state := default_stock_agent_state in
      if String.eqb request_id "" then (st, state)
      else
        ({| session_store := set (session_store st) request_id state;
            session_timestamps :=
              set (session_timestamps st) request_id now |},
         state)
  end.
End Sweep.

Definition save_session_state (now : datetime) (st : Store)
  (request_id : string) (state : StockAgentState) : Store :=
  if String.eqb request_id "" then st
  else
    {| session_store := set (session_store st) request_id state;
       session_timestamps := set (session_timestamps st) request_id now |}.

(** Number of stored session records. *)
Definition population (st : Store) : nat :=
  List.length (session_store st).

End SessionStore.

(** ** Python values that travel as JSON

    The completion service answers with JSON, tool arguments are JSON and the
    tools of the repository return dictionaries of numbers, strings and
    lists.  Numbers are integers here; objects keep their items in order. *)
Inductive json : Type :=
| JNull
| JBool (b : bool)
| JNum (n : Z)
| JStr (s : string)
| JArr (l : list json)
| JObj (m : list (string * json)).

(** The exceptions the modelled code can meet. *)
Inductive exn : Type :=
| KeyError (key : string)
| TypeError
| AttributeError
| UnboundLocalError (var : string)
| JSONDecodeError
| OtherError (name message : string).

Inductive outcome (A : Type) : Type :=
| Ok (a : A)
| Raise (e : exn).
Arguments Ok {A} a.
Arguments Raise {A} e.

Module Py.

Fixpoint obj_lookup (m : list (string * json)) (k : string) : option json :=
  match m with
  | [] => None
  | (k', v) :: m' => if String.eqb k' k then Some v else obj_lookup m' k
  end.

Definition is_str (k : string) (j : json) : bool :=
  match j with JStr s => String.eqb s k | _ => false end.

(** [needle in hay] on strings. *)
Fixpoint substring_of (needle hay : string) : bool :=
  if String.prefix needle hay then true
  else match hay with
       | EmptyString => false
       | String _ hay' => substring_of needle hay'
       end.

(** [k in j] for a string [k]: key of a dictionary, element of a list,
    substring of a string; a [TypeError] on anything else. *)
Definition contains (j : json) (k : string) : outcome bool :=
  match j with
  | JObj m => Ok (match obj_lookup m k with Some _ => true | None => false end)
  | JArr l => Ok (existsb (is_str k) l)
  | JStr s => Ok (substring_of k s)
  | JNull | JBool _ | JNum _ => Raise TypeError
  end.

(** [j[k]] for a string [k]. *)
Definition getitem (j : json) (k : string) : outcome json :=
  match j with
  | JObj m =>
      match obj_lookup m k with
      | Some v => Ok v
      | None => Raise (KeyError k)
      end
  | _ => Raise TypeError
  end.

(** [j[0]] *)
Definition getitem0 (j : json) : outcome json :=
  match j with
  | JArr (x :: _) => Ok x
  | JArr [] => Raise (OtherError "IndexError" "list index out of range")
  | JStr (String c _) => Ok (JStr (String c EmptyString))
  | JStr EmptyString =>
      Raise (OtherError "IndexError" "string index out of range")
  | JObj _ => Raise (KeyError "0")
  | JNull | JBool _ | JNum _ => Raise TypeError
  end.

(** [j.get(k, default)]: only dictionaries have the method. *)
Definition get (j : json) (k : string) (default : json) : outcome json :=
  match j with
  | JObj m =>
      Ok (match obj_lookup m k with Some v => v | None => default end)
  | _ => Raise AttributeError
  end.

(** Truth value. *)
Definition truthy (j : json) : bool :=
  match j with
  | JNull => false
  | JBool b => b
  | JNum n => negb (n =? 0)
  | JStr s => negb (String.eqb s "")
  | JArr l => match l with [] => false | _ => true end
  | JObj m => match m with [] => false | _ => true end
  end.

Fixpoint chars (s : string) : list json :=
  match s with
  | EmptyString => []
  | String c s' => JStr (String c EmptyString) :: chars s'
  end.

(** What [for x in j] iterates over. *)
Definition iter (j : json) : outcome (list json) :=
  match j with
  | JArr l => Ok l
  | JStr s => Ok (chars s)
  | JObj m => Ok (map (fun kv => JStr (fst kv)) m)
  | JNull | JBool _ | JNum _ => Raise TypeError
  end.

(** Dictionary keys must be hashable: lists and dictionaries are not. *)
Definition hashable (j : json) : bool :=
  match j with
  | JArr _ | JObj _ => false
  | _ => true
  end.

(** [sep.join(l)] *)
Fixpoint join (sep : string) (l : list string) : string :=
  match l with
  | [] => ""
  | [x] => x
  | x :: l' => x ++ sep ++ join sep l'
  end.

End Py.

(** ** graph/clova_function_calling.py *)
Module FunctionCalling.

(** One entry of [tool_results]. *)
Record ToolResult : Type := mkToolResult {
  tool_call_id : json;
  function_name : json;
  arguments : json;
  result : json;
  success : bool
}.

(** The dictionary [process_function_calling] returns: with [success] true
    the keys are success, tool_results and final_response ([None] is
    Python's [None]); with [success] false they are success, error and
    tool_results. *)
Inductive Reply : Type :=
| Succeeded (tool_results : list ToolResult) (final_response : option json)
| Failed (error : string) (tool_results : list ToolResult).

Definition reply_success (r : Reply) : bool :=
  match r with Succeeded _ _ => true | Failed _ _ => false end.

Definition reply_tool_results (r : Reply) : list ToolResult :=
  match r with Succeeded l _ => l | Failed _ l => l end.

Definition reply_error (r : Reply) : option string :=
  match r with Succeeded _ _ => None | Failed e _ => Some e end.

Definition reply_final_response (r : Reply) : option json :=
  match r with Succeeded _ f => f | Failed _ _ => None end.

(** What the protocol does to the outside world, in order. *)
Inductive Event : Type :=
| CompletionRequest (messages : list json) (tools : json)
| ToolInvocation (name : string) (args : json).

Definition is_completion (e : Event) : bool :=
  match e with CompletionRequest _ _ => true | ToolInvocation _ _ => false end.

Definition is_invocation (e : Event) : bool :=
  match e with CompletionRequest _ _ => false | ToolInvocation _ _ => true end.

(** Computations that may raise and that leave a trace of events; the trace
    survives an exception. *)
Definition M (A : Type) : Type := list Event -> outcome A * list Event.

Definition ret {A : Type} (a : A) : M A := fun log => (Ok a, log).

Definition raise {A : Type} (e : exn) : M A := fun log => (Raise e, log).

Definition bind {A B : Type} (c : M A) (k : A -> M B) : M B :=
  fun log =>
    match c log with
    | (Ok a, log') => k a log'
    | (Raise e, log') => (Raise e, log')
    end.

Definition lift {A : Type} (o : outcome A) : M A := fun log => (o, log).

Definition emit (ev : Event) : M unit := fun log => (Ok tt, (log ++ [ev])%list).

(** [try: c  except Exception as e: h e] *)
Definition try_except {A : Type} (c : M A) (h : exn -> M A) : M A :=
  fun log =>
    match c log with
    | (Ok a, log') => (Ok a, log')
    | (Raise e, log') => h e log'
    end.

Declare Scope py_scope.
Delimit Scope py_scope with py.
Notation "x <- c ;; k" := (bind c (fun x => k))
  (at level 61, c at next level, right associativity) : py_scope.
Notation "c ;;; k" := (bind c (fun _ => k))
  (at level 61, right associativity) : py_scope.
Local Open Scope py_scope.

Section Protocol.
(** [str(e)], [str(x)] for a value that is not a string,
    [json.loads] ([None] when it raises) and [json.dumps]. *)
Variable exn_str : exn -> string.
Variable py_repr : json -> string.
Variable json_loads : string -> option json.
Variable json_dumps : json -> string.

(** The completion gateway [call_clova_function_calling] as seen by its
    caller: a response, or the exception it re-raises. *)
Variable completion : list json -> json -> outcome json.

(** A registered tool: [tool.invoke(arguments)]. *)
Definition Tool : Type := json -> outcome json.

Definition py_str (j : json) : string :=
  match j with JStr s => s | _ => py_repr j end.

Definition call_clova_function_calling (messages : list json)
  (tools : json) : M json :=
  emit (CompletionRequest messages tools) ;;;
  lift (completion messages tools).

(** The two locals of [execute_tool] that its except clause reads;
    [None] is a name not yet bound. *)
Record Locals : Type := mkLocals {
  loc_function_name : option json;
  loc_arguments : option json
}.

(** The body of the try block of [execute_tool], carrying the locals
    bound so far so that the handler can read them. *)
Definition execute_tool_try (tool_call : json)
  (tool_functions : PyDict.dict Tool) : M (Locals * outcome ToolResult) :=
  fun log =>
  match Py.getitem tool_call "function" with
  | Raise e => (Ok (mkLocals None None, Raise e), log)
  | Ok fn =>
  match Py.getitem fn "name" with
  | Raise e => (Ok (mkLocals None None, Raise e), log)
  | Ok function_name =>
  match Py.getitem fn "arguments" with
  | Raise e => (Ok (mkLocals (Some function_name) None, Raise e), log)
  | Ok arguments0 =>
  let parsed :=
    match arguments0 with
    | JStr s =>
        match json_loads s with
        | Some a => Ok a
        | None => Raise JSONDecodeError
        end
    | _ => Ok arguments0
    end in
  match parsed with
  | Raise e =>
      (Ok (mkLocals (Some function_name) (Some arguments0), Raise e), log)
  | Ok arguments =>
  let locals := mkLocals (Some function_name) (Some arguments) in
  if negb (Py.hashable function_name) then (Ok (locals, Raise TypeError), log)
  else
    match (match function_name with
           | JStr name =>
               match PyDict.lookup tool_functions name with
               | Some tool => Some (name, tool)
               | None => None
               end
           | _ => None
           end) with
    | Some (name, tool) =>
        let log := (log ++ [ToolInvocation name arguments])%list in
        match tool arguments with
        | Raise e => (Ok (locals, Raise e), log)
        | Ok result =>
            match Py.getitem tool_call "id" with
            | Raise e => (Ok (locals, Raise e), log)
            | Ok id =>
                (Ok (locals,
                     Ok {| tool_call_id := id;
                           function_name := function_name;
                           arguments := arguments;
                           result := result;
                           success := true |}), log)
            end
        end
    | None =>
        match Py.getitem tool_call "id" with
        | Raise e => (Ok (locals, Raise e), log)
        | Ok id =>
            (Ok (locals,
                 Ok {| tool_call_id := id;
                       function_name := function_name;
                       arguments := arguments;
                       result :=
                         JStr ("함수 " ++ py_str function_name
                               ++ "를 찾을 수 없습니다.");
                       success := false |}), log)
        end
    end
  end end end end.

(** The except clause of [execute_tool]: it formats [function_name] for
    the log, then builds the failed entry from [tool_call["id"]],
    [function_name] and [arguments]; a name that was never bound or a
    missing id raises out of the handler. *)
Definition execute_tool_except (tool_call : json) (locals : Locals)
  (e : exn) : outcome ToolResult :=
  match loc_function_name locals with
  | None => Raise (UnboundLocalError "function_name")
  | Some function_name =>
      match Py.getitem tool_call "id" with
      | Raise e' => Raise e'
      | Ok id =>
          match loc_arguments locals with
          | None => Raise (UnboundLocalError "arguments")
          | Some arguments =>
              Ok {| tool_call_id := id;
                    function_name := function_name;
                    arguments := arguments;
                    result := JStr ("도구 실행 중 오류: " ++ exn_str e);
                    success := false |}
          end
      end
  end.

Definition execute_tool (tool_call : json)
  (tool_functions : PyDict.dict Tool) : M ToolResult :=
  r <- execute_tool_try tool_call tool_functions ;;
  match r with
  | (_, Ok entry) => ret entry
  | (locals, Raise e) => lift (execute_tool_except tool_call locals e)
  end.

(** The loop [for tool_call in tool_calls: tool_results.append(...)]. *)
Fixpoint execute_all (tool_calls : list json)
  (tool_functions : PyDict.dict Tool) : M (list ToolResult) :=
  match tool_calls with
  | [] => ret []
  | tool_call :: rest =>
      r <- execute_tool tool_call tool_functions ;;
      rs <- execute_all rest tool_functions ;;
      ret (r :: rs)
  end.

Definition tool_message (r : ToolResult) : json :=
  JObj [ ("role", JStr "tool");
         ("tool_call_id", tool_call_id r);
         ("content", JStr (json_dumps (result r))) ].

Definition feedback_message (feedback : string) : json :=
  JObj [ ("role", JStr "user");
         ("content",
          JStr ("이전 응답에 대한 피드백: " ++ feedback
                ++ String "010" "이 피드백을 반영하여 다시 응답해주세요.")) ].

(** The response-shape dispatch: [Some message], or [None] for the
    branch that reports an invalid response. *)
Definition extract_message (response : json) : outcome (option json) :=
  match Py.contains response "result" with
  | Raise e => Raise e
  | Ok has_result =>
  match (if has_result then
           match Py.getitem response "result" with
           | Raise e => Raise e
           | Ok r => Py.contains r "message"
           end
         else Ok false) with
  | Raise e => Raise e
  | Ok true =>
      match Py.getitem response "result" with
      | Raise e => Raise e
      | Ok r =>
          match Py.getitem r "message" with
          | Raise e => Raise e
          | Ok m => Ok (Some m)
          end
      end
  | Ok false =>
      match Py.contains response "choices" with
      | Raise e => Raise e
      | Ok has_choices =>
      match (if has_choices then
               match Py.getitem response "choices" with
               | Raise e => Raise e
               | Ok c => Ok (Py.truthy c)
               end
             else Ok false) with
      | Raise e => Raise e
      | Ok true =>
          match Py.getitem response "choices" with
          | Raise e => Raise e
          | Ok choices =>
              match Py.getitem0 choices with
              | Raise e => Raise e
              | Ok choice =>
                  match Py.getitem choice "message" with
                  | Raise e => Raise e
                  | Ok m => Ok (Some m)
                  end
              end
          end
      | Ok false => Ok None
      end end
  end end.

(** [ "toolCalls" not in message and "tool_calls" not in message ] *)
Definition no_tool_calls (message : json) : outcome bool :=
  match Py.contains message "toolCalls" with
  | Raise e => Raise e
  | Ok true => Ok false
  | Ok false =>
      match Py.contains message "tool_calls" with
      | Raise e => Raise e
      | Ok b => Ok (negb b)
      end
  end.

(** [message.get("toolCalls", message.get("tool_calls", []))] *)
Definition requested_tool_calls (message : json) : outcome json :=
  match Py.get message "tool_calls" (JArr []) with
  | Raise e => Raise e
  | Ok inner => Py.get message "toolCalls" inner
  end.

Definition error_messages (tool_results : list ToolResult) : list string :=
  map (fun r => py_str (function_name r) ++ ": " ++ py_str (result r))
      (filter (fun r => negb (success r)) tool_results).

(** The last step: all tools succeeded, or the aggregate failure. *)
Definition aggregate (tool_results : list ToolResult) : Reply :=
  let all_successful := forallb success tool_results in
  if all_successful then Succeeded tool_results None
  else
    Failed ("도구 실행 실패: " ++ Py.join "; " (error_messages tool_results))
           tool_results.

(** The body of the try block of [process_function_calling]. *)
Definition process_try (messages : list json) (tools : json)
  (tool_functions : PyDict.dict Tool) : M Reply :=
  response <- call_clova_function_calling messages tools ;;
  om <- lift (extract_message response) ;;
  match om with
  | None => ret (Failed "Invalid API response" [])
  | Some message =>
      none <- lift (no_tool_calls message) ;;
      if (none : bool) then
        content <- lift (Py.get message "content" (JStr "")) ;;
        ret (Succeeded [] (Some content))
      else
        tool_calls <- lift (requested_tool_calls message) ;;
        calls <- lift (Py.iter tool_calls) ;;
        tool_results <- execute_all calls tool_functions ;;
        let tool_messages := map tool_message tool_results in
        let messages := (messages ++ [message] ++ tool_messages)%list in
        ret (aggregate tool_results)
  end.

(** The transcript that is sent: a copy of the initial messages, with the
    feedback turn appended when there is feedback. *)
Definition transcript (initial_messages : list json) (feedback : string)
  : list json :=
  if String.eqb feedback "" then initial_messages
  else (initial_messages ++ [feedback_message feedback])%list.

Definition process_function_calling (initial_messages : list json)
  (tools : json) (tool_functions : PyDict.dict Tool) (feedback : string)
  : M Reply :=
  let messages := transcript initial_messages feedback in
  try_except (process_try messages tools tool_functions)
             (fun e => ret (Failed (exn_str e) [])).

(** Running the protocol from an empty trace. *)
Definition run (initial_messages : list json) (tools : json)
  (tool_functions : PyDict.dict Tool) (feedback : string)
  : outcome Reply * list Event :=
  process_function_calling initial_messages tools tool_functions feedback [].

End Protocol.

End FunctionCalling.

(** ** Python string methods

    Strings are UTF-8 byte sequences.  Case and white space are those of
    ASCII; a byte of a multi-byte character counts as a caseless letter, as
    the Hangul of the prompts and answers is (so a category name that
    directly touches non-ASCII punctuation is found by the containment
    attempt of the extraction rather than by its pattern). *)
Module Str.

Definition code (c : ascii) : nat := nat_of_ascii c.

Definition is_upper (c : ascii) : bool :=
  ((65 <=? code c) && (code c <=? 90))%nat.

Definition lower_char (c : ascii) : ascii :=
  if is_upper c then ascii_of_nat (code c + 32) else c.

(** [s.lower()] *)
Fixpoint lower (s : string) : string :=
  match s with
  | EmptyString => EmptyString
  | String c s' => String (lower_char c) (lower s')
  end.

(** White space for [str.strip] and [str.split]: tab, line feed, vertical
    tab, form feed, carriage return, the separators 28 to 31, and space. *)
Definition is_space (c : ascii) : bool :=
  (((9 <=? code c) && (code c <=? 13)) ||
   ((28 <=? code c) && (code c <=? 32)))%nat.

Fixpoint lstrip (s : string) : string :=
  match s with
  | EmptyString => EmptyString
  | String c s' => if is_space c then lstrip s' else s
  end.

Fixpoint rstrip (s : string) : string :=
  match s with
  | EmptyString => EmptyString
  | String c s' =>
      match rstrip s' with
      | EmptyString => if is_space c then EmptyString else String c EmptyString
      | t => String c t
      end
  end.

(** [s.strip()] *)
Definition strip (s : string) : string := rstrip (lstrip s).

(** [s.split("\n")] *)
Fixpoint split_lines (s : string) : list string :=
  match s with
  | EmptyString => [EmptyString]
  | String c s' =>
      if (code c =? 10)%nat then EmptyString :: split_lines s'
      else match split_lines s' with
           | [] => [String c EmptyString]
           | l :: ls => String c l :: ls
           end
  end.

(** [\w] *)
Definition is_word (c : ascii) : bool :=
  (((48 <=? code c) && (code c <=? 57)) ||
   ((65 <=? code c) && (code c <=? 90)) ||
   ((97 <=? code c) && (code c <=? 122)) ||
   (code c =? 95) || (128 <=? code c))%nat.

(** [\b] between two neighbouring positions; [None] is an end of the
    string. *)
Definition word_boundary (prev next : option ascii) : bool :=
  xorb (match prev with Some c => is_word c | None => false end)
       (match next with Some c => is_word c | None => false end).

Definition head (s : string) : option ascii :=
  match s with EmptyString => None | String c _ => Some c end.

(** Matching a literal at the front of [s] under [re.IGNORECASE], [prev]
    being the character before [s]: the matched text, its last character
    (or [prev] when nothing was matched) and what follows. *)
Fixpoint match_literal (lit : string) (prev : option ascii) (s : string)
  : option (string * option ascii * string) :=
  match lit with
  | EmptyString => Some (EmptyString, prev, s)
  | String a lit' =>
      match s with
      | String c s' =>
          if Ascii.eqb (lower_char a) (lower_char c) then
            match match_literal lit' (Some c) s' with
            | Some (m, last, rest) => Some (String c m, last, rest)
            | None => None
            end
          else None
      | EmptyString => None
      end
  end.

(** One attempt of [\b(alt1|alt2|...)\b] at a position, the previous
    character being [prev]: the alternatives are tried in order and the
    first whose end is a word boundary wins. *)
Fixpoint match_alternatives (alts : list string) (prev : option ascii)
  (s : string) : option string :=
  match alts with
  | [] => None
  | lit :: alts' =>
      match match_literal lit prev s with
      | Some (m, last, rest) =>
          if word_boundary prev (head s) && word_boundary last (head rest)
          then Some m
          else match_alternatives alts' prev s
      | None => match_alternatives alts' prev s
      end
  end.

(** [re.search(r"\b(alt1|alt2|...)\b", s, re.IGNORECASE)] and its group 1:
    the leftmost position at which an attempt succeeds. *)
Fixpoint search_from (alts : list string) (prev : option ascii) (s : string)
  : option string :=
  match match_alternatives alts prev s with
  | Some m => Some m
  | None =>
      match s with
      | EmptyString => None
      | String c s' => search_from alts (Some c) s'
      end
  end.

Definition re_search_word (alts : list string) (s : string) : option string :=
  search_from alts None s.

End Str.

(** ** graph/nodes/category.py and graph/nodes/classify_query.py *)
Module Classify.

Inductive QueryCategory : Type :=
| FETCH_STOCK_DATA
| CONDITIONAL_STOCK_DATA
| SIGNAL_STOCK_DATA
| AMBIGUOUS_QUERY.

Definition category_value (c : QueryCategory) : string :=
  match c with
  | FETCH_STOCK_DATA => "fetch_stock_data"
  | CONDITIONAL_STOCK_DATA => "conditional_stock_data"
  | SIGNAL_STOCK_DATA => "signal_stock_data"
  | AMBIGUOUS_QUERY => "ambiguous_query"
  end.

(** [QueryCategory._value2member_map_.keys()], in definition order. *)
Definition category_keys : list string :=
  map category_value
      [FETCH_STOCK_DATA; CONDITIONAL_STOCK_DATA; SIGNAL_STOCK_DATA;
       AMBIGUOUS_QUERY].

(** The second attempt of [extract_category_from_response]: the first line
    that mentions a category and on which the pattern matches. *)
Fixpoint extract_from_lines (lines : list string) : option string :=
  match lines with
  | [] => None
  | line :: rest =>
      let line := Str.strip line in
      if existsb (fun cat => Py.substring_of (Str.lower cat) (Str.lower line))
                 category_keys
      then match Str.re_search_word category_keys line with
           | Some m => Some m
           | None => extract_from_lines rest
           end
      else extract_from_lines rest
  end.

(** The last attempt: the first category whose name occurs anywhere. *)
Fixpoint extract_contained (cats : list string) (response : string)
  : option string :=
  match cats with
  | [] => None
  | category :: rest =>
      if Py.substring_of (Str.lower category) (Str.lower response)
      then Some category
      else extract_contained rest response
  end.

Definition extract_category_from_response (response : string) : string :=
  if String.eqb response "" then ""
  else
    let response := Str.strip response in
    match Str.re_search_word category_keys response with
    | Some m => m
    | None =>
        match extract_from_lines (Str.split_lines response) with
        | Some m => m
        | None =>
            match extract_contained category_keys response with
            | Some category => category
            | None => ""
            end
        end
    end.

Section Node.
(** The two classification chains (prompt, model, output parser), called
    with the query and the context: the model's text, or the exception the
    call raises. *)
Variable classify_query_chain : string -> string -> outcome string.
Variable clarified_classify_query_chain : string -> string -> outcome string.

Definition QUIZ_TRIGGER : string := "퀴즈도전".

Definition classify_query (state : StockAgentState)
  : outcome StockAgentState :=
  let query := query state in
  if quiz_session_active state then
    Ok (set_query_category state "quiz_stock_data")
  else if Py.substring_of QUIZ_TRIGGER query then
    Ok (set_query_category state "quiz_stock_data")
  else
    match clarification_info state with
    | Some _ =>
        match clarified_classify_query_chain query (context state) with
        | Raise e => Raise e
        | Ok category =>
            let category_name := extract_category_from_response category in
            let valid_categories :=
              [category_value FETCH_STOCK_DATA;
               category_value CONDITIONAL_STOCK_DATA;
               category_value SIGNAL_STOCK_DATA] in
            let category_name :=
              if negb (existsb (String.eqb category_name) valid_categories)
              then category_value FETCH_STOCK_DATA
              else category_name in
            Ok (set_query_category state category_name)
        end
    | None =>
        match classify_query_chain query (context state) with
        | Raise e => Raise e
        | Ok category =>
            let category_name := extract_category_from_response category in
            let valid_categories :=
              [category_value FETCH_STOCK_DATA;
               category_value CONDITIONAL_STOCK_DATA;
               category_value SIGNAL_STOCK_DATA;
               category_value AMBIGUOUS_QUERY] in
            let category_name :=
              if negb (existsb (String.eqb category_name) valid_categories)
              then category_value AMBIGUOUS_QUERY
              else category_name in
            Ok (set_query_category state category_name)
        end
    end.
End Node.

Definition classify_query_with_path (state : StockAgentState) : string :=
  query_category state.

End Classify.

(** ** graph/nodes/ambiguous_query.py *)
Module Ambiguous.

(** The parsed completeness analysis: a dictionary of JSON values read with
    [.get(key, default)]. *)
Definition Analysis : Type := list (string * json).

Definition analysis_get (analysis : Analysis) (k : string) (default : json)
  : json :=
  match Py.obj_lookup analysis k with
  | Some v => v
  | None => default
  end.

Definition SELF_CLARIFY : string := "SELF_CLARIFY".
Definition ASK_USER : string := "ASK_USER".

(** The decision of [analyze_ambiguity_type] once the analysis is there. *)
Definition decide_ambiguity (analysis : Analysis) : string :=
  let completeness :=
    analysis_get analysis "information_completeness" (JStr "AMBIGUOUS") in
  let missing_type :=
    analysis_get analysis "missing_information_type" (JStr "NONE") in
  if Py.is_str "COMPLETE" completeness then SELF_CLARIFY
  else if Py.is_str "PARTIAL" completeness then
    let has_relative_time :=
      analysis_get analysis "has_relative_time" (JBool false) in
    if Py.is_str "SPECIFIC_DATE" missing_type && Py.truthy has_relative_time
    then SELF_CLARIFY
    else if existsb (fun k => Py.is_str k missing_type)
                    ["STOCK_NAME"; "SPECIFIC_DATE"; "TIME_PERIOD"]
    then ASK_USER
    else SELF_CLARIFY
  else SELF_CLARIFY.

Section Node.
(** [analyze_information_with_llm] (it has its own fallback and never
    raises), [generate_clarification_question] (likewise) and
    [clarify_vague_question], whose model call and parse are unguarded. *)
Variable analyze_information_with_llm : string -> string -> Analysis.
Variable generate_clarification_question : string -> string -> string.
Variable clarify_vague_question : string -> outcome (PyDict.dict string).

Definition analyze_ambiguity_type (query context : string) : string :=
  decide_ambiguity (analyze_information_with_llm query context).

Definition clarified_get (clarified : PyDict.dict string) (k default : string)
  : string :=
  match PyDict.lookup clarified k with
  | Some v => v
  | None => default
  end.

Definition clarify_question_node (state : StockAgentState)
  : outcome StockAgentState :=
  let query := query state in
  let context := context state in
  if String.eqb query "" then Ok state
  else
    let ambiguity_type := analyze_ambiguity_type query context in
    if String.eqb ambiguity_type ASK_USER then
      let clarification_question :=
        generate_clarification_question query context in
      Ok (set_query_category (set_response state clarification_question)
                             "ask_clarification")
    else
      match clarify_vague_question query with
      | Raise e => Raise e
      | Ok clarified =>
          let original_query := query in
          let specific_question :=
            clarified_get clarified "specific_question" query in
          let info :=
            {| original_query := original_query;
               clarified_query := specific_question;
               start_date := clarified_get clarified "start_date" "";
               end_date := clarified_get clarified "end_date" "";
               market_scope := clarified_get clarified "market_scope" "";
               primary_criteria :=
                 clarified_get clarified "primary_criteria" "";
               secondary_criteria :=
                 clarified_get clarified "secondary_criteria" "" |} in
          Ok (set_query (set_clarification_info state (Some info))
                        specific_question)
      end.
End Node.

(** graph/constant.py *)
Definition ASK_CLARIFICATION : string := "ask_clarification".
Definition CLASSIFY_QUERY : string := "classify_query".

Definition ambiguous_query_with_path (state : StockAgentState) : string :=
  if String.eqb (query_category state) "ask_clarification"
  then ASK_CLARIFICATION
  else CLASSIFY_QUERY.

(** The conditional edges out of the clarification node in graph/graph.py:
    [ask_clarification] ends the turn, [classify_query] loops back. *)
Inductive NextNode : Type :=
| END
| ToClassifyQuery.

Definition ambiguous_edge (path : string) : option NextNode :=
  if String.eqb path "ask_clarification" then Some END
  else if String.eqb path "classify_query" then Some ToClassifyQuery
  else None.

End Ambiguous.

(** ** graph/nodes/quiz_stock_data.py *)
Module QuizNode.

(** [str(n)] for an integer. *)
Definition str_of_Z (n : Z) : string := NilZero.string_of_int (Z.to_int n).

(** The dictionary of [QuizAnswerChecker.check_answer]. *)
Record AnswerResult : Type := mkAnswer {
  answer_success : bool;
  answer_is_correct : bool;
  answer_confidence : Z;
  answer_explanation : string
}.

(** The [reward_info] entry of an answer package; [None] in the first two
    fields is a missing key. *)
Record RewardPackage : Type := mkRewardPackage {
  rp_stock_name : option string;
  rp_amount : option Z;
  rp_reward_limited : bool;
  rp_limitation_message : string;
  rp_eligible : bool;
  rp_message : string;
  rp_closing_price : string
}.

(** The answer package of [quiz_info_provider.generate_answer_package];
    [pkg_rewards_display] is the formatted reward overview when the lookup of
    the user's rewards succeeded. *)
Record InfoPackage : Type := mkPackage {
  pkg_explanation : string;
  pkg_company_insight : string;
  pkg_reward_info : option RewardPackage;
  pkg_rewards_display : option string
}.

(** The dictionary of [generate_news_based_hint]. *)
Record NewsHint : Type := mkNews {
  news_success : bool;
  news_hint_message : string
}.

Definition newline : string := String "010" EmptyString.

Definition quiz_payload (entry : QuizResultEntry) (summary query_type : string)
  : StateData :=
  DataQuiz {| source := "quiz"; results := [entry]; total_count := 1;
              summary := summary; query_type := query_type |}.

Definition _generate_error_response (state : StockAgentState)
  (error_message : string) : StockAgentState :=
  set_data state
    (quiz_payload
       (ErrorEntry error_message "다시 '주식퀴즈도전'으로 시도해보세요.")
       "퀴즈 오류 발생" "quiz_error").

(** The phrases that ask for a hint. *)
Definition HINT_PHRASES : list string :=
  [ "힌트"; "hint"; "도움"; "help"; "힌트 주세요"; "힌트주세요"; "힌트 좀";
    "힌트좀"; "도움 주세요"; "도움주세요"; "도와주세요"; "도와줘"; "모르겠어";
    "모르겠어요"; "모르겠다"; "몰라"; "몰라요"; "어려워"; "어려워요";
    "어렵다"; "어려운데"; "잘 모르겠어"; "잘 모르겠어요"; "잘 모르겠네";
    "헷갈려"; "헷갈려요"; "헷갈린다"; "애매해"; "애매해요"; "뭐지"; "뭐야";
    "뭔지"; "뭔가요" ].

Definition is_hint_request (user_answer : string) : bool :=
  existsb (String.eqb (Str.lower user_answer)) HINT_PHRASES.

Definition _combine_hints (traditional_hint : string) (news : NewsHint)
  : string :=
  let message_parts :=
    if news_success news then
      if String.eqb (news_hint_message news) "" then []
      else [news_hint_message news; ""]
    else
      if String.eqb (news_hint_message news) "" then []
      else ["📰 " ++ news_hint_message news; ""] in
  Py.join newline
    (message_parts ++
     ["---"; "퀴즈는 계속 진행 중입니다. 답변을 입력해주세요!"])%list.

Definition _format_answer_result (info_package : InfoPackage) : string :=
  let part1 :=
    if String.eqb (pkg_explanation info_package) "" then []
    else [pkg_explanation info_package; ""] in
  let part2 :=
    if String.eqb (pkg_company_insight info_package) "" then []
    else ["📚 **기업 정보**"; pkg_company_insight info_package; ""] in
  let part3 :=
    match pkg_reward_info info_package with
    | None => []
    | Some r =>
        if rp_reward_limited r then
          if String.eqb (rp_limitation_message r) "" then []
          else [rp_limitation_message r; ""]
        else if rp_eligible r then
          (["🎁 **보상**"; rp_message r] ++
           (if String.eqb (rp_closing_price r) "" then []
            else [("종가: " ++ rp_closing_price r)%string]) ++ [""])%list
        else []
    end in
  let part4 :=
    match pkg_rewards_display info_package with
    | Some d => [d; ""]
    | None => []
    end in
  Py.join newline
    (part1 ++ part2 ++ part3 ++ part4 ++
     ["---"; "🎯 새로운 퀴즈를 원하시면 '주식퀴즈도전'을 입력해주세요!"])%list.

Section Node.
(** Collaborators.  Each of them catches its own failures in the source and
    always returns a value. *)
Variable fromisoformat : string -> option datetime.
Variable isoformat : datetime -> string.
Variable save_quiz_result : QuizDatabase.SaveFn.
Variable check_answer : QuizQuestion -> string -> AnswerResult.
Variable get_hint : QuizQuestion -> string.
Variable generate_answer_package :
  QuizQuestion -> string -> AnswerResult -> string -> InfoPackage.
Variable generate_news_based_hint : QuizQuestion -> NewsHint.
Variable quiz_file_exists : bool.
Variable parse_quiz_file : list QuizQuestion.
Variable get_unplayed_quiz : list QuizQuestion -> string -> option QuizQuestion.
Variable generate_session_id : string.
Variable generate_quiz_start_message : QuizQuestion -> string.

Definition _handle_quiz_start (now : datetime) (db : QuizDb)
  (state : StockAgentState) (query : string) : QuizDb * StockAgentState :=
  if negb quiz_file_exists then
    (db, _generate_error_response state "퀴즈 파일을 찾을 수 없습니다.")
  else
    let quizzes := parse_quiz_file in
    match quizzes with
    | [] =>
        (db, _generate_error_response state
               "유효한 퀴즈를 로드할 수 없습니다.")
    | _ =>
        match get_unplayed_quiz quizzes (request_id state) with
        | None =>
            (db, _generate_error_response state "퀴즈 선택에 실패했습니다.")
        | Some selected_quiz =>
            let '(db, state) :=
              QuizSessionManager.start_new_session save_quiz_result now db
                generate_session_id (isoformat now) state selected_quiz in
            let quiz_message := generate_quiz_start_message selected_quiz in
            (db,
             set_data state
               (quiz_payload (QuizGeneration quiz_message selected_quiz)
                  ("퀴즈 #" ++ str_of_Z (quiz_id selected_quiz) ++ " 시작")
                  "quiz_start"))
        end
    end.

Definition _handle_correct_answer (now : datetime) (db : QuizDb)
  (state : StockAgentState) (quiz_data : QuizQuestion) (user_answer : string)
  (answer_result : AnswerResult) : QuizDb * StockAgentState :=
  let request_id := request_id state in
  let info_package :=
    generate_answer_package quiz_data user_answer answer_result request_id in
  let state :=
    QuizSessionManager.update_session_phase state COMPLETED in
  let stock_name :=
    match pkg_reward_info info_package with
    | Some r =>
        match rp_stock_name r with
        | Some n => n
        | None => correct_company quiz_data
        end
    | None => correct_company quiz_data
    end in
  let reward_amount :=
    match pkg_reward_info info_package with
    | Some r => match rp_amount r with Some a => a | None => 0 end
    | None => 0
    end in
  let '(db, state) :=
    QuizSessionManager.end_session save_quiz_result now db state true
      user_answer true request_id
      (Some {| reward_stock := stock_name; reward_amount := reward_amount |}) in
  let result_message := _format_answer_result info_package in
  (db,
   set_data state
     (quiz_payload (AnswerChecking result_message true true)
        ("퀴즈 정답: " ++ user_answer) "quiz_answer")).

Definition wrong_answer_text (user_answer hint_text : string) : string :=
  "**오답입니다!**" ++ newline ++ newline ++
  "입력하신 답변: " ++ user_answer ++ newline ++
  "정답은 다른 선택지입니다." ++ newline ++ newline ++
  "💡 **힌트**: " ++ hint_text ++ newline ++ newline ++
  "다시 답변해보세요!".

Definition _handle_wrong_answer (state : StockAgentState)
  (quiz_data : QuizQuestion) (user_answer : string)
  (answer_result : AnswerResult) : StockAgentState :=
  let state := QuizSessionManager.update_session_phase state ASKING in
  let hint_text := get_hint quiz_data in
  let wrong_answer_message := wrong_answer_text user_answer hint_text in
  set_data state
    (quiz_payload
       (WrongAnswerWithHint wrong_answer_message user_answer hint_text true)
       ("퀴즈 #" ++ str_of_Z (quiz_id quiz_data) ++ " 오답 + 힌트 제공")
       "quiz_wrong_answer").

Definition _handle_hint_request (state : StockAgentState)
  (quiz_data : QuizQuestion) : StockAgentState :=
  let state := set_quiz_hint_used state true in
  let traditional_hint := get_hint quiz_data in
  let news_hint_result := generate_news_based_hint quiz_data in
  let hint_message := _combine_hints traditional_hint news_hint_result in
  set_data state
    (quiz_payload (HintProvided hint_message true)
       ("퀴즈 #" ++ str_of_Z (quiz_id quiz_data)
        ++ " 힌트 제공 (기존 + 뉴스)")
       "quiz_hint").

Definition _handle_user_answer (now : datetime) (db : QuizDb)
  (state : StockAgentState) (user_answer : string)
  : QuizDb * StockAgentState :=
  match quiz_current_question state with
  | None =>
      let '(db, state) :=
        QuizSessionManager.end_session_default save_quiz_result now db state in
      (db, _generate_error_response state "활성화된 퀴즈가 없습니다.")
  | Some current_quiz =>
      if is_hint_request user_answer then
        (db, _handle_hint_request state current_quiz)
      else
        let state :=
          QuizSessionManager.update_session_phase state PROCESSING in
        let answer_result := check_answer current_quiz user_answer in
        if negb (answer_success answer_result) then
          (db, _generate_error_response state
                 "답변 검증 중 오류가 발생했습니다.")
        else if answer_is_correct answer_result then
          _handle_correct_answer now db state current_quiz user_answer
                                 answer_result
        else
          (db, _handle_wrong_answer state current_quiz user_answer
                                    answer_result)
  end.

Definition _handle_session_completion (now : datetime) (db : QuizDb)
  (state : StockAgentState) : QuizDb * StockAgentState :=
  let '(db, state) :=
    QuizSessionManager.end_session_default save_quiz_result now db state in
  (db,
   set_data state
     (quiz_payload
        (SessionCompleted
           "퀴즈가 완료되었습니다. '주식퀴즈도전'으로 새로운 퀴즈를 시작할 수 있습니다!"
           true)
        "퀴즈 세션 완료" "quiz_completion")).

Definition quiz_stock_data (now : datetime) (db : QuizDb)
  (state : StockAgentState) : QuizDb * StockAgentState :=
  let query := Str.strip (query state) in
  let '(db, state) :=
    QuizSessionManager.cleanup_expired_session fromisoformat save_quiz_result
      now db state in
  let current_phase := quiz_session_phase state in
  if String.eqb current_phase (phase_value INACTIVE) then
    _handle_quiz_start now db state query
  else if String.eqb current_phase (phase_value ASKING) then
    _handle_user_answer now db state query
  else if String.eqb current_phase (phase_value PROCESSING) then
    let state := QuizSessionManager.update_session_phase state COMPLETED in
    _handle_session_completion now db state
  else if String.eqb current_phase (phase_value COMPLETED) then
    _handle_session_completion now db state
  else
    let '(db, state) :=
      QuizSessionManager.end_session_default save_quiz_result now db state in
    (db, _generate_error_response state
           "퀴즈 세션 상태 오류가 발생했습니다.")
.
End Node.

End QuizNode.

(** ** graph/state.py: two more item assignments *)

Definition set_api_key (s : StockAgentState) (k : string) : StockAgentState :=
  {| api_key := k; data := data s; context := context s; query := query s;
     response := response s; query_category := query_category s;
     clarification_info := clarification_info s; request_id := request_id s;
     quiz_session_active := quiz_session_active s;
     quiz_current_question := quiz_current_question s;
     quiz_session_start_time := quiz_session_start_time s;
     quiz_hint_used := quiz_hint_used s;
     quiz_session_phase := quiz_session_phase s;
     quiz_session_id := quiz_session_id s |}.

Definition set_request_id (s : StockAgentState) (r : string)
  : StockAgentState :=
  {| api_key := api_key s; data := data s; context := context s;
     query := query s; response := response s;
     query_category := query_category s;
     clarification_info := clarification_info s; request_id := r;
     quiz_session_active := quiz_session_active s;
     quiz_current_question := quiz_current_question s;
     quiz_session_start_time := quiz_session_start_time s;
     quiz_hint_used := quiz_hint_used s;
     quiz_session_phase := quiz_session_phase s;
     quiz_session_id := quiz_session_id s |}.

(** ** api_server.py: the request handler *)
Module ApiServer.
Import PyDict SessionStore.

(** How a call of the handler ends: with the body [{"answer": ...}], with
    an [HTTPException] (which the framework answers with that status), or
    with any other exception. *)
Inductive HandlerResult : Type :=
| Answer (answer : string)
| HTTPException (status_code : Z) (detail : string)
| Uncaught (e : exn).

(** [not x] for a header or query parameter, [None] when the request does
    not carry it. *)
Definition py_not (x : option string) : bool :=
  match x with
  | None => true
  | Some s => String.eqb s ""
  end.

(** The string behind a parameter that is there. *)
Definition text (x : option string) : string :=
  match x with
  | Some s => s
  | None => ""
  end.

(** [e.with_traceback()]: the method takes the traceback as its one
    argument, so the call without it raises before it returns anything. *)
Definition with_traceback_no_argument (e : exn) : outcome string :=
  Raise TypeError.

Section Handler.
Variable fromisoformat : string -> option datetime.
(** [agent.invoke]: the compiled graph returns a new dictionary carrying
    every key of the state, and leaves the dictionary it was given as it
    is; it may raise. *)
Variable agent : StockAgentState -> outcome StockAgentState.
Variable exn_str : exn -> string.

(** The try block of [chat_with_agent].  [now] is the clock read by
    [get_session_state] and [now'] the one read by [save_session_state].
    The dictionary [get_session_state] returns is the stored one, so the
    three item assignments change the stored record as well. *)
Definition chat_with_agent_try (now now' : datetime) (st : Store)
  (request_id api_key question : option string) : Store * outcome string :=
  if py_not question then
    (st, Raise (OtherError "HTTPException" "question(질문) 요청이 비었습니다."))
  else if py_not request_id then
    (st, Raise (OtherError "HTTPException" "request_id 요청이 비었습니다."))
  else
    let request_id := text request_id in
    let '(st, state) := get_session_state fromisoformat now st request_id in
    let state :=
      set_request_id (set_api_key (set_query state (text question))
                                  (text api_key))
                     request_id in
    let st :=
      {| session_store := set (session_store st) request_id state;
         session_timestamps := session_timestamps st |} in
    match agent state with
    | Raise e => (st, Raise e)
    | Ok result =>
        let st := save_session_state now' st request_id result in
        (st, Ok (response result))
    end.

(** [chat_with_agent]: the except clause formats [e.with_traceback()] for
    the log line before it raises the 500. *)
Definition chat_with_agent (now now' : datetime) (st : Store)
  (request_id api_key question : option string) : Store * HandlerResult :=
  match chat_with_agent_try now now' st request_id api_key question with
  | (st, Ok answer) => (st, Answer answer)
  | (st, Raise e) =>
      match with_traceback_no_argument e with
      | Raise e' => (st, Uncaught e')
      | Ok _ =>
          (st, HTTPException 500
                 ("Internal server error: " ++ exn_str e))
      end
  end.
End Handler.

End ApiServer.

(** ** graph/nodes/quiz_generate_response.py *)
Module QuizResponse.

(** [format_quiz_response].  The empty dictionary has no source; the
    entries of the quiz node are of the six types listed, so the closing
    default and the except clause are not reached from them. *)
Definition format_quiz_response (data : StateData) : string :=
  match data with
  | DataEmpty => "퀴즈 데이터 형식이 올바르지 않습니다."
  | DataQuiz p =>
      if negb (String.eqb (source p) "quiz") then
        "퀴즈 데이터 형식이 올바르지 않습니다."
      else
        match results p with
        | [] => "퀴즈 데이터가 없습니다."
        | quiz_result :: _ =>
            match quiz_result with
            | QuizGeneration quiz_text _ => quiz_text
            | AnswerChecking result_text _ _ => result_text
            | WrongAnswerWithHint wrong_answer_message _ _ _ =>
                wrong_answer_message
            | HintProvided hint_text _ => hint_text
            | SessionCompleted completion_text _ => completion_text
            | ErrorEntry error_text suggestion =>
                if negb (String.eqb suggestion "") then
                  error_text ++ String "010" (String "010" suggestion)
                else error_text
            end
        end
  end.

Definition quiz_generate_response (state : StockAgentState)
  : StockAgentState :=
  let data := data state in
  let response_text := format_quiz_response data in
  set_response state response_text.

End QuizResponse.

(** ** tools/quiz/database.py and tools/quiz/parser.py: choosing a quiz *)
Module QuizSelection.

(** [SELECT DISTINCT quiz_id ... ORDER BY quiz_id]: ascending, each
    identifier once. *)
Fixpoint insert_id (x : Z) (l : list Z) : list Z :=
  match l with
  | [] => [x]
  | y :: l' =>
      if x <? y then x :: y :: l'
      else if x =? y then y :: l'
      else y :: insert_id x l'
  end.

Definition distinct_sorted (l : list Z) : list Z :=
  fold_right insert_id [] l.

(** [QuizDatabase.get_user_attempted_quiz_ids]; [db_readable] tells
    whether the query goes through: when it raises, the except clause
    answers with the empty list. *)
Definition get_user_attempted_quiz_ids (db_readable : bool) (db : QuizDb)
  (request_id : string) : list Z :=
  if String.eqb request_id "" then []
  else if db_readable then
    distinct_sorted
      (map row_quiz_id
           (filter (fun row => String.eqb (row_request_id row) request_id)
                   (quiz_history db)))
  else [].

Section Choice.
(** The draw behind [random.choice]: for a sequence of [n] items the index
    is [rand n], reduced below [n]. *)
Variable rand : nat -> nat.

(** [random.choice(l)]; [None] when it raises (the sequence is empty). *)
Definition choice {A : Type} (l : list A) : option A :=
  nth_error l (rand (List.length l) mod List.length l).

Definition get_random_quiz (quizzes : list QuizQuestion)
  : option QuizQuestion :=
  match quizzes with
  | [] => None
  | _ => choice quizzes
  end.

Definition get_unplayed_quiz (db_readable : bool) (db : QuizDb)
  (quizzes : list QuizQuestion) (request_id : string)
  : option QuizQuestion :=
  match quizzes with
  | [] => None
  | _ =>
      if String.eqb request_id "" then get_random_quiz quizzes
      else
        let attempted_quiz_ids :=
          get_user_attempted_quiz_ids db_readable db request_id in
        let unplayed_quizzes :=
          filter (fun quiz =>
                    negb (existsb (Z.eqb (quiz_id quiz)) attempted_quiz_ids))
                 quizzes in
        match unplayed_quizzes with
        | [] => get_random_quiz quizzes
        | _ =>
            match choice unplayed_quizzes with
            | Some selected_quiz => Some selected_quiz
            | None => get_random_quiz quizzes   (* the except clause *)
            end
        end
  end.
End Choice.

End QuizSelection.

(** ** graph/nodes/ambiguous_query.py: the analysis and its fallback

    [\d] is an ASCII digit here. *)
Module Analysis.
Import Ambiguous.

Definition is_digit (c : ascii) : bool :=
  ((48 <=? Str.code c) && (Str.code c <=? 57))%nat.

(** [\d{n}] at the front of [s]: the digits and what follows. *)
Fixpoint take_digits (n : nat) (s : string) : option (string * string) :=
  match n with
  | O => Some (EmptyString, s)
  | S n' =>
      match s with
      | String c s' =>
          if is_digit c then
            match take_digits n' s' with
            | Some (d, rest) => Some (String c d, rest)
            | None => None
            end
          else None
      | EmptyString => None
      end
  end.

Definition take_dash (s : string) : option string :=
  match s with
  | String c s' => if (Str.code c =? 45)%nat then Some s' else None
  | EmptyString => None
  end.

(** [\d{4}-\d{2}-\d{2}] at the front of [s]: the matched text. *)
Definition match_dashed_date (s : string) : option string :=
  match take_digits 4 s with
  | Some (y, r1) =>
      match take_dash r1 with
      | Some r2 =>
          match take_digits 2 r2 with
          | Some (m, r3) =>
              match take_dash r3 with
              | Some r4 =>
                  match take_digits 2 r4 with
                  | Some (d, _) => Some (y ++ "-" ++ m ++ "-" ++ d)
                  | None => None
                  end
              | None => None
              end
          | None => None
          end
      | None => None
      end
  | None => None
  end.

(** [\d{8}] at the front of [s]. *)
Definition match_eight_digits (s : string) : option string :=
  match take_digits 8 s with
  | Some (d, _) => Some d
  | None => None
  end.

(** [re.search]: the match at the leftmost position that has one. *)
Fixpoint re_search (matcher : string -> option string) (s : string)
  : option string :=
  match matcher s with
  | Some m => Some m
  | None =>
      match s with
      | EmptyString => None
      | String _ s' => re_search matcher s'
      end
  end.

(** [extract_date_from_query]; [None] is Python's [None]. *)
Definition extract_date_from_query (query : string) : option string :=
  match re_search match_dashed_date query with
  | Some m => Some m
  | None =>
      match re_search match_eight_digits query with
      | Some date_str =>
          Some (String.substring 0 4 date_str ++ "-" ++
                String.substring 4 2 date_str ++ "-" ++
                String.substring 6 2 date_str)
      | None => None
      end
  end.

Section Llm.
(** The two model calls: the text of the name extraction, and the parsed
    completeness analysis (call and parse together); either may raise. *)
Variable stock_name_llm : string -> outcome string.
Variable information_analysis_llm : string -> string -> outcome Analysis.

Definition extract_stock_name_with_llm (query : string) : option string :=
  match stock_name_llm query with
  | Ok content =>
      let stock_name := Str.strip content in
      if existsb (String.eqb stock_name) ["없음"; ""; "None"; "null"]
      then None
      else Some stock_name
  | Raise _ => None
  end.

(** [bool(x)] for a string or [None]. *)
Definition py_bool (x : option string) : bool :=
  match x with
  | Some s => negb (String.eqb s "")
  | None => false
  end.

Definition analyze_information_with_llm (query context : string)
  : Analysis :=
  match information_analysis_llm query context with
  | Ok parsed_result => parsed_result
  | Raise _ =>
      [ ("has_stock_name", JBool (py_bool (extract_stock_name_with_llm query)));
        ("has_specific_date", JBool (py_bool (extract_date_from_query query)));
        ("has_relative_time", JBool false);
        ("has_metrics", JBool false);
        ("has_conditions", JBool false);
        ("missing_information_type", JStr "NONE");
        ("information_completeness", JStr "AMBIGUOUS") ]
  end.
End Llm.

End Analysis.

(** ** graph/graph.py: the edges out of the classifier *)
Module Graph.

Inductive ClassifyTarget : Type :=
| ToFetchStockData
| ToConditionalStockData
| ToSignalStockData
| ToQuizStockData
| ToAmbiguousQuery.

(** The path map of the conditional edges added for [CLASSIFY_QUERY];
    [None] is a path the map does not have. *)
Definition classify_edge (path : string) : option ClassifyTarget :=
  if String.eqb path "fetch_stock_data" then Some ToFetchStockData
  else if String.eqb path "conditional_stock_data"
  then Some ToConditionalStockData
  else if String.eqb path "signal_stock_data" then Some ToSignalStockData
  else if String.eqb path "quiz_stock_data" then Some ToQuizStockData
  else if String.eqb path "ambiguous_query" then Some ToAmbiguousQuery
  else None.

End Graph.

(* ================================================================== *)
(** * Part II.  Properties                                             *)
(* ================================================================== *)

Unset Implicit Arguments.

(** ** The quiz session manager *)
Section QuizManagerFacts.
Import QuizSessionManager.

(** The allow-list of the specification, as pairs (current, target). *)
Definition allow_list : list (QuizSessionPhase * QuizSessionPhase) :=
  [ (INACTIVE, ASKING); (ASKING, PROCESSING); (ASKING, COMPLETED);
    (PROCESSING, COMPLETED); (COMPLETED, INACTIVE) ].

Definition phase_eqb (p q : QuizSessionPhase) : bool :=
  match p, q with
  | INACTIVE, INACTIVE | ASKING, ASKING
  | PROCESSING, PROCESSING | COMPLETED, COMPLETED => true
  | _, _ => false
  end.

Definition allowed (p q : QuizSessionPhase) : bool :=
  existsb (fun pq => phase_eqb (fst pq) p && phase_eqb (snd pq) q) allow_list.

(** A session that has just completed a quiz. *)
Definition completed_state : StockAgentState :=
  set_quiz_fields default_stock_agent_state true "a1b2c3d4"
    "2025-01-01T09:00:00"
    (Some {| quiz_id := 1; quiz_question := "Q"; quiz_options := [];
             correct_number := "1"; correct_company := "ACME";
             correct_symbol := "1"; quiz_background := "" |})
    false (phase_value COMPLETED).

Lemma phase_value_inj (p q : QuizSessionPhase) :
  phase_value p = phase_value q -> p = q.
Proof. destruct p, q; simpl; intro H; try reflexivity; discriminate H. Qed.

Lemma validate_on_phase (state : StockAgentState) (p q : QuizSessionPhase) :
  quiz_session_phase state = phase_value p ->
  validate_session_transition state q = allowed p q.
Proof.
  intro H. unfold validate_session_transition. rewrite H.
  destruct p, q; reflexivity.
Qed.

Lemma validate_unknown_phase (state : StockAgentState) (q : QuizSessionPhase) :
  (forall p, quiz_session_phase state <> phase_value p) ->
  validate_session_transition state q = false.
Proof.
  intro H. unfold validate_session_transition.
  cbv beta iota delta [dict_get valid_transitions phase_value].
  destruct (String.eqb_spec "inactive" (quiz_session_phase state)) as [E|_];
    [exfalso; apply (H INACTIVE); symmetry; exact E|].
  destruct (String.eqb_spec "asking" (quiz_session_phase state)) as [E|_];
    [exfalso; apply (H ASKING); symmetry; exact E|].
  destruct (String.eqb_spec "processing" (quiz_session_phase state)) as [E|_];
    [exfalso; apply (H PROCESSING); symmetry; exact E|].
  destruct (String.eqb_spec "completed" (quiz_session_phase state)) as [E|_];
    [exfalso; apply (H COMPLETED); symmetry; exact E|].
  reflexivity.
Qed.

(** C2, as stated, fails: on an active session in phase completed, the
    transition to asking is outside the allow-list (the validator says no),
    yet [update_session_phase] carries it out. *)
Lemma update_session_phase_ignores_allow_list :
  is_session_active completed_state = true /\
  quiz_session_phase completed_state = phase_value COMPLETED /\
  allowed COMPLETED ASKING = false /\
  validate_session_transition completed_state ASKING = false /\
  quiz_session_phase (update_session_phase completed_state ASKING)
    = phase_value ASKING.
Proof. repeat split. Qed.

(** C2, amended: [validate_session_transition] answers true exactly for the
    pairs of the allow-list (and false, without raising, for a current phase
    that is none of the four); [update_session_phase] does not consult it:
    on an active session it sets whatever target phase it is given, and on an
    inactive one it leaves the state as it is. *)
Theorem quiz_phase_legality (state : StockAgentState)
  (target : QuizSessionPhase) :
  (forall current, quiz_session_phase state = phase_value current ->
     (validate_session_transition state target = true <->
      In (current, target) allow_list)) /\
  ((forall current, quiz_session_phase state <> phase_value current) ->
     validate_session_transition state target = false) /\
  (is_session_active state = true ->
     update_session_phase state target
       = set_quiz_session_phase state (phase_value target)) /\
  (is_session_active state = false ->
     update_session_phase state target = state).
Proof.
  split; [|split; [|split]].
  - intros current H. rewrite (validate_on_phase state current target H).
    unfold allow_list.
    destruct current, target; simpl; split; intro K;
      try reflexivity; try discriminate K; auto 10;
      repeat (destruct K as [K|K]; [discriminate K|]); contradiction.
  - apply validate_unknown_phase.
  - intro H. unfold update_session_phase. rewrite H. reflexivity.
  - intro H. unfold update_session_phase. rewrite H. reflexivity.
Qed.

(** The quiz fields after a teardown. *)
Definition quiz_fields_reset (s : StockAgentState) : Prop :=
  quiz_session_active s = false /\
  quiz_session_id s = "" /\
  quiz_session_start_time s = "" /\
  quiz_current_question s = None /\
  quiz_hint_used s = false /\
  quiz_session_phase s = "inactive".

(** C10: whatever the storage collaborator does (it may store the row,
    report failure, or raise), and whatever the arguments, [end_session]
    returns a state whose quiz sub-record is fully reset; a second
    [end_session] on that state, again with any arguments, returns the same
    state and does not touch storage. *)
Theorem end_session_total_idempotent
  (save_quiz_result : QuizDatabase.SaveFn)
  (now : datetime) (db : QuizDb) (state : StockAgentState)
  (save_to_db : bool) (user_answer : string) (is_correct : bool)
  (request_id : string) (reward_info : option RewardInfo) :
  let once :=
    end_session save_quiz_result now db state save_to_db user_answer
                is_correct request_id reward_info in
  quiz_fields_reset (snd once) /\
  forall now' save_to_db' user_answer' is_correct' request_id' reward_info',
    end_session save_quiz_result now' (fst once) (snd once) save_to_db'
                user_answer' is_correct' request_id' reward_info'
    = once.
Proof.
  cbv zeta. split.
  - unfold end_session, quiz_fields_reset. simpl. repeat split.
  - intros. unfold end_session at 1. simpl.
    destruct save_to_db'; unfold end_session; simpl;
      destruct save_to_db, (quiz_current_question state); simpl;
      try reflexivity;
      destruct (save_quiz_result _ _ _ _ _ _ _ _ _ _ _) as [db1 [[|]|]];
      reflexivity.
Qed.

End QuizManagerFacts.

(** ** The session store *)

Section DictFacts.
Import PyDict.
Context {V : Type}.

Definition notin (ks : list string) (k : string) : bool :=
  negb (existsb (String.eqb k) ks).

Lemma notin_false_iff (ks : list string) (k : string) :
  notin ks k = false <-> In k ks.
Proof.
  unfold notin. rewrite negb_false_iff, existsb_exists. split.
  - intros [x [Hin Heq]]. apply String.eqb_eq in Heq. now subst.
  - intro Hin. exists k. split; [assumption | apply String.eqb_refl].
Qed.

Lemma notin_true_iff (ks : list string) (k : string) :
  notin ks k = true <-> ~ In k ks.
Proof.
  rewrite <- notin_false_iff. destruct (notin ks k); split; intro H;
    try reflexivity; try discriminate H;
    first [ intro C; discriminate C | exfalso; apply H; reflexivity ].
Qed.

Lemma filter_twice {A : Type} (f g : A -> bool) (l : list A) :
  filter f (filter g l) = filter (fun x => g x && f x) l.
Proof.
  induction l as [|x l IH]; simpl; [reflexivity|].
  destruct (g x); simpl; [destruct (f x)|]; now rewrite IH.
Qed.

Lemma pop_all_filter (ks : list string) (d : dict V) :
  pop_all d ks = filter (fun kv => notin ks (fst kv)) d.
Proof.
  unfold pop_all. revert d.
  induction ks as [|k ks IH]; intro d; simpl.
  - unfold notin. simpl. induction d as [|x d IHd]; simpl; congruence.
  - rewrite IH. unfold pop. rewrite filter_twice.
    apply filter_ext. intros [k' v]. unfold notin. simpl.
    now rewrite negb_orb.
Qed.

Lemma keys_filter (P : string -> bool) (d : dict V) :
  keys (filter (fun kv => P (fst kv)) d) = filter P (keys d).
Proof.
  unfold keys. induction d as [|[k v] d IH]; simpl; [reflexivity|].
  destruct (P k); simpl; now rewrite IH.
Qed.

Lemma lookup_filter_keep (P : string -> bool) (d : dict V) (k : string) :
  P k = true -> lookup (filter (fun kv => P (fst kv)) d) k = lookup d k.
Proof.
  intro HP. induction d as [|[k' v] d IH]; simpl; [reflexivity|].
  destruct (String.eqb_spec k' k) as [->|Hne].
  - rewrite HP. simpl. now rewrite String.eqb_refl.
  - destruct (P k'); simpl; [|exact IH].
    destruct (String.eqb_spec k' k); [contradiction | exact IH].
Qed.

Lemma lookup_filter_drop (P : string -> bool) (d : dict V) (k : string) :
  P k = false -> lookup (filter (fun kv => P (fst kv)) d) k = None.
Proof.
  intro HP. induction d as [|[k' v] d IH]; simpl; [reflexivity|].
  destruct (P k') eqn:E; simpl; [|exact IH].
  destruct (String.eqb_spec k' k) as [->|_]; [congruence | exact IH].
Qed.

Lemma lookup_filter_None (P : string -> bool) (d : dict V) (k : string) :
  lookup d k = None -> lookup (filter (fun kv => P (fst kv)) d) k = None.
Proof.
  intro H. destruct (P k) eqn:E.
  - now rewrite lookup_filter_keep.
  - now apply lookup_filter_drop.
Qed.

Lemma lookup_None_iff (d : dict V) (k : string) :
  lookup d k = None <-> ~ In k (keys d).
Proof.
  unfold keys. induction d as [|[k' v] d IH]; simpl.
  - split; [intros _ []| reflexivity].
  - destruct (String.eqb_spec k' k) as [->|Hne].
    + split; [discriminate | intro H; exfalso; apply H; now left].
    + rewrite IH. split; intro H.
      * intros [E|I]; [contradiction | now apply H].
      * intro I. apply H. now right.
Qed.

Lemma lookup_In (d : dict V) (k : string) (v : V) :
  NoDup (keys d) -> In (k, v) d -> lookup d k = Some v.
Proof.
  unfold keys. induction d as [|[k' v'] d IH]; simpl; intros ND HI; [easy|].
  inversion ND as [|? ? Hnot ND']; subst.
  destruct HI as [E|HI].
  - inversion E; subst. now rewrite String.eqb_refl.
  - destruct (String.eqb_spec k' k) as [->|_].
    + exfalso. apply Hnot. apply in_map_iff. now exists (k, v).
    + now apply IH.
Qed.

Lemma lookup_Some_In (d : dict V) (k : string) (v : V) :
  lookup d k = Some v -> In (k, v) d.
Proof.
  induction d as [|[k' v'] d IH]; simpl; [discriminate|].
  destruct (String.eqb_spec k' k) as [->|_].
  - intro E. inversion E. now left.
  - intro E. right. now apply IH.
Qed.

Lemma keys_set (d : dict V) (k : string) (v : V) :
  keys (set d k v) = if mem d k then keys d else (keys d ++ [k])%list.
Proof.
  unfold mem, keys. induction d as [|[k' v'] d IH]; simpl; [reflexivity|].
  destruct (String.eqb_spec k' k) as [->|_]; simpl; [reflexivity|].
  rewrite IH. now destruct (lookup d k).
Qed.

Lemma lookup_set_same (d : dict V) (k : string) (v : V) :
  lookup (set d k v) k = Some v.
Proof.
  induction d as [|[k' v'] d IH]; simpl.
  - now rewrite String.eqb_refl.
  - destruct (String.eqb_spec k' k) as [->|Hne]; simpl.
    + now rewrite String.eqb_refl.
    + destruct (String.eqb_spec k' k); [contradiction | exact IH].
Qed.

End DictFacts.

Section StoreFacts.
Import PyDict SessionStore.
Variable fromisoformat : string -> option datetime.

Local Abbreviation cleanup := (cleanup_expired_sessions fromisoformat).
Local Abbreviation get_state := (get_session_state fromisoformat).

(** The two dictionaries describe the same sessions, in the same order. *)
Definition consistent (st : Store) : Prop :=
  NoDup (keys (session_store st)) /\
  keys (session_store st) = keys (session_timestamps st).

(** No record under this identifier. *)
Definition absent (st : Store) (id : string) : Prop :=
  lookup (session_store st) id = None /\
  lookup (session_timestamps st) id = None.

Lemma remove_sessions_filter (st : Store) (ids : list string) :
  remove_sessions st ids =
  {| session_store :=
       filter (fun kv => notin ids (fst kv)) (session_store st);
     session_timestamps :=
       filter (fun kv => notin ids (fst kv)) (session_timestamps st) |}.
Proof. unfold remove_sessions. now rewrite !pop_all_filter. Qed.

Lemma remove_sessions_consistent (st : Store) (ids : list string) :
  consistent st -> consistent (remove_sessions st ids).
Proof.
  intros [ND EQ]. rewrite remove_sessions_filter. unfold consistent. simpl.
  rewrite !keys_filter. split.
  - now apply NoDup_filter.
  - now rewrite EQ.
Qed.

Lemma remove_sessions_absent (st : Store) (ids : list string) (id : string) :
  In id ids \/ absent st id -> absent (remove_sessions st ids) id.
Proof.
  rewrite remove_sessions_filter. unfold absent. simpl.
  intros [HI | [H1 H2]].
  - apply notin_false_iff in HI.
    split; now apply (lookup_filter_drop (fun k => notin ids k)).
  - split; now apply (lookup_filter_None (fun k => notin ids k)).
Qed.

Lemma evict_oldest_absent (st : Store) (id : string) :
  absent st id -> absent (evict_oldest st) id.
Proof.
  intro H. unfold evict_oldest.
  destruct (MAX_SESSIONS <? List.length (session_store st))%nat; [|exact H].
  apply remove_sessions_absent. now right.
Qed.

Lemma insert_by_time_perm (x : string * datetime) (l : list (string * datetime)) :
  Permutation (insert_by_time x l) (x :: l).
Proof.
  induction l as [|y l IH]; simpl; [apply Permutation_refl|].
  destruct (snd x <=? snd y); [apply Permutation_refl|].
  apply perm_trans with (y :: x :: l); [now apply perm_skip | apply perm_swap].
Qed.

Lemma sorted_by_time_perm (l : list (string * datetime)) :
  Permutation (sorted_by_time l) l.
Proof.
  induction l as [|x l IH]; simpl; [apply perm_nil|].
  apply perm_trans with (x :: sorted_by_time l);
    [apply insert_by_time_perm | now apply perm_skip].
Qed.

Lemma NoDup_firstn_keep {A : Type} (n : nat) (l : list A) :
  NoDup l -> NoDup (firstn n l).
Proof.
  intro ND. rewrite <- (firstn_skipn n l) in ND.
  now apply NoDup_app_remove_r in ND.
Qed.

(** Removing [ks], distinct keys all present, from a list of distinct keys
    shortens it by [length ks]. *)
Lemma filter_notin_length (ks l : list string) :
  NoDup ks -> NoDup l -> incl ks l ->
  (List.length (filter (notin ks) l) + List.length ks = List.length l)%nat.
Proof.
  intros NDk NDl Hincl.
  assert (P : Permutation (filter (fun x => negb (notin ks x)) l) ks).
  { apply NoDup_Permutation.
    - now apply NoDup_filter.
    - exact NDk.
    - intro x. rewrite filter_In, negb_true_iff, notin_false_iff.
      split; [tauto | intro H; split; [now apply Hincl | exact H]]. }
  rewrite <- (filter_length (notin ks) l), (Permutation_length P).
  reflexivity.
Qed.

Lemma evict_oldest_population (st : Store) :
  consistent st -> (population (evict_oldest st) <= MAX_SESSIONS)%nat.
Proof.
  intros [ND EQ]. unfold evict_oldest, population.
  destruct (Nat.ltb_spec MAX_SESSIONS (List.length (session_store st)))
    as [Hgt|Hle]; [|exact Hle].
  rewrite remove_sessions_filter. simpl.
  set (n := (List.length (session_store st) - MAX_SESSIONS)%nat).
  set (ks := map fst (firstn n (sorted_by_time (session_timestamps st)))).
  assert (Hlen : List.length (keys (session_store st))
                 = List.length (session_store st))
    by (unfold keys; apply length_map).
  assert (Hperm : Permutation (map fst (sorted_by_time (session_timestamps st)))
                              (keys (session_store st))).
  { rewrite EQ. unfold keys. apply Permutation_map, sorted_by_time_perm. }
  assert (NDs : NoDup (map fst (sorted_by_time (session_timestamps st)))).
  { apply (Permutation_NoDup (Permutation_sym Hperm)). exact ND. }
  assert (NDk : NoDup ks).
  { unfold ks. rewrite <- firstn_map. now apply NoDup_firstn_keep. }
  assert (Hincl : incl ks (keys (session_store st))).
  { intros x Hx. apply (Permutation_in _ Hperm).
    unfold ks in Hx. rewrite <- firstn_map in Hx.
    rewrite <- (firstn_skipn n (map fst _)). apply in_or_app. now left. }
  assert (Hk : List.length ks = n).
  { unfold ks. rewrite length_map, length_firstn.
    apply Nat.min_l. rewrite <- (length_map fst).
    rewrite (Permutation_length Hperm), Hlen. unfold n. lia. }
  pose proof (filter_notin_length ks (keys (session_store st)) NDk ND Hincl)
    as Hsum.
  rewrite <- (length_map fst
                (filter (fun kv => notin ks (fst kv)) (session_store st))).
  change (map fst ?d) with (keys d).
  rewrite keys_filter. unfold n in Hk. lia.
Qed.

Lemma evict_oldest_consistent (st : Store) :
  consistent st -> consistent (evict_oldest st).
Proof.
  intro H. unfold evict_oldest.
  destruct (MAX_SESSIONS <? List.length (session_store st))%nat; [|exact H].
  now apply remove_sessions_consistent.
Qed.

Lemma cleanup_consistent (now : datetime) (st : Store) :
  consistent st -> consistent (cleanup now st).
Proof.
  intro H. unfold cleanup_expired_sessions.
  now apply evict_oldest_consistent, remove_sessions_consistent.
Qed.

(** Right after a sweep the population is within the capacity. *)
Lemma cleanup_population (now : datetime) (st : Store) :
  consistent st -> (population (cleanup now st) <= MAX_SESSIONS)%nat.
Proof.
  intro H. unfold cleanup_expired_sessions.
  now apply evict_oldest_population, remove_sessions_consistent.
Qed.

Lemma set_both_consistent (st : Store) (id : string) (s : StockAgentState)
  (t : datetime) :
  consistent st ->
  consistent {| session_store := set (session_store st) id s;
                session_timestamps := set (session_timestamps st) id t |}.
Proof.
  intros [ND EQ]. unfold consistent. simpl. rewrite !keys_set.
  assert (Hmem : mem (session_timestamps st) id = mem (session_store st) id).
  { unfold mem.
    destruct (lookup (session_store st) id) eqn:E1,
             (lookup (session_timestamps st) id) eqn:E2; try reflexivity.
    - apply lookup_None_iff in E2. rewrite <- EQ in E2.
      apply lookup_None_iff in E2. congruence.
    - apply lookup_None_iff in E1. rewrite EQ in E1.
      apply lookup_None_iff in E1. congruence. }
  rewrite Hmem. unfold mem.
  destruct (lookup (session_store st) id) eqn:E.
  - now split.
  - split; [|now rewrite EQ].
    apply lookup_None_iff in E.
    apply NoDup_app; [exact ND | repeat constructor; intros [] |].
    intros x Hx [<-|[]]. contradiction.
Qed.

Lemma save_consistent (now : datetime) (st : Store) (id : string)
  (s : StockAgentState) :
  consistent st -> consistent (save_session_state now st id s).
Proof.
  intro H. unfold save_session_state.
  destruct (String.eqb id ""); [exact H | now apply set_both_consistent].
Qed.

Lemma get_consistent (now : datetime) (st : Store) (id : string) :
  consistent st -> consistent (fst (get_state now st id)).
Proof.
  intro H. apply (cleanup_consistent now) in H.
  unfold get_session_state.
  destruct (String.eqb id "") eqn:E; simpl; [exact H|].
  destruct (lookup (session_store (cleanup now st)) id) eqn:L; simpl.
  - destruct H as [ND EQ]. split; simpl; [exact ND|].
    rewrite keys_set.
    assert (M : mem (session_timestamps (cleanup now st)) id = true).
    { unfold mem.
      destruct (lookup (session_timestamps (cleanup now st)) id) eqn:E2;
        [reflexivity|].
      apply lookup_None_iff in E2. rewrite <- EQ in E2.
      apply lookup_None_iff in E2. congruence. }
    now rewrite M.
  - now apply set_both_consistent.
Qed.

Lemma length_set_le {V : Type} (d : dict V) (k : string) (v : V) :
  (List.length (set d k v) <= S (List.length d))%nat.
Proof.
  induction d as [|[k' v'] d IH]; simpl; [lia|].
  destruct (String.eqb k' k); simpl; lia.
Qed.

(** A lookup sweeps before it inserts, so it can leave one record more than
    the capacity behind. *)
Lemma get_population (now : datetime) (st : Store) (id : string) :
  consistent st ->
  (population (fst (get_state now st id)) <= S MAX_SESSIONS)%nat.
Proof.
  intro H. pose proof (cleanup_population now st H) as B.
  unfold get_session_state, population in *.
  destruct (String.eqb id "") eqn:E; simpl; [lia|].
  destruct (lookup (session_store (cleanup now st)) id); simpl; [lia|].
  pose proof (length_set_le (session_store (cleanup now st)) id
                default_stock_agent_state). lia.
Qed.

Lemma not_expired_entry_kept (now : datetime) (st : Store) (id : string)
  (ts : datetime) :
  NoDup (keys (session_timestamps st)) ->
  In (id, ts) (session_timestamps st) ->
  is_expired_entry fromisoformat now st id ts = false ->
  notin (expired_sessions fromisoformat now st) id = true.
Proof.
  intros ND HI HE. apply notin_true_iff. unfold expired_sessions.
  intro HIn. apply in_map_iff in HIn. destruct HIn as [[id' ts'] [E HF]].
  simpl in E. subst id'. apply filter_In in HF. destruct HF as [HI' HX].
  simpl in HX.
  pose proof (lookup_In _ _ _ ND HI) as L1.
  pose proof (lookup_In _ _ _ ND HI') as L2.
  rewrite L1 in L2. inversion L2; subst. congruence.
Qed.


(** Whole minutes on the clock. *)
Definition minute (m : Z) : datetime := timedelta_minutes m.

(** Five sessions opened one minute apart, none of them idle for long. *)
Definition five_sessions : Store :=
  fold_left (fun st '(m, id) => fst (get_state (minute m) st id))
            [(0, "S1"); (1, "S2"); (2, "S3"); (3, "S4"); (4, "S5")] empty.

(** C1 at the failing input: with five sessions stored, a request for a
    sixth identifier leaves six records behind, the least recently active one
    among them; only the sweep of the next request brings the population back
    to five by evicting it. *)
Theorem sixth_session_exceeds_capacity :
  let st6 := fst (get_state (minute 5) five_sessions "S6") in
  population five_sessions = 5%nat /\
  population st6 = 6%nat /\
  (MAX_SESSIONS < population st6)%nat /\
  mem (session_store st6) "S1" = true /\
  population (cleanup (minute 5) st6) = 5%nat /\
  mem (session_store (cleanup (minute 5) st6)) "S1" = false.
Proof.
  cbv zeta. repeat apply conj; try reflexivity.
  apply Nat.ltb_lt. reflexivity.
Qed.

End StoreFacts.

(** ** The tool-calling protocol *)
Section StringFacts.

Lemma prefix_app (n b : string) : String.prefix n (n ++ b) = true.
Proof.
  induction n as [|c n IH]; simpl; [now destruct b|].
  destruct (ascii_dec c c) as [_|N]; [exact IH | contradiction].
Qed.

Lemma append_assoc (a b c : string) : ((a ++ b) ++ c = a ++ (b ++ c))%string.
Proof. induction a as [|x a IH]; simpl; [reflexivity | now rewrite IH]. Qed.

Lemma append_empty_r (a : string) : (a ++ "" = a)%string.
Proof. induction a as [|x a IH]; simpl; [reflexivity | now rewrite IH]. Qed.

Lemma substring_of_unfold (n h : string) :
  Py.substring_of n h =
  if String.prefix n h then true
  else match h with
       | EmptyString => false
       | String _ h' => Py.substring_of n h'
       end.
Proof. destruct h; reflexivity. Qed.

(** [needle in hay] holds whenever [hay] is [a ++ needle ++ b]. *)
Lemma substring_of_app (n a b : string) :
  Py.substring_of n (a ++ n ++ b) = true.
Proof.
  induction a as [|c a IH].
  - simpl append. now rewrite substring_of_unfold, prefix_app.
  - rewrite substring_of_unfold.
    change (String c a ++ n ++ b)%string with (String c (a ++ n ++ b)).
    destruct (String.prefix n _); [reflexivity | exact IH].
Qed.

Lemma join_contains (sep x : string) (l : list string) :
  In x l -> exists a b, Py.join sep l = (a ++ x ++ b)%string.
Proof.
  induction l as [|y l IH]; intros HI; [destruct HI|].
  destruct HI as [->|HI].
  - destruct l as [|z l].
    + exists "", "". simpl. now rewrite append_empty_r.
    + exists "", (sep ++ Py.join sep (z :: l))%string. reflexivity.
  - destruct l as [|z l]; [destruct HI|].
    destruct (IH HI) as [a [b E]].
    exists (y ++ sep ++ a)%string, b.
    change (Py.join sep (y :: z :: l))
      with (y ++ sep ++ Py.join sep (z :: l))%string.
    rewrite E. now rewrite !append_assoc.
Qed.

End StringFacts.

Section ProtocolFacts.
Import FunctionCalling.
Variable exn_str : exn -> string.
Variable py_repr : json -> string.
Variable json_loads : string -> option json.
Variable json_dumps : json -> string.
Variable completion : list json -> json -> outcome json.

Local Abbreviation exec_tool := (execute_tool exn_str py_repr json_loads).
Local Abbreviation exec_all := (execute_all exn_str py_repr json_loads).
Local Abbreviation aggr := (aggregate py_repr).
Local Abbreviation run_protocol :=
  (run exn_str py_repr json_loads json_dumps completion).

(** The events a computation adds are all tool invocations. *)
Definition only_invokes {A : Type} (c : M A) : Prop :=
  forall log, exists extra,
    snd (c log) = (log ++ extra)%list /\
    Forall (fun e => is_invocation e = true) extra.

Lemma execute_tool_try_only_invokes (tool_call : json)
  (tool_functions : PyDict.dict Tool) :
  only_invokes (execute_tool_try py_repr json_loads tool_call tool_functions).
Proof.
  intro log. unfold execute_tool_try.
  assert (Z0 : exists extra : list Event,
             log = (log ++ extra)%list /\
             Forall (fun e => is_invocation e = true) extra)
    by (exists []; split; [now rewrite app_nil_r | constructor]).
  destruct (Py.getitem tool_call "function") as [fn|]; [|exact Z0].
  destruct (Py.getitem fn "name") as [function_name|]; [|exact Z0].
  destruct (Py.getitem fn "arguments") as [arguments0|]; [|exact Z0].
  destruct (match arguments0 with
            | JStr s => match json_loads s with
                        | Some a => Ok a
                        | None => Raise JSONDecodeError
                        end
            | _ => Ok arguments0
            end) as [arguments|]; [|exact Z0].
  destruct (negb (Py.hashable function_name)); [exact Z0|].
  destruct (match function_name with
            | JStr name =>
                match PyDict.lookup tool_functions name with
                | Some tool => Some (name, tool)
                | None => None
                end
            | _ => None
            end) as [[name tool]|].
  - assert (Z1 : exists extra : list Event,
               (log ++ [ToolInvocation name arguments])%list
               = (log ++ extra)%list /\
               Forall (fun e => is_invocation e = true) extra)
      by (exists [ToolInvocation name arguments]; split;
          [reflexivity | repeat constructor]).
    destruct (tool arguments); [|exact Z1].
    destruct (Py.getitem tool_call "id"); exact Z1.
  - destruct (Py.getitem tool_call "id"); exact Z0.
Qed.

Lemma execute_tool_only_invokes (tool_call : json)
  (tool_functions : PyDict.dict Tool) :
  only_invokes (exec_tool tool_call tool_functions).
Proof.
  intro log. unfold execute_tool, bind.
  destruct (execute_tool_try_only_invokes tool_call tool_functions log)
    as [extra [E F]].
  destruct (execute_tool_try py_repr json_loads tool_call tool_functions log)
    as [[[locals [entry|e]]|e] log'] eqn:T; simpl in E; subst log';
    exists extra; (split; [|exact F]).
  - reflexivity.
  - unfold lift. reflexivity.
  - reflexivity.
Qed.

Lemma execute_all_only_invokes (tool_calls : list json)
  (tool_functions : PyDict.dict Tool) :
  only_invokes (exec_all tool_calls tool_functions).
Proof.
  induction tool_calls as [|tc rest IH]; intro log; simpl.
  - exists []. split; [now rewrite app_nil_r | constructor].
  - unfold bind at 1.
    destruct (execute_tool_only_invokes tc tool_functions log)
      as [extra1 [E1 F1]].
    destruct (exec_tool tc tool_functions log) as [[r|e] log1];
      simpl in E1; subst log1.
    + unfold bind at 1.
      destruct (IH (log ++ extra1)%list) as [extra2 [E2 F2]].
      destruct (exec_all rest tool_functions (log ++ extra1)%list)
        as [[rs|e] log2]; simpl in E2; subst log2; simpl;
        exists (extra1 ++ extra2)%list;
        (split; [now rewrite app_assoc | now apply Forall_app]).
    + exists extra1. now split.
Qed.

(** What one run of the try block does, case by case. *)
Lemma process_try_cases (messages : list json) (tools : json)
  (tool_functions : PyDict.dict Tool) :
  let sent := [CompletionRequest messages tools] in
  process_try exn_str py_repr json_loads json_dumps completion
              messages tools tool_functions [] =
  match completion messages tools with
  | Raise e => (Raise e, sent)
  | Ok response =>
      match extract_message response with
      | Raise e => (Raise e, sent)
      | Ok None => (Ok (Failed "Invalid API response" []), sent)
      | Ok (Some message) =>
          match no_tool_calls message with
          | Raise e => (Raise e, sent)
          | Ok true =>
              match Py.get message "content" (JStr "") with
              | Raise e => (Raise e, sent)
              | Ok content => (Ok (Succeeded [] (Some content)), sent)
              end
          | Ok false =>
              match requested_tool_calls message with
              | Raise e => (Raise e, sent)
              | Ok tool_calls =>
                  match Py.iter tool_calls with
                  | Raise e => (Raise e, sent)
                  | Ok calls =>
                      match exec_all calls tool_functions sent with
                      | (Ok tool_results, log) => (Ok (aggr tool_results), log)
                      | (Raise e, log) => (Raise e, log)
                      end
                  end
              end
          end
      end
  end.
Proof.
  cbv zeta. unfold process_try, call_clova_function_calling, bind, emit, lift, ret.
  simpl app.
  destruct (completion messages tools) as [response|e]; [|reflexivity].
  destruct (extract_message response) as [[message|]|e]; try reflexivity.
  destruct (no_tool_calls message) as [[|]|e]; reflexivity.
Qed.

Lemma invocations_are_not_completions (extra : list Event) :
  Forall (fun e => is_invocation e = true) extra ->
  filter is_completion extra = [].
Proof.
  induction 1 as [|e extra He _ IH]; simpl; [reflexivity|].
  destruct e; simpl in *; [discriminate He | exact IH].
Qed.

Lemma execute_all_length (tool_calls : list json)
  (tool_functions : PyDict.dict Tool) (log log' : list Event)
  (tool_results : list ToolResult) :
  exec_all tool_calls tool_functions log = (Ok tool_results, log') ->
  List.length tool_results = List.length tool_calls.
Proof.
  revert log log' tool_results.
  induction tool_calls as [|tc rest IH]; intros log log' rs; simpl.
  - unfold ret. intro E. now inversion E.
  - unfold bind at 1.
    destruct (exec_tool tc tool_functions log) as [[r|e] log1];
      [|discriminate].
    unfold bind at 1.
    destruct (exec_all rest tool_functions log1) as [[rs'|e] log2] eqn:E2;
      [|discriminate].
    unfold ret. intro E. inversion E; subst. simpl.
    f_equal. exact (IH _ _ _ E2).
Qed.

(** A tool call as the completion service documents it: an object with an
    id and a function that has a name and arguments. *)
Definition well_formed_call (tool_call : json) : Prop :=
  exists m fn id name args,
    tool_call = JObj m /\
    Py.obj_lookup m "function" = Some (JObj fn) /\
    Py.obj_lookup m "id" = Some id /\
    Py.obj_lookup fn "name" = Some name /\
    Py.obj_lookup fn "arguments" = Some args.

(** On such a call [execute_tool] always returns an entry: an unknown name,
    unparsable arguments or an exception inside the tool become a failed
    entry, never an exception of [execute_tool]. *)
Lemma execute_tool_well_formed (tool_call : json)
  (tool_functions : PyDict.dict Tool) (log : list Event) :
  well_formed_call tool_call ->
  exists entry log', exec_tool tool_call tool_functions log = (Ok entry, log').
Proof.
  intros [m [fn [id [name [args [-> [Hf [Hid [Hn Ha]]]]]]]]].
  unfold execute_tool, bind, execute_tool_try, execute_tool_except, lift, ret.
  simpl Py.getitem. rewrite Hf. simpl Py.getitem. rewrite Hn, Ha, Hid.
  destruct (match args with
            | JStr s => match json_loads s with
                        | Some a => Ok a
                        | None => Raise JSONDecodeError
                        end
            | _ => Ok args
            end) as [arguments|e]; simpl; rewrite ?Hid; simpl; [|eauto].
  destruct (negb (Py.hashable name)); simpl; rewrite ?Hid; simpl; [eauto|].
  destruct (match name with
            | JStr name0 =>
                match PyDict.lookup tool_functions name0 with
                | Some tool => Some (name0, tool)
                | None => None
                end
            | _ => None
            end) as [[name0 tool]|]; simpl; rewrite ?Hid; simpl; [|eauto].
  destruct (tool arguments); simpl; rewrite ?Hid; simpl; eauto.
Qed.

(** Conversely, a call for which [execute_tool] returns an entry has that
    shape: on any other call the handler itself raises. *)
Lemma execute_tool_returns_only_well_formed (tool_call : json)
  (tool_functions : PyDict.dict Tool) (log log' : list Event)
  (entry : ToolResult) :
  exec_tool tool_call tool_functions log = (Ok entry, log') ->
  well_formed_call tool_call.
Proof.
  unfold execute_tool, bind, execute_tool_try, execute_tool_except, lift, ret.
  intro H.
  destruct tool_call as [| | | | |m]; cbn [Py.getitem] in H;
    try discriminate H.
  destruct (Py.obj_lookup m "function") as [[| | | | |fm]|] eqn:Hf;
    cbn [Py.getitem loc_function_name] in H; try discriminate H.
  destruct (Py.obj_lookup fm "name") as [name|] eqn:Hn;
    cbn [loc_function_name] in H; try discriminate H.
  destruct (Py.obj_lookup fm "arguments") as [args|] eqn:Ha;
    cbn [loc_function_name loc_arguments] in H.
  - destruct (Py.obj_lookup m "id") as [id|] eqn:Hid.
    + exists m, fm, id, name, args. auto.
    + exfalso.
      destruct (match args with
                | JStr s => match json_loads s with
                            | Some a => Ok a
                            | None => Raise JSONDecodeError
                            end
                | _ => Ok args
                end) as [arguments|e]; [|discriminate H].
      destruct (negb (Py.hashable name)); [discriminate H|].
      destruct (match name with
                | JStr name0 =>
                    match PyDict.lookup tool_functions name0 with
                    | Some tool => Some (name0, tool)
                    | None => None
                    end
                | _ => None
                end) as [[name0 tool]|]; [|discriminate H].
      destruct (tool arguments); discriminate H.
  - destruct (Py.obj_lookup m "id"); discriminate H.
Qed.

Lemma execute_all_well_formed (tool_calls : list json)
  (tool_functions : PyDict.dict Tool) (log : list Event) :
  Forall well_formed_call tool_calls ->
  exists tool_results log',
    exec_all tool_calls tool_functions log = (Ok tool_results, log').
Proof.
  intro H. revert log. induction H as [|tc rest Htc _ IH]; intro log; simpl.
  - unfold ret. eauto.
  - unfold bind at 1.
    destruct (execute_tool_well_formed tc tool_functions log Htc)
      as [entry [log1 E1]].
    rewrite E1. unfold bind at 1.
    destruct (IH log1) as [rs [log2 E2]]. rewrite E2. unfold ret. eauto.
Qed.

(** The test of line 165 on a message that is a dictionary: it takes the
    direct-answer branch exactly when neither key is present. *)
Lemma no_tool_calls_keys (fields : list (string * json)) :
  no_tool_calls (JObj fields) =
  Ok (match Py.obj_lookup fields "toolCalls", Py.obj_lookup fields "tool_calls"
      with
      | None, None => true
      | _, _ => false
      end).
Proof.
  unfold no_tool_calls. simpl.
  destruct (Py.obj_lookup fields "toolCalls");
    destruct (Py.obj_lookup fields "tool_calls"); reflexivity.
Qed.

(** C4, amended: every run sends exactly one request to the completion
    gateway, the transcript (with the feedback turn when there is feedback),
    and returns a reply without raising.  (a) When the response's message is a
    dictionary with neither key "toolCalls" nor key "tool_calls", the reply is
    success with the message's content as direct answer (the empty string when
    it has none), no tool result, and nothing but that one request happened.
    (b) When one of the two keys is present the direct-answer branch is not
    taken, even if no tool call is requested: with an empty list under the key
    the reply is success with no tool result and no answer ([final_response]
    is [None]), and with a value that cannot be iterated, such as null, the
    reply is the failure that carries [str(e)].  (c) Conversely a reply
    carries an answer only in case (a). *)
Theorem single_completion_round (initial_messages : list json) (tools : json)
  (tool_functions : PyDict.dict Tool) (feedback : string) :
  let sent := transcript initial_messages feedback in
  let out := run_protocol initial_messages tools tool_functions feedback in
  (exists reply, fst out = Ok reply) /\
  filter is_completion (snd out) = [CompletionRequest sent tools] /\
  (forall response fields,
     completion sent tools = Ok response ->
     extract_message response = Ok (Some (JObj fields)) ->
     Py.obj_lookup fields "toolCalls" = None ->
     Py.obj_lookup fields "tool_calls" = None ->
     out = (Ok (Succeeded []
                  (Some (match Py.obj_lookup fields "content" with
                         | Some content => content
                         | None => JStr ""
                         end))),
            [CompletionRequest sent tools])) /\
  (forall response fields tool_calls,
     completion sent tools = Ok response ->
     extract_message response = Ok (Some (JObj fields)) ->
     Py.obj_lookup fields "toolCalls" <> None \/
     Py.obj_lookup fields "tool_calls" <> None ->
     requested_tool_calls (JObj fields) = Ok tool_calls ->
     (Py.iter tool_calls = Ok [] ->
      out = (Ok (Succeeded [] None), [CompletionRequest sent tools])) /\
     (forall e, Py.iter tool_calls = Raise e ->
      out = (Ok (Failed (exn_str e) []), [CompletionRequest sent tools])) /\
     (forall reply, fst out = Ok reply -> reply_final_response reply = None)) /\
  (forall reply answer,
     fst out = Ok reply ->
     reply_final_response reply = Some answer ->
     exists response fields,
       completion sent tools = Ok response /\
       extract_message response = Ok (Some (JObj fields)) /\
       Py.obj_lookup fields "toolCalls" = None /\
       Py.obj_lookup fields "tool_calls" = None /\
       out = (Ok (Succeeded [] (Some answer)),
              [CompletionRequest sent tools])).
Proof.
  cbv zeta. unfold run, process_function_calling, try_except.
  rewrite process_try_cases.
  set (sent := transcript initial_messages feedback).
  split; [|split; [|split; [|split]]].
  - destruct (completion sent tools) as [response|e]; [|simpl; eauto].
    destruct (extract_message response) as [[message|]|e]; try (simpl; eauto).
    destruct (no_tool_calls message) as [[|]|e]; try (simpl; eauto).
    + destruct (Py.get message "content" (JStr "")); simpl; eauto.
    + destruct (requested_tool_calls message) as [tc|e]; try (simpl; eauto).
      destruct (Py.iter tc) as [calls|e]; try (simpl; eauto).
      destruct (exec_all _ _ _) as [[rs|e] log]; simpl; eauto.
  - destruct (completion sent tools) as [response|e]; [|reflexivity].
    destruct (extract_message response) as [[message|]|e]; try reflexivity.
    destruct (no_tool_calls message) as [[|]|e]; try reflexivity.
    + destruct (Py.get message "content" (JStr "")); reflexivity.
    + destruct (requested_tool_calls message) as [tc|e]; try reflexivity.
      destruct (Py.iter tc) as [calls|e]; try reflexivity.
      destruct (execute_all_only_invokes calls tool_functions
                  [CompletionRequest sent tools]) as [extra [E F]].
      destruct (exec_all _ _ _) as [[rs|e] log]; simpl in E; subst log;
        simpl; now rewrite (invocations_are_not_completions extra F).
  - intros response fields Hc Hm Ht1 Ht2. rewrite Hc, Hm.
    unfold no_tool_calls. simpl. rewrite Ht1, Ht2. reflexivity.
  - intros response fields tool_calls Hc Hm Hkey Hr. rewrite Hc, Hm.
    assert (Hn : no_tool_calls (JObj fields) = Ok false).
    { rewrite no_tool_calls_keys.
      destruct (Py.obj_lookup fields "toolCalls");
        destruct (Py.obj_lookup fields "tool_calls"); try reflexivity.
      destruct Hkey as [H|H]; now contradiction H. }
    rewrite Hn, Hr. split; [|split].
    + intro Hi. rewrite Hi. reflexivity.
    + intros e Hi. rewrite Hi. reflexivity.
    + intros reply.
      destruct (Py.iter tool_calls) as [calls|e];
        [|simpl; intro H; injection H as <-; reflexivity].
      destruct (exec_all _ _ _) as [[rs|e] log]; simpl; intro H;
        injection H as <-; [|reflexivity].
      unfold aggregate. destruct (forallb success rs); reflexivity.
  - intros reply answer.
    destruct (completion sent tools) as [response|e] eqn:Hc;
      [|simpl; intros H; injection H as <-; discriminate].
    destruct (extract_message response) as [[message|]|e] eqn:Hm;
      try (simpl; intros H; injection H as <-; discriminate).
    destruct message as [| | | | |fields];
      try (destruct (no_tool_calls _) as [[|]|e];
           simpl; intros H; injection H as <-; discriminate).
    rewrite no_tool_calls_keys.
    destruct (Py.obj_lookup fields "toolCalls") eqn:T1;
      [|destruct (Py.obj_lookup fields "tool_calls") eqn:T2].
    3:{ simpl. intros H; injection H as <-. simpl. intro A.
        injection A as <-. exists response, fields. repeat split; auto. }
    all: destruct (requested_tool_calls (JObj fields)) as [tc|e];
      try (simpl; intros H; injection H as <-; discriminate);
      destruct (Py.iter tc) as [calls|e];
      try (simpl; intros H; injection H as <-; discriminate);
      destruct (exec_all _ _ _) as [[rs|e] log]; simpl; intros H;
      injection H as <-; try discriminate;
      unfold aggregate; destruct (forallb success rs); discriminate.
Qed.

(** C5, amended.  When no message object can be located in the response
    (neither [result.message] nor a non-empty [choices] list, or the lookup
    itself raises), the run is a failure with an empty tool-result list and
    nothing happened beyond the one completion request: no tool was invoked.
    When the lookup ends in the else branch the error is the text
    "Invalid API response", which no tool-execution failure carries; when the
    lookup raises [e] (a null [result], say) the error is [str(e)].  Either
    way the failure differs from a tool-execution failure, whose tool-result
    list is never empty. *)
Theorem malformed_response_fails (initial_messages : list json) (tools : json)
  (tool_functions : PyDict.dict Tool) (feedback : string) (response : json) :
  let sent := transcript initial_messages feedback in
  completion sent tools = Ok response ->
  (forall message, extract_message response <> Ok (Some message)) ->
  exists err,
    run_protocol initial_messages tools tool_functions feedback
      = (Ok (Failed err []), [CompletionRequest sent tools]) /\
    (extract_message response = Ok None -> err = "Invalid API response") /\
    (forall e, extract_message response = Raise e -> err = exn_str e) /\
    (forall tool_results,
       reply_error (aggr tool_results) <> Some "Invalid API response") /\
    (forall tool_results,
       reply_success (aggr tool_results) = false ->
       reply_tool_results (aggr tool_results) <> []).
Proof.
  cbv zeta. intros Hc Hm.
  unfold run, process_function_calling, try_except.
  rewrite process_try_cases, Hc.
  assert (D : forall tool_results,
             reply_error (aggr tool_results) <> Some "Invalid API response").
  { intro rs. unfold aggregate.
    destruct (forallb success rs); simpl; discriminate. }
  assert (N : forall tool_results,
             reply_success (aggr tool_results) = false ->
             reply_tool_results (aggr tool_results) <> []).
  { intro rs. unfold aggregate.
    destruct rs as [|r rs]; [discriminate|].
    destruct (forallb success (r :: rs)); simpl; discriminate. }
  destruct (extract_message response) as [[message|]|e] eqn:E.
  - exfalso. now apply (Hm message).
  - exists "Invalid API response". repeat split; auto; discriminate.
  - exists (exn_str e). repeat split; auto; try discriminate.
    intros e' H. now injection H as <-.
Qed.

(** C3: in a round whose response requests N tool calls (each an object
    with an id and a function that has a name and arguments), the loop
    returns one entry per call, the reply's success flag is the conjunction of
    the N entries' flags and the reply carries exactly those entries; if the
    flag is false, the error text contains "<function_name>: <result>" for
    every failed entry, and every successful entry is still in the list,
    marked successful. *)
Theorem tool_round_aggregation (initial_messages : list json) (tools : json)
  (tool_functions : PyDict.dict Tool) (feedback : string)
  (response message tool_calls : json) (calls : list json) :
  let sent := transcript initial_messages feedback in
  completion sent tools = Ok response ->
  extract_message response = Ok (Some message) ->
  no_tool_calls message = Ok false ->
  requested_tool_calls message = Ok tool_calls ->
  Py.iter tool_calls = Ok calls ->
  Forall well_formed_call calls ->
  exists tool_results log reply,
    exec_all calls tool_functions [CompletionRequest sent tools]
      = (Ok tool_results, log) /\
    run_protocol initial_messages tools tool_functions feedback
      = (Ok reply, log) /\
    List.length tool_results = List.length calls /\
    reply_success reply = forallb success tool_results /\
    reply_tool_results reply = tool_results /\
    (reply_success reply = false ->
     exists err,
       reply_error reply = Some err /\
       forall r, In r tool_results -> success r = false ->
         Py.substring_of
           (py_str py_repr (function_name r) ++ ": "
            ++ py_str py_repr (result r)) err = true) /\
    (forall r, In r tool_results -> success r = true ->
       In r (reply_tool_results reply) /\ success r = true).
Proof.
  cbv zeta. intros Hc Hm Hn Hr Hi Hwf.
  destruct (execute_all_well_formed calls tool_functions
              [CompletionRequest (transcript initial_messages feedback) tools]
              Hwf) as [tool_results [log He]].
  exists tool_results, log, (aggr tool_results).
  split; [exact He|].
  unfold run, process_function_calling, try_except.
  rewrite process_try_cases, Hc, Hm, Hn, Hr, Hi, He.
  split; [reflexivity|].
  split; [exact (execute_all_length _ _ _ _ _ He)|].
  unfold aggregate.
  destruct (forallb success tool_results) eqn:A;
    cbn [reply_success reply_tool_results reply_error].
  - repeat split; auto; discriminate.
  - repeat split; auto.
    intros _. eexists. split; [reflexivity|].
    intros r HI Hf.
    assert (HIn : In (py_str py_repr (function_name r) ++ ": "
                      ++ py_str py_repr (result r))%string
                     (error_messages py_repr tool_results)).
    { unfold error_messages. apply in_map_iff. exists r.
      split; [reflexivity|]. apply filter_In. split; [exact HI|].
      now rewrite Hf. }
    destruct (join_contains "; " _ _ HIn) as [a [b E]].
    rewrite E.
    rewrite <- (append_assoc "도구 실행 실패: " a).
    apply substring_of_app.
Qed.

End ProtocolFacts.

(** ** Extraction of the category *)
Section ExtractionFacts.
Import Classify.

Lemma lower_app (a b : string) :
  Str.lower (a ++ b) = (Str.lower a ++ Str.lower b)%string.
Proof. induction a as [|c a IH]; simpl; [reflexivity | now rewrite IH]. Qed.

Lemma prefix_split (n h : string) :
  String.prefix n h = true -> exists b, h = (n ++ b)%string.
Proof.
  revert h. induction n as [|c n IH]; intros h H.
  - exists h. reflexivity.
  - destruct h as [|d h]; simpl in H; [discriminate|].
    destruct (ascii_dec c d) as [->|_]; [|discriminate].
    destruct (IH h H) as [b ->]. now exists b.
Qed.

Lemma substring_of_split (n h : string) :
  Py.substring_of n h = true -> exists a b, h = (a ++ n ++ b)%string.
Proof.
  induction h as [|c h IH]; rewrite substring_of_unfold;
    destruct (String.prefix n _) eqn:P; intro H.
  - destruct (prefix_split _ _ P) as [b E]. now exists "", b.
  - discriminate.
  - destruct (prefix_split _ _ P) as [b E]. now exists "", b.
  - destruct (IH H) as [a [b ->]]. now exists (String c a), b.
Qed.

(** Containment survives when text is added on either side. *)
Lemma substring_of_infix (n x a b : string) :
  Py.substring_of n x = true ->
  Py.substring_of n (a ++ x ++ b) = true.
Proof.
  intro H. destruct (substring_of_split _ _ H) as [a' [b' ->]].
  replace (a ++ (a' ++ n ++ b') ++ b)%string
    with ((a ++ a') ++ n ++ (b' ++ b))%string
    by now rewrite !append_assoc.
  apply substring_of_app.
Qed.

Lemma lstrip_suffix (s : string) :
  exists p, s = (p ++ Str.lstrip s)%string.
Proof.
  induction s as [|c s [p IH]]; simpl.
  - now exists "".
  - destruct (Str.is_space c).
    + exists (String c p). simpl. now rewrite <- IH.
    + now exists "".
Qed.

Lemma rstrip_prefix (s : string) :
  exists q, s = (Str.rstrip s ++ q)%string.
Proof.
  induction s as [|c s [q IH]]; simpl.
  - now exists "".
  - destruct (Str.rstrip s) eqn:E.
    + destruct (Str.is_space c).
      * exists (String c s). reflexivity.
      * exists s. reflexivity.
    + exists q. simpl in *. congruence.
Qed.

Lemma strip_infix (s : string) :
  exists p q, s = (p ++ Str.strip s ++ q)%string.
Proof.
  unfold Str.strip. destruct (lstrip_suffix s) as [p E].
  destruct (rstrip_prefix (Str.lstrip s)) as [q F].
  exists p, q. now rewrite <- F.
Qed.

Lemma split_lines_head (s : string) :
  forall l ls, Str.split_lines s = l :: ls -> exists b, s = (l ++ b)%string.
Proof.
  induction s as [|d s IH]; intros l ls E; simpl in E.
  - injection E as <- _. now exists "".
  - destruct (Str.code d =? 10)%nat.
    + injection E as <- _. now exists (String d s).
    + destruct (Str.split_lines s) as [|l' ls'].
      * injection E as <- _. now exists s.
      * injection E as <- _. destruct (IH l' ls' eq_refl) as [b F].
        exists b. simpl. congruence.
Qed.

Lemma split_lines_infix (s line : string) :
  In line (Str.split_lines s) -> exists a b, s = (a ++ line ++ b)%string.
Proof.
  revert line. induction s as [|c s IH]; intros line HI; simpl in HI.
  - destruct HI as [<-|[]]. now exists "", "".
  - destruct (Str.code c =? 10)%nat.
    + destruct HI as [<-|HI].
      * exists "", (String c s). reflexivity.
      * destruct (IH line HI) as [a [b ->]]. now exists (String c a), b.
    + destruct (Str.split_lines s) as [|l ls] eqn:E.
      * destruct HI as [<-|[]]. exists "", s. reflexivity.
      * destruct HI as [<-|HI].
        -- destruct (split_lines_head s l ls E) as [b' ->].
           exists "", b'. reflexivity.
        -- destruct (IH line (or_intror HI)) as [a [b ->]].
           now exists (String c a), b.
Qed.

Lemma match_literal_sound (lit : string) (prev last : option ascii)
  (s m rest : string) :
  Str.match_literal lit prev s = Some (m, last, rest) ->
  s = (m ++ rest)%string /\ Str.lower m = Str.lower lit.
Proof.
  revert prev s m. induction lit as [|a lit IH]; intros prev s m H; simpl in H.
  - inversion H; subst. now split.
  - destruct s as [|c s]; [discriminate|].
    destruct (Ascii.eqb_spec (Str.lower_char a) (Str.lower_char c)) as [E|_];
      [|discriminate].
    destruct (Str.match_literal lit (Some c) s) as [[[m' last'] rest']|] eqn:M;
      [|discriminate].
    inversion H; subst. destruct (IH _ _ _ M) as [-> L].
    split; [reflexivity|]. simpl. now rewrite L, E.
Qed.

Lemma match_literal_nonempty (a : ascii) (lit : string)
  (prev last : option ascii) (s m rest : string) :
  Str.match_literal (String a lit) prev s = Some (m, last, rest) -> m <> "".
Proof.
  simpl. destruct s as [|c s]; [discriminate|].
  destruct (Ascii.eqb _ _); [|discriminate].
  destruct (Str.match_literal lit (Some c) s) as [[[m' last'] rest']|];
    [|discriminate].
  intro H. inversion H. discriminate.
Qed.

Lemma match_alternatives_sound (alts : list string) (prev : option ascii)
  (s m : string) :
  Str.match_alternatives alts prev s = Some m ->
  exists lit rest,
    In lit alts /\ s = (m ++ rest)%string /\ Str.lower m = Str.lower lit /\
    (lit <> "" -> m <> "").
Proof.
  induction alts as [|lit alts IH]; simpl; [discriminate|].
  destruct (Str.match_literal lit prev s) as [[[m' last] rest]|] eqn:M.
  - destruct (Str.word_boundary prev (Str.head s) &&
              Str.word_boundary last (Str.head rest)).
    + intro H. inversion H; subst.
      destruct (match_literal_sound _ _ _ _ _ _ M) as [E L].
      exists lit, rest. repeat split; auto.
      destruct lit as [|a lit]; [congruence|].
      intros _. exact (match_literal_nonempty _ _ _ _ _ _ _ M).
    + intro H. destruct (IH H) as [l [r [HI K]]]. exists l, r. auto.
  - intro H. destruct (IH H) as [l [r [HI K]]]. exists l, r. auto.
Qed.

Lemma match_alternatives_mentions (alts : list string) (prev : option ascii)
  (s m : string) :
  Str.match_alternatives alts prev s = Some m ->
  exists lit,
    In lit alts /\
    Py.substring_of (Str.lower lit) (Str.lower s) = true /\
    (lit <> "" -> m <> "").
Proof.
  intro A.
  destruct (match_alternatives_sound _ _ _ _ A) as [lit [rest [HI [E [L N]]]]].
  exists lit. repeat split; auto.
  subst s. rewrite lower_app, L. apply (substring_of_app _ "").
Qed.

(** A match of the pattern is a spelling of one of the alternatives, and it
    occurs in the text. *)
Lemma search_from_sound (alts : list string) (prev : option ascii)
  (s m : string) :
  Str.search_from alts prev s = Some m ->
  exists lit,
    In lit alts /\
    Py.substring_of (Str.lower lit) (Str.lower s) = true /\
    (lit <> "" -> m <> "").
Proof.
  revert prev. induction s as [|c s IH]; intros prev H; simpl in H.
  - destruct (Str.match_alternatives alts prev "") as [m'|] eqn:A;
      [|discriminate].
    injection H as ->. exact (match_alternatives_mentions _ _ _ _ A).
  - destruct (Str.match_alternatives alts prev (String c s)) as [m'|] eqn:A.
    + injection H as ->. exact (match_alternatives_mentions _ _ _ _ A).
    + destruct (IH _ H) as [lit [HI [S N]]].
      exists lit. repeat split; auto.
      apply (substring_of_infix _ _ (String (Str.lower_char c) "") "") in S.
      now rewrite append_empty_r in S.
Qed.

Definition mentions_category (text : string) : bool :=
  existsb (fun cat => Py.substring_of (Str.lower cat) (Str.lower text))
          category_keys.

Lemma mentions_infix (x a b : string) :
  mentions_category x = true -> mentions_category (a ++ x ++ b) = true.
Proof.
  unfold mentions_category. rewrite !existsb_exists.
  intros [cat [HI H]]. exists cat. split; [exact HI|].
  rewrite !lower_app. now apply substring_of_infix.
Qed.

Lemma category_keys_nonempty (cat : string) :
  In cat category_keys -> cat <> "".
Proof.
  intros [<-|[<-|[<-|[<-|[]]]]]; discriminate.
Qed.

Lemma re_search_mentions (text m : string) :
  Str.re_search_word category_keys text = Some m ->
  mentions_category text = true /\ m <> "".
Proof.
  intro H. destruct (search_from_sound _ _ _ _ H) as [lit [HI [S N]]].
  split.
  - unfold mentions_category. apply existsb_exists. now exists lit.
  - apply N. now apply category_keys_nonempty.
Qed.

Lemma extract_from_lines_cons (line : string) (rest : list string) :
  extract_from_lines (line :: rest) =
  if mentions_category (Str.strip line) then
    match Str.re_search_word category_keys (Str.strip line) with
    | Some m => Some m
    | None => extract_from_lines rest
    end
  else extract_from_lines rest.
Proof. reflexivity. Qed.

Lemma extract_from_lines_mentions (lines : list string) (m : string) :
  extract_from_lines lines = Some m ->
  exists line, In line lines /\ mentions_category (Str.strip line) = true.
Proof.
  induction lines as [|line rest IH]; [discriminate|].
  rewrite extract_from_lines_cons.
  destruct (mentions_category (Str.strip line)) eqn:E.
  - intros _. exists line. split; [now left | exact E].
  - intro H. destruct (IH H) as [l [HI K]].
    exists l. split; [now right | exact K].
Qed.

Lemma extract_contained_none (cats : list string) (text : string) :
  existsb (fun cat => Py.substring_of (Str.lower cat) (Str.lower text)) cats
    = false ->
  extract_contained cats text = None.
Proof.
  induction cats as [|cat cats IH]; simpl; [reflexivity|].
  destruct (Py.substring_of (Str.lower cat) (Str.lower text)); simpl;
    [discriminate | exact IH].
Qed.

(** A response that mentions no category, in whatever case, yields no
    category: all three attempts of the extraction fail. *)
Lemma no_category_token_extracts_nothing (response : string) :
  mentions_category response = false ->
  extract_category_from_response response = "".
Proof.
  intro H. unfold extract_category_from_response.
  destruct (String.eqb response ""); [reflexivity|].
  assert (HS : mentions_category (Str.strip response) = false).
  { destruct (mentions_category (Str.strip response)) eqn:E; [|reflexivity].
    destruct (strip_infix response) as [p [q F]].
    rewrite F in H. now rewrite (mentions_infix _ p q E) in H. }
  destruct (Str.re_search_word category_keys (Str.strip response)) as [m|] eqn:R.
  - destruct (re_search_mentions _ _ R) as [M _]. congruence.
  - destruct (extract_from_lines (Str.split_lines (Str.strip response)))
      as [m|] eqn:L.
    + destruct (extract_from_lines_mentions _ _ L) as [line [HI M]].
      destruct (split_lines_infix _ _ HI) as [a [b F]].
      destruct (strip_infix line) as [p [q G]].
      rewrite F, G in HS.
      assert (X : mentions_category (a ++ (p ++ Str.strip line ++ q) ++ b)
                  = true).
      { apply mentions_infix. now apply mentions_infix. }
      congruence.
    + now rewrite (extract_contained_none category_keys _ HS).
Qed.

End ExtractionFacts.

(** ** Classification *)
Section ClassifyFacts.
Import Classify.
Variable classify_query_chain : string -> string -> outcome string.
Variable clarified_classify_query_chain : string -> string -> outcome string.

Local Abbreviation classify :=
  (classify_query classify_query_chain clarified_classify_query_chain).

(** Whatever is extracted, a first pass ends in one of the four categories
    and a pass after self-clarification in one of the three data
    categories. *)
Lemma classify_query_category_valid (state state' : StockAgentState) :
  quiz_session_active state = false ->
  Py.substring_of QUIZ_TRIGGER (query state) = false ->
  classify state = Ok state' ->
  match clarification_info state with
  | None =>
      In (query_category state')
         (map category_value
              [FETCH_STOCK_DATA; CONDITIONAL_STOCK_DATA; SIGNAL_STOCK_DATA;
               AMBIGUOUS_QUERY])
  | Some _ =>
      In (query_category state')
         (map category_value
              [FETCH_STOCK_DATA; CONDITIONAL_STOCK_DATA; SIGNAL_STOCK_DATA])
  end.
Proof.
  intros Hq Ht. unfold classify_query. rewrite Hq, Ht.
  destruct (clarification_info state).
  - destruct (clarified_classify_query_chain _ _) as [r|e]; [|discriminate].
    intro E. inversion E; subst; clear E.
    cbn [query_category set_query_category].
    set (x := extract_category_from_response r).
    cbn [existsb category_value].
    destruct (String.eqb_spec x "fetch_stock_data") as [->|_];
      [simpl; auto|].
    destruct (String.eqb_spec x "conditional_stock_data") as [->|_];
      [simpl; auto|].
    destruct (String.eqb_spec x "signal_stock_data") as [->|_];
      simpl; auto.
  - destruct (classify_query_chain _ _) as [r|e]; [|discriminate].
    intro E. inversion E; subst; clear E.
    cbn [query_category set_query_category].
    set (x := extract_category_from_response r).
    cbn [existsb category_value].
    destruct (String.eqb_spec x "fetch_stock_data") as [->|_];
      [simpl; auto|].
    destruct (String.eqb_spec x "conditional_stock_data") as [->|_];
      [simpl; auto|].
    destruct (String.eqb_spec x "signal_stock_data") as [->|_];
      [simpl; auto|].
    destruct (String.eqb_spec x "ambiguous_query") as [->|_];
      simpl; auto 6.
Qed.

(** C8: outside the two quiz overrides, when the classifier has answered
    with a text from which no category can be extracted, [classify_query]
    returns (it does not raise) the state with the default category:
    ambiguous_query on a first pass, fetch_stock_data on the pass that
    follows a self-clarification. *)
Theorem classification_fallback (state : StockAgentState) (r : string) :
  quiz_session_active state = false ->
  Py.substring_of QUIZ_TRIGGER (query state) = false ->
  extract_category_from_response r = "" ->
  (clarification_info state = None ->
   classify_query_chain (query state) (context state) = Ok r ->
   classify state = Ok (set_query_category state "ambiguous_query")) /\
  (clarification_info state <> None ->
   clarified_classify_query_chain (query state) (context state) = Ok r ->
   classify state = Ok (set_query_category state "fetch_stock_data")).
Proof.
  intros Hq Ht Hx. unfold classify_query. rewrite Hq, Ht. split.
  - intros Hc Hr. rewrite Hc, Hr, Hx. reflexivity.
  - intros Hc Hr. destruct (clarification_info state); [|congruence].
    rewrite Hr, Hx. reflexivity.
Qed.

End ClassifyFacts.

(** ** The clarification node *)
Section AmbiguousFacts.
Import Ambiguous.
Variable analyze_information_with_llm : string -> string -> Analysis.
Variable generate_clarification_question : string -> string -> string.
Variable clarify_vague_question : string -> outcome (PyDict.dict string).

Local Abbreviation node :=
  (clarify_question_node analyze_information_with_llm
     generate_clarification_question clarify_vague_question).

(** The three entries of the analysis the rule reads. *)
Definition completeness_of (analysis : Analysis) : json :=
  analysis_get analysis "information_completeness" (JStr "AMBIGUOUS").
Definition missing_type_of (analysis : Analysis) : json :=
  analysis_get analysis "missing_information_type" (JStr "NONE").
Definition relative_time_of (analysis : Analysis) : bool :=
  Py.truthy (analysis_get analysis "has_relative_time" (JBool false)).

Lemma decide_complete (analysis : Analysis) :
  completeness_of analysis = JStr "COMPLETE" ->
  decide_ambiguity analysis = SELF_CLARIFY.
Proof. unfold completeness_of, decide_ambiguity. now intros ->. Qed.

Lemma decide_ambiguous (analysis : Analysis) :
  completeness_of analysis = JStr "AMBIGUOUS" ->
  decide_ambiguity analysis = SELF_CLARIFY.
Proof. unfold completeness_of, decide_ambiguity. now intros ->. Qed.

Lemma decide_partial_relative_date (analysis : Analysis) :
  completeness_of analysis = JStr "PARTIAL" ->
  missing_type_of analysis = JStr "SPECIFIC_DATE" ->
  relative_time_of analysis = true ->
  decide_ambiguity analysis = SELF_CLARIFY.
Proof.
  unfold completeness_of, missing_type_of, relative_time_of, decide_ambiguity.
  intros -> -> ->. reflexivity.
Qed.

Lemma decide_partial_ask (analysis : Analysis) :
  completeness_of analysis = JStr "PARTIAL" ->
  missing_type_of analysis = JStr "STOCK_NAME" \/
  missing_type_of analysis = JStr "TIME_PERIOD" \/
  (missing_type_of analysis = JStr "SPECIFIC_DATE" /\
   relative_time_of analysis = false) ->
  decide_ambiguity analysis = ASK_USER.
Proof.
  unfold completeness_of, missing_type_of, relative_time_of, decide_ambiguity.
  intros -> [-> | [-> | [-> ->]]]; reflexivity.
Qed.

(** What the node does once the decision is to ask the user. *)
Lemma node_ask_user (state : StockAgentState) :
  query state <> "" ->
  decide_ambiguity
    (analyze_information_with_llm (query state) (context state)) = ASK_USER ->
  node state =
  Ok (set_query_category
        (set_response state
           (generate_clarification_question (query state) (context state)))
        "ask_clarification").
Proof.
  intros Hq Hd. unfold clarify_question_node, analyze_ambiguity_type.
  destruct (String.eqb_spec (query state) ""); [contradiction|].
  now rewrite Hd.
Qed.

(** What it does once the decision is to self-clarify. *)
Lemma node_self_clarify (state : StockAgentState)
  (clarified : PyDict.dict string) :
  query state <> "" ->
  decide_ambiguity
    (analyze_information_with_llm (query state) (context state))
    = SELF_CLARIFY ->
  clarify_vague_question (query state) = Ok clarified ->
  exists info,
    node state =
    Ok (set_query (set_clarification_info state (Some info))
          (clarified_get clarified "specific_question" (query state))) /\
    original_query info = query state /\
    clarified_query info
      = clarified_get clarified "specific_question" (query state).
Proof.
  intros Hq Hd Hc. unfold clarify_question_node, analyze_ambiguity_type.
  destruct (String.eqb_spec (query state) ""); [contradiction|].
  rewrite Hd, Hc. simpl. eexists. split; [reflexivity|]. now split.
Qed.

(** C7: for a non-empty query whose completeness analysis is [analysis]:
    COMPLETE and AMBIGUOUS make the node self-clarify (the query is rewritten
    and the clarification record stored, and the edge leads back to
    classification); PARTIAL with missing type STOCK_NAME, TIME_PERIOD, or
    SPECIFIC_DATE without a relative-time expression, makes it ask the user
    (the follow-up question becomes the response and the edge ends the
    turn); PARTIAL with SPECIFIC_DATE and a relative-time expression makes it
    self-clarify. *)
Theorem clarification_decision_rule (state : StockAgentState) :
  let analysis :=
    analyze_information_with_llm (query state) (context state) in
  let self_clarifies :=
    forall clarified,
      clarify_vague_question (query state) = Ok clarified ->
      exists state',
        node state = Ok state' /\
        query state'
          = clarified_get clarified "specific_question" (query state) /\
        clarification_info state' <> None /\
        (query_category state <> "ask_clarification" ->
         ambiguous_edge (ambiguous_query_with_path state')
           = Some ToClassifyQuery) in
  let asks_user :=
    exists state',
      node state = Ok state' /\
      response state'
        = generate_clarification_question (query state) (context state) /\
      query state' = query state /\
      ambiguous_edge (ambiguous_query_with_path state') = Some END in
  query state <> "" ->
  (completeness_of analysis = JStr "COMPLETE" -> self_clarifies) /\
  (completeness_of analysis = JStr "AMBIGUOUS" -> self_clarifies) /\
  (completeness_of analysis = JStr "PARTIAL" ->
     (missing_type_of analysis = JStr "STOCK_NAME" \/
      missing_type_of analysis = JStr "TIME_PERIOD" \/
      (missing_type_of analysis = JStr "SPECIFIC_DATE" /\
       relative_time_of analysis = false) -> asks_user) /\
     (missing_type_of analysis = JStr "SPECIFIC_DATE" ->
      relative_time_of analysis = true -> self_clarifies)).
Proof.
  cbv zeta. intro Hq.
  assert (Self : decide_ambiguity
                   (analyze_information_with_llm (query state) (context state))
                 = SELF_CLARIFY ->
                 forall clarified,
                   clarify_vague_question (query state) = Ok clarified ->
                   exists state',
                     node state = Ok state' /\
                     query state'
                       = clarified_get clarified "specific_question"
                                       (query state) /\
                     clarification_info state' <> None /\
                     (query_category state <> "ask_clarification" ->
                      ambiguous_edge (ambiguous_query_with_path state')
                        = Some ToClassifyQuery)).
  { intros Hd clarified Hc.
    destruct (node_self_clarify state clarified Hq Hd Hc) as [info [E _]].
    eexists. split; [exact E|]. repeat split; [discriminate|].
    intro Hcat. unfold ambiguous_query_with_path. simpl.
    destruct (String.eqb_spec (query_category state) "ask_clarification");
      [contradiction | reflexivity]. }
  split; [|split].
  - intro H. apply Self. now apply decide_complete.
  - intro H. apply Self. now apply decide_ambiguous.
  - intro Hp. split.
    + intros Hm. eexists. split.
      * apply (node_ask_user state Hq). now apply decide_partial_ask.
      * repeat split.
    + intros Hm Hr. apply Self. now apply decide_partial_relative_date.
Qed.

End AmbiguousFacts.

(** ** The quiz node *)
Section QuizFacts.
Import QuizNode.
Variable fromisoformat : string -> option datetime.
Variable isoformat : datetime -> string.
Variable check_answer : QuizQuestion -> string -> AnswerResult.
Variable get_hint : QuizQuestion -> string.
Variable generate_answer_package :
  QuizQuestion -> string -> AnswerResult -> string -> InfoPackage.
Variable generate_news_based_hint : QuizQuestion -> NewsHint.
Variable quiz_file_exists : bool.
Variable parse_quiz_file : list QuizQuestion.
Variable get_unplayed_quiz : list QuizQuestion -> string -> option QuizQuestion.
Variable generate_session_id : string.
Variable generate_quiz_start_message : QuizQuestion -> string.

(** The node over the repository's own storage function. *)
Local Abbreviation quiz_node :=
  (quiz_stock_data fromisoformat isoformat QuizDatabase.save_quiz_result
     check_answer get_hint generate_answer_package generate_news_based_hint
     quiz_file_exists parse_quiz_file get_unplayed_quiz generate_session_id
     generate_quiz_start_message).

Local Abbreviation expired :=
  (QuizSessionManager.is_session_expired fromisoformat).

(** Expiry reads the quiz fields only. *)
Lemma expired_ext (now : datetime) (s s' : StockAgentState) :
  quiz_session_active s' = quiz_session_active s ->
  quiz_session_start_time s' = quiz_session_start_time s ->
  expired now s' = expired now s.
Proof.
  intros Ha Hs. unfold QuizSessionManager.is_session_expired,
    QuizSessionManager.is_session_active. now rewrite Ha, Hs.
Qed.

Lemma update_active (s : StockAgentState) (p : QuizSessionPhase) :
  quiz_session_active s = true ->
  QuizSessionManager.update_session_phase s p
    = set_quiz_session_phase s (phase_value p).
Proof.
  intro H. unfold QuizSessionManager.update_session_phase,
    QuizSessionManager.is_session_active. now rewrite H.
Qed.

(** An unexpired session in phase asking is handed to the answer handler. *)
Lemma node_asking (now : datetime) (db : QuizDb) (state : StockAgentState) :
  expired now state = false ->
  quiz_session_phase state = phase_value ASKING ->
  quiz_node now db state =
  _handle_user_answer QuizDatabase.save_quiz_result check_answer get_hint
    generate_answer_package generate_news_based_hint now db state
    (Str.strip (query state)).
Proof.
  intros He Hp.
  unfold quiz_stock_data, QuizSessionManager.cleanup_expired_session.
  rewrite He, Hp. reflexivity.
Qed.


(** One correct answer, with the database writable. *)
Lemma correct_answer_step (now : datetime) (db : QuizDb)
  (state : StockAgentState) (q : QuizQuestion) :
  let answer := Str.strip (query state) in
  quiz_session_active state = true ->
  quiz_session_phase state = phase_value ASKING ->
  quiz_current_question state = Some q ->
  expired now state = false ->
  is_hint_request answer = false ->
  answer_success (check_answer q answer) = true ->
  answer_is_correct (check_answer q answer) = true ->
  db_writable db = true ->
  exists mid reward payload row,
    quiz_session_phase mid = phase_value COMPLETED /\
    quiz_current_question mid = Some q /\
    quiz_session_active mid = true /\
    QuizSessionManager.end_session QuizDatabase.save_quiz_result now db mid
      true answer true (request_id state) (Some reward)
      = (fst (quiz_node now db state),
         set_quiz_fields mid false "" "" None false (phase_value INACTIVE)) /\
    snd (quiz_node now db state)
      = set_data (set_quiz_fields mid false "" "" None false
                                  (phase_value INACTIVE)) payload /\
    quiz_history (fst (quiz_node now db state)) = (quiz_history db ++ [row])%list /\
    row_request_id row = request_id state /\
    row_quiz_id row = quiz_id q /\
    row_user_answer row = answer /\
    row_is_correct row = true /\
    row_hint_used row = quiz_hint_used state.
Proof.
  cbv zeta. intros Ha Hp Hq He Hh Hs Hc Hw.
  rewrite (node_asking now db state He Hp).
  unfold _handle_user_answer. rewrite Hq, Hh.
  rewrite (update_active state PROCESSING Ha), Hs, Hc. cbn [negb].
  unfold _handle_correct_answer.
  rewrite (update_active
             (set_quiz_session_phase state (phase_value PROCESSING))
             COMPLETED Ha).
  unfold QuizSessionManager.end_session, QuizDatabase.save_quiz_result.
  cbn [quiz_current_question set_quiz_session_phase]. rewrite Hq, Hw.
  cbn [fst snd].
  exists (set_quiz_session_phase
            (set_quiz_session_phase state (phase_value PROCESSING))
            (phase_value COMPLETED)).
  do 3 eexists.
  repeat split; cbn [quiz_session_phase quiz_current_question
                     quiz_session_active set_quiz_session_phase];
    rewrite ?Hq, ?Hw; try reflexivity; try eassumption.
Qed.




End QuizFacts.

(* ================================================================== *)
(** * Part III.  Concrete runs                                         *)
(* ================================================================== *)

(** ** Collaborators for the examples *)

(** An ISO-8601 parser that knows the origin of the clock. *)
Definition iso_example (s : string) : option datetime :=
  if String.eqb s "1970-01-01T00:00:00" then Some 0 else None.

Definition example_quiz : QuizQuestion :=
  {| quiz_id := 7; quiz_question := "Which company listed in 2022?";
     quiz_options := [("1", "ACME"); ("2", "Globex"); ("3", "Initech");
                      ("4", "Umbrella")];
     correct_number := "1"; correct_company := "ACME";
     correct_symbol := "1"; quiz_background := "Listed in 2022." |}.

(** A session whose quiz started at the origin of the clock. *)
Definition asking_state (user_query : string) : StockAgentState :=
  set_query
    (set_quiz_fields default_stock_agent_state true "a1b2c3d4"
       "1970-01-01T00:00:00" (Some example_quiz) false (phase_value ASKING))
    user_query.

(** ** The quiz session manager *)

(** C2, amended, on the session that has completed a quiz: the validator
    accepts the listed transition to inactive, and the phase update applies
    it. *)
Lemma quiz_phase_legality_witness :
  QuizSessionManager.validate_session_transition completed_state INACTIVE
    = true /\
  QuizSessionManager.update_session_phase completed_state INACTIVE
    = set_quiz_session_phase completed_state (phase_value INACTIVE).
Proof.
  destruct (quiz_phase_legality completed_state INACTIVE) as [H1 [_ [H3 _]]].
  split.
  - apply (H1 COMPLETED); [reflexivity | simpl; auto 6].
  - apply H3. reflexivity.
Defined.

(** ** The session store *)




(** ** The tool-calling protocol *)

Definition demo_exn_str (e : exn) : string :=
  match e with
  | KeyError k => k
  | OtherError _ m => m
  | _ => "error"
  end.

Definition demo_repr (j : json) : string := "<value>".

Definition demo_loads (s : string) : option json :=
  if String.eqb s "{}" then Some (JObj []) else None.

Definition demo_dumps (j : json) : string := "<json>".

Definition demo_call (id name : string) : json :=
  JObj [ ("id", JStr id); ("type", JStr "function");
         ("function",
          JObj [ ("name", JStr name);
                 ("arguments", JObj [("ticker", JStr "005930.KS")]) ]) ].

Definition demo_message (m : json) : json :=
  JObj [("status", JObj [("code", JStr "20000")]);
        ("result", JObj [("message", m)])].

(** Three requested calls; the second tool raises. *)
Definition three_calls : json :=
  demo_message
    (JObj [ ("role", JStr "assistant"); ("content", JStr "");
            ("toolCalls",
             JArr [ demo_call "call_1" "get_historical_data";
                    demo_call "call_2" "get_market_ratio";
                    demo_call "call_3" "get_stock_ranking" ]) ]).

Definition demo_tools : PyDict.dict FunctionCalling.Tool :=
  [ ("get_historical_data", fun _ => Ok (JObj [("count", JNum 1)]));
    ("get_market_ratio", fun _ => Raise (OtherError "ValueError" "no data"));
    ("get_stock_ranking", fun _ => Ok (JObj [("rank", JNum 3)])) ].

Definition demo_transcript : list json :=
  [ JObj [("role", JStr "system"); ("content", JStr "instructions")];
    JObj [("role", JStr "user"); ("content", JStr "question")] ].

Definition demo_run (response : json) :=
  FunctionCalling.run demo_exn_str demo_repr demo_loads demo_dumps
    (fun _ _ => Ok response) demo_transcript (JArr []) demo_tools "".

Definition demo_sent : list FunctionCalling.Event :=
  [FunctionCalling.CompletionRequest demo_transcript (JArr [])].

Definition demo_calls : list json :=
  [ demo_call "call_1" "get_historical_data";
    demo_call "call_2" "get_market_ratio";
    demo_call "call_3" "get_stock_ranking" ].

Definition demo_execution :=
  FunctionCalling.execute_all demo_exn_str demo_repr demo_loads
    demo_calls demo_tools demo_sent.

Definition demo_results : list FunctionCalling.ToolResult :=
  match fst demo_execution with Ok l => l | Raise _ => [] end.

(** C3 on three calls of which the second fails: the round fails, all three
    entries are returned, the first and third marked successful, and the
    error names the failed tool with its error text. *)
Lemma tool_round_aggregation_witness :
  exists reply,
    demo_run three_calls = (Ok reply, snd demo_execution) /\
    FunctionCalling.reply_success reply = false /\
    map FunctionCalling.success (FunctionCalling.reply_tool_results reply)
      = [true; false; true] /\
    exists err,
      FunctionCalling.reply_error reply = Some err /\
      Py.substring_of "get_market_ratio: 도구 실행 중 오류: no data" err = true.
Proof.
  assert (W : Forall well_formed_call demo_calls)
    by (repeat constructor; unfold well_formed_call, demo_call;
        do 5 eexists; repeat split; reflexivity).
  destruct (tool_round_aggregation demo_exn_str demo_repr demo_loads
              demo_dumps (fun _ _ => Ok three_calls)
              demo_transcript (JArr []) demo_tools ""
              three_calls
              (JObj [ ("role", JStr "assistant"); ("content", JStr "");
                      ("toolCalls", JArr demo_calls) ])
              (JArr demo_calls) demo_calls
              eq_refl eq_refl eq_refl eq_refl eq_refl W)
    as [results [log [reply [X [R [L [S [T [F K]]]]]]]]].
  assert (EX : (Ok results, log) = (Ok demo_results, snd demo_execution))
    by (rewrite <- X; reflexivity).
  injection EX as -> ->.
  exists reply. split; [exact R|]. split; [rewrite S; reflexivity|].
  split; [rewrite T; reflexivity|].
  destruct (F (eq_trans S eq_refl)) as [err [E C]].
  exists err. split; [exact E|].
  apply (C (FunctionCalling.mkToolResult (JStr "call_2")
              (JStr "get_market_ratio")
              (JObj [("ticker", JStr "005930.KS")])
              (JStr "도구 실행 중 오류: no data") false));
    [simpl; auto | reflexivity].
Defined.

(** A direct answer. *)
Definition direct_answer : json :=
  demo_message
    (JObj [("role", JStr "assistant"); ("content", JStr "KOSPI closed higher.")]).

(** The same answer in a message that also carries an empty tool-call list,
    and in one whose tool-call list is null. *)
Definition empty_call_list : list (string * json) :=
  [("role", JStr "assistant"); ("content", JStr "KOSPI closed higher.");
   ("toolCalls", JArr [])].

Definition null_call_list : list (string * json) :=
  [("role", JStr "assistant"); ("content", JStr "KOSPI closed higher.");
   ("toolCalls", JNull)].

(** C4, amended, on a response without tool-call key (one request, success,
    the content as the answer, no tool result) and on the response with the
    empty tool-call list (one request, success, no answer). *)
Lemma single_completion_round_witness :
  demo_run direct_answer
  = (Ok (FunctionCalling.Succeeded [] (Some (JStr "KOSPI closed higher."))),
     demo_sent) /\
  demo_run (demo_message (JObj empty_call_list))
  = (Ok (FunctionCalling.Succeeded [] None), demo_sent).
Proof.
  split.
  - destruct (single_completion_round demo_exn_str demo_repr demo_loads
                demo_dumps (fun _ _ => Ok direct_answer)
                demo_transcript (JArr []) demo_tools "") as [_ [_ [H _]]].
    exact (H direct_answer
             [("role", JStr "assistant");
              ("content", JStr "KOSPI closed higher.")]
             eq_refl eq_refl eq_refl eq_refl).
  - destruct (single_completion_round demo_exn_str demo_repr demo_loads
                demo_dumps
                (fun _ _ => Ok (demo_message (JObj empty_call_list)))
                demo_transcript (JArr []) demo_tools "") as [_ [_ [_ [H _]]]].
    destruct (H (demo_message (JObj empty_call_list)) empty_call_list
                (JArr []) eq_refl eq_refl
                (or_introl (fun E : Some (JArr []) = None =>
                              eq_ind (Some (JArr []))
                                (fun o => match o with
                                          | Some _ => True
                                          | None => False
                                          end) I None E))
                eq_refl) as [E _].
    exact (E eq_refl).
Defined.

(** C4, as stated, fails: neither response requests a tool call and both
    carry a text answer, yet the first is reported as success without any
    answer and the second as a failure. *)
Lemma answer_beside_empty_call_list_is_dropped :
  FunctionCalling.requested_tool_calls (JObj empty_call_list) = Ok (JArr []) /\
  Py.iter (JArr []) = Ok [] /\
  Py.obj_lookup empty_call_list "content"
    = Some (JStr "KOSPI closed higher.") /\
  demo_run (demo_message (JObj empty_call_list))
    = (Ok (FunctionCalling.Succeeded [] None), demo_sent) /\
  FunctionCalling.reply_final_response (FunctionCalling.Succeeded [] None)
    = None /\
  FunctionCalling.requested_tool_calls (JObj null_call_list) = Ok JNull /\
  Py.obj_lookup null_call_list "content"
    = Some (JStr "KOSPI closed higher.") /\
  demo_run (demo_message (JObj null_call_list))
    = (Ok (FunctionCalling.Failed (demo_exn_str TypeError) []), demo_sent) /\
  FunctionCalling.reply_success
    (FunctionCalling.Failed (demo_exn_str TypeError) []) = false.
Proof. repeat split. Qed.

(** A response that carries an error report and no message. *)
Definition no_message : json :=
  JObj [("status", JObj [("code", JStr "40000"); ("message", JStr "bad")])].

(** A response whose result is null: the test ["message" in response["result"]]
    of line 152 raises a [TypeError]. *)
Definition null_result : json :=
  JObj [("status", JObj [("code", JStr "20000")]); ("result", JNull)].

(** C5, amended, on those two responses: the protocol failure, no tool
    result, no tool invoked; the fixed text on the first, the text of the
    exception on the second. *)
Lemma malformed_response_fails_witness :
  demo_run no_message
  = (Ok (FunctionCalling.Failed "Invalid API response" []), demo_sent) /\
  demo_run null_result
  = (Ok (FunctionCalling.Failed (demo_exn_str TypeError) []), demo_sent).
Proof.
  split.
  - destruct (malformed_response_fails demo_exn_str demo_repr demo_loads
                demo_dumps (fun _ _ => Ok no_message)
                demo_transcript (JArr []) demo_tools "" no_message eq_refl
                (fun m (H : FunctionCalling.extract_message no_message
                            = Ok (Some m)) =>
                   eq_ind (Ok None)
                     (fun o => match o with
                               | Ok None => True
                               | _ => False
                               end) I _ H))
      as [err [R [E _]]].
    unfold demo_run. rewrite R, (E eq_refl). reflexivity.
  - destruct (malformed_response_fails demo_exn_str demo_repr demo_loads
                demo_dumps (fun _ _ => Ok null_result)
                demo_transcript (JArr []) demo_tools "" null_result eq_refl
                (fun m (H : FunctionCalling.extract_message null_result
                            = Ok (Some m)) =>
                   eq_ind (Raise TypeError)
                     (fun o => match o with
                               | Raise _ => True
                               | Ok _ => False
                               end) I _ H))
      as [err [R [_ [E _]]]].
    unfold demo_run. rewrite R, (E TypeError eq_refl). reflexivity.
Defined.

(** A message object with neither a tool-call list nor content. *)
Definition bare_message : list (string * json) :=
  [("role", JStr "assistant")].

(** C5, as stated, fails: the response lacks both a tool-call list and
    message content, yet the protocol reports success, with the empty string
    as direct answer. *)
Lemma bare_message_reported_as_success :
  Py.obj_lookup bare_message "toolCalls" = None /\
  Py.obj_lookup bare_message "tool_calls" = None /\
  Py.obj_lookup bare_message "content" = None /\
  demo_run (demo_message (JObj bare_message))
  = (Ok (FunctionCalling.Succeeded [] (Some (JStr ""))), demo_sent) /\
  FunctionCalling.reply_success
    (FunctionCalling.Succeeded [] (Some (JStr ""))) = true.
Proof. repeat split. Qed.

(** ** Classification *)

(** A classifier that answers without naming a category. *)
Definition chatty_chain (query context : string) : outcome string :=
  Ok "I am not sure which handler fits this question.".

Definition clarified_state : StockAgentState :=
  set_clarification_info (set_query default_stock_agent_state "AAPL close")
    (Some {| original_query := "AAPL"; clarified_query := "AAPL close";
             start_date := ""; end_date := ""; market_scope := "";
             primary_criteria := ""; secondary_criteria := "" |}).

(** C8 on that answer: ambiguous_query on a first pass, fetch_stock_data after
    a self-clarification. *)
Lemma classification_fallback_witness :
  Classify.classify_query chatty_chain chatty_chain
    (set_query default_stock_agent_state "AAPL")
  = Ok (set_query_category (set_query default_stock_agent_state "AAPL")
          "ambiguous_query") /\
  Classify.classify_query chatty_chain chatty_chain clarified_state
  = Ok (set_query_category clarified_state "fetch_stock_data").
Proof.
  split.
  - apply (proj1 (classification_fallback chatty_chain chatty_chain
                    (set_query default_stock_agent_state "AAPL")
                    "I am not sure which handler fits this question."
                    eq_refl eq_refl eq_refl));
      reflexivity.
  - apply (proj2 (classification_fallback chatty_chain chatty_chain
                    clarified_state
                    "I am not sure which handler fits this question."
                    eq_refl eq_refl eq_refl));
      [discriminate | reflexivity].
Defined.

(** ** The clarification node *)

(** An analysis that finds the company name missing. *)
Definition partial_analysis (query context : string) : Ambiguous.Analysis :=
  [ ("has_stock_name", JBool false); ("has_specific_date", JBool true);
    ("has_relative_time", JBool false);
    ("missing_information_type", JStr "STOCK_NAME");
    ("information_completeness", JStr "PARTIAL") ].

Definition follow_up (query context : string) : string :=
  "Which company do you mean?".

Definition rewrite_unavailable (query : string)
  : outcome (PyDict.dict string) :=
  Raise (OtherError "RuntimeError" "no model").

(** C7 on a PARTIAL analysis with the company name missing: the node asks
    the user and the turn ends. *)
Lemma clarification_decision_rule_witness :
  exists state',
    Ambiguous.clarify_question_node partial_analysis follow_up
      rewrite_unavailable (set_query default_stock_agent_state "close price?")
    = Ok state' /\
    response state' = "Which company do you mean?" /\
    query state' = "close price?" /\
    Ambiguous.ambiguous_edge (Ambiguous.ambiguous_query_with_path state')
      = Some Ambiguous.END.
Proof.
  assert (N : query (set_query default_stock_agent_state "close price?") <> "")
    by discriminate.
  destruct (clarification_decision_rule partial_analysis follow_up
              rewrite_unavailable
              (set_query default_stock_agent_state "close price?") N)
    as [_ [_ P]].
  destruct (P eq_refl) as [Ask _].
  exact (Ask (or_introl eq_refl)).
Defined.

(** ** The quiz node *)

Definition demo_check_answer (q : QuizQuestion) (answer : string)
  : QuizNode.AnswerResult :=
  {| QuizNode.answer_success := true;
     QuizNode.answer_is_correct := String.eqb answer (correct_company q);
     QuizNode.answer_confidence := 90;
     QuizNode.answer_explanation := "" |}.

Definition demo_get_hint (q : QuizQuestion) : string := "2022, listing".

Definition demo_package (q : QuizQuestion) (answer : string)
  (r : QuizNode.AnswerResult) (request_id : string) : QuizNode.InfoPackage :=
  {| QuizNode.pkg_explanation := "Correct!";
     QuizNode.pkg_company_insight := "";
     QuizNode.pkg_reward_info :=
       Some {| QuizNode.rp_stock_name := Some (correct_company q);
               QuizNode.rp_amount := Some 1;
               QuizNode.rp_reward_limited := false;
               QuizNode.rp_limitation_message := "";
               QuizNode.rp_eligible := true;
               QuizNode.rp_message := "1 share";
               QuizNode.rp_closing_price := "" |};
     QuizNode.pkg_rewards_display := None |}.

Definition demo_news (q : QuizQuestion) : QuizNode.NewsHint :=
  {| QuizNode.news_success := false; QuizNode.news_hint_message := "" |}.

Definition demo_quiz_node :=
  QuizNode.quiz_stock_data iso_example (fun _ => "1970-01-01T00:00:00")
    QuizDatabase.save_quiz_result demo_check_answer demo_get_hint
    demo_package demo_news true [example_quiz]
    (fun quizzes _ => List.hd_error quizzes) "a1b2c3d4"
    (fun q => quiz_question q).

Definition empty_db : QuizDb := {| quiz_history := []; db_writable := true |}.


(* ================================================================== *)
(** * Part IV.  Further properties                                     *)
(* ================================================================== *)

(** ** The session store: invariants, eviction order, round trip *)
Section StoreInvariants.
Import PyDict SessionStore.
Variable fromisoformat : string -> option datetime.

Local Abbreviation sweep := (cleanup_expired_sessions fromisoformat).
Local Abbreviation restore := (get_session_state fromisoformat).

Lemma lookup_filter_Some {V : Type} (P : string -> bool) (d : dict V)
  (k : string) (v : V) :
  lookup (filter (fun kv => P (fst kv)) d) k = Some v -> lookup d k = Some v.
Proof.
  intro H. destruct (P k) eqn:E.
  - now rewrite (lookup_filter_keep P d k E) in H.
  - rewrite (lookup_filter_drop P d k E) in H. discriminate H.
Qed.

Lemma lookup_set_other {V : Type} (d : dict V) (k k' : string) (v : V) :
  k' <> k -> lookup (set d k v) k' = lookup d k'.
Proof.
  intro N. induction d as [|[k0 v0] d IH]; simpl.
  - destruct (String.eqb_spec k k'); [congruence | reflexivity].
  - destruct (String.eqb_spec k0 k) as [->|_]; simpl.
    + destruct (String.eqb_spec k k'); [congruence | reflexivity].
    + destruct (String.eqb_spec k0 k'); [reflexivity | exact IH].
Qed.

Lemma keys_set_present {V : Type} (d : dict V) (k : string) (v w : V) :
  lookup d k = Some w -> keys (set d k v) = keys d.
Proof.
  intro H. rewrite keys_set. unfold mem. now rewrite H.
Qed.

Lemma length_keys {V : Type} (d : dict V) :
  List.length (keys d) = List.length d.
Proof. unfold keys. apply length_map. Qed.

Lemma evict_oldest_lookup (st : Store) (id : string) :
  (forall state, lookup (session_store (evict_oldest st)) id = Some state ->
     lookup (session_store st) id = Some state) /\
  (forall ts, lookup (session_timestamps (evict_oldest st)) id = Some ts ->
     lookup (session_timestamps st) id = Some ts).
Proof.
  unfold evict_oldest.
  destruct (MAX_SESSIONS <? List.length (session_store st))%nat;
    [|split; auto].
  rewrite remove_sessions_filter. simpl. split; intros x H.
  - exact (lookup_filter_Some (fun k => notin _ k) _ _ _ H).
  - exact (lookup_filter_Some (fun k => notin _ k) _ _ _ H).
Qed.

Lemma sweep_lookup (now : datetime) (st : Store) (id : string) :
  (forall state, lookup (session_store (sweep now st)) id = Some state ->
     lookup (session_store st) id = Some state) /\
  (forall ts, lookup (session_timestamps (sweep now st)) id = Some ts ->
     lookup (session_timestamps st) id = Some ts).
Proof.
  unfold cleanup_expired_sessions.
  destruct (evict_oldest_lookup
              (remove_sessions st (expired_sessions fromisoformat now st)) id)
    as [E1 E2].
  split; intros x H.
  - apply E1 in H. rewrite remove_sessions_filter in H. simpl in H.
    exact (lookup_filter_Some (fun k => notin _ k) _ _ _ H).
  - apply E2 in H. rewrite remove_sessions_filter in H. simpl in H.
    exact (lookup_filter_Some (fun k => notin _ k) _ _ _ H).
Qed.

Lemma evict_oldest_length (st : Store) :
  (population (evict_oldest st) <= population st)%nat.
Proof.
  unfold evict_oldest, population.
  destruct (MAX_SESSIONS <? List.length (session_store st))%nat; [|lia].
  rewrite remove_sessions_filter. simpl. apply filter_length_le.
Qed.

(** X1: the sweep only removes.  A record found after a sweep was there
    before it, with the same state and the same timestamp, and the sweep
    never adds a record. *)
Theorem sweep_only_removes (now : datetime) (st : Store) (id : string) :
  (forall state,
     lookup (session_store (sweep now st)) id = Some state ->
     lookup (session_store st) id = Some state) /\
  (forall ts,
     lookup (session_timestamps (sweep now st)) id = Some ts ->
     lookup (session_timestamps st) id = Some ts) /\
  (population (sweep now st) <= population st)%nat.
Proof.
  destruct (sweep_lookup now st id) as [H1 H2].
  split; [exact H1 | split; [exact H2|]].
  unfold cleanup_expired_sessions.
  apply Nat.le_trans
    with (population
            (remove_sessions st (expired_sessions fromisoformat now st))).
  - apply evict_oldest_length.
  - rewrite remove_sessions_filter. unfold population. simpl.
    apply filter_length_le.
Qed.

(** The stores the three functions of the module can build from the empty
    one. *)
Inductive reachable : Store -> Prop :=
| reach_empty : reachable empty
| reach_get (now : datetime) (id : string) (st : Store) :
    reachable st -> reachable (fst (restore now st id))
| reach_save (now : datetime) (id : string) (state : StockAgentState)
    (st : Store) :
    reachable st -> reachable (save_session_state now st id state)
| reach_sweep (now : datetime) (st : Store) :
    reachable st -> reachable (sweep now st).

Lemma reachable_consistent (st : Store) : reachable st -> consistent st.
Proof.
  induction 1 as [|now id st _ IH|now id state st _ IH|now st _ IH].
  - split; [constructor | reflexivity].
  - now apply get_consistent.
  - now apply save_consistent.
  - now apply cleanup_consistent.
Qed.

(** X2: whatever sequence of lookups, saves and sweeps built the store, its
    two dictionaries hold the same identifiers in the same order, each
    once; a sweep then leaves at most [MAX_SESSIONS] records and a lookup at
    most one more. *)
Theorem store_invariant (st : Store) :
  reachable st ->
  consistent st /\
  (forall now, (population (sweep now st) <= MAX_SESSIONS)%nat) /\
  (forall now id,
     (population (fst (restore now st id)) <= S MAX_SESSIONS)%nat).
Proof.
  intro R. pose proof (reachable_consistent st R) as C.
  split; [exact C | split].
  - intro now. now apply cleanup_population.
  - intros now id. now apply get_population.
Qed.

(** Timestamps in ascending order. *)
Fixpoint ordered (l : list (string * datetime)) : Prop :=
  match l with
  | [] => True
  | x :: l' => Forall (fun y => snd x <= snd y) l' /\ ordered l'
  end.

Lemma insert_by_time_In (x y : string * datetime)
  (l : list (string * datetime)) :
  In y (insert_by_time x l) -> y = x \/ In y l.
Proof.
  intro H. apply (Permutation_in _ (insert_by_time_perm x l)) in H.
  destruct H as [<-|H]; auto.
Qed.

Lemma insert_by_time_ordered (x : string * datetime)
  (l : list (string * datetime)) :
  ordered l -> ordered (insert_by_time x l).
Proof.
  induction l as [|y l IH]; simpl; intro O.
  - split; [constructor | exact I].
  - destruct O as [Fy Ol].
    destruct (Z.leb_spec (snd x) (snd y)) as [Hle|Hgt]; simpl.
    + split; [|split; assumption].
      constructor; [exact Hle|].
      apply Forall_forall. intros z Hz.
      rewrite Forall_forall in Fy. specialize (Fy z Hz). lia.
    + split; [|now apply IH].
      apply Forall_forall. intros z Hz.
      apply insert_by_time_In in Hz.
      destruct Hz as [->|Hz]; [apply Z.lt_le_incl; exact Hgt|].
      rewrite Forall_forall in Fy. now apply Fy.
Qed.

Lemma sorted_by_time_ordered (l : list (string * datetime)) :
  ordered (sorted_by_time l).
Proof.
  induction l as [|x l IH]; simpl; [exact I|].
  now apply insert_by_time_ordered.
Qed.

Lemma ordered_split (l : list (string * datetime)) (n : nat)
  (x y : string * datetime) :
  ordered l -> In x (firstn n l) -> In y (skipn n l) -> snd x <= snd y.
Proof.
  revert n. induction l as [|z l IH]; intros n O Hx Hy.
  - destruct n; simpl in Hx; contradiction.
  - destruct n as [|n]; simpl in Hx, Hy; [contradiction|].
    destruct O as [Fz Ol]. destruct Hx as [<-|Hx].
    + rewrite Forall_forall in Fz. apply Fz.
      rewrite <- (firstn_skipn n l). apply in_or_app. now right.
    + exact (IH n Ol Hx Hy).
Qed.

Lemma NoDup_app_disjoint {A : Type} (l1 l2 : list A) :
  NoDup (l1 ++ l2) -> forall a, In a l1 -> ~ In a l2.
Proof.
  induction l1 as [|x l1 IH]; simpl; intros ND a Ha; [contradiction|].
  inversion ND as [|? ? Hnot ND']; subst.
  destruct Ha as [->|Ha].
  - intro H2. apply Hnot. apply in_or_app. now right.
  - now apply IH.
Qed.

(** What the capacity step removes, seen from the timestamps. *)
Lemma evict_oldest_timestamps (st : Store) :
  (MAX_SESSIONS < List.length (session_store st))%nat ->
  session_timestamps (evict_oldest st) =
  filter (fun kv =>
            notin (map fst
                     (firstn (List.length (session_store st) - MAX_SESSIONS)
                             (sorted_by_time (session_timestamps st))))
                  (fst kv))
         (session_timestamps st).
Proof.
  intro H. unfold evict_oldest. apply Nat.ltb_lt in H. rewrite H.
  rewrite remove_sessions_filter. reflexivity.
Qed.

Lemma evict_oldest_store (st : Store) :
  (MAX_SESSIONS < List.length (session_store st))%nat ->
  session_store (evict_oldest st) =
  filter (fun kv =>
            notin (map fst
                     (firstn (List.length (session_store st) - MAX_SESSIONS)
                             (sorted_by_time (session_timestamps st))))
                  (fst kv))
         (session_store st).
Proof.
  intro H. unfold evict_oldest. apply Nat.ltb_lt in H. rewrite H.
  rewrite remove_sessions_filter. reflexivity.
Qed.

Lemma lookup_sorted (l : list (string * datetime)) (id : string)
  (t : datetime) :
  NoDup (keys l) -> In (id, t) (sorted_by_time l) -> lookup l id = Some t.
Proof.
  intros ND H. apply lookup_In; [exact ND|].
  exact (Permutation_in _ (sorted_by_time_perm l) H).
Qed.

(** Among the records of a consistent store, the capacity step removes
    none that is more recent than one it keeps. *)
Lemma evict_oldest_order (st : Store) (id id' : string) (ts ts' : datetime) :
  consistent st ->
  lookup (session_timestamps st) id = Some ts ->
  lookup (session_timestamps (evict_oldest st)) id = None ->
  lookup (session_timestamps (evict_oldest st)) id' = Some ts' ->
  ts <= ts'.
Proof.
  intros [ND EQ] L Gone Kept.
  assert (NDt : NoDup (keys (session_timestamps st))) by now rewrite <- EQ.
  destruct (Nat.ltb_spec MAX_SESSIONS (List.length (session_store st)))
    as [Hgt|Hle].
  2:{ unfold evict_oldest in Gone. apply Nat.ltb_ge in Hle.
      rewrite Hle in Gone. congruence. }
  rewrite (evict_oldest_timestamps st Hgt) in Gone, Kept.
  set (n := (List.length (session_store st) - MAX_SESSIONS)%nat) in *.
  set (sorted := sorted_by_time (session_timestamps st)) in *.
  set (ks := map fst (firstn n sorted)) in *.
  assert (Hin : In id ks).
  { apply notin_false_iff. destruct (notin ks id) eqn:E; [|reflexivity].
    rewrite (lookup_filter_keep (fun k => notin ks k) _ id E) in Gone.
    congruence. }
  assert (Hout : ~ In id' ks).
  { apply notin_true_iff. destruct (notin ks id') eqn:E; [reflexivity|].
    rewrite (lookup_filter_drop (fun k => notin ks k) _ id' E) in Kept.
    discriminate Kept. }
  apply (lookup_filter_Some (fun k => notin ks k)) in Kept.
  unfold ks in Hin. apply in_map_iff in Hin.
  destruct Hin as [[id0 t0] [E0 H0]]. simpl in E0. subst id0.
  assert (Ht0 : t0 = ts).
  { assert (In (id, t0) sorted).
    { rewrite <- (firstn_skipn n sorted). apply in_or_app. now left. }
    pose proof (lookup_sorted _ _ _ NDt H) as L0. congruence. }
  subst t0.
  assert (Hs : In (id', ts') sorted).
  { apply (Permutation_in _ (Permutation_sym (sorted_by_time_perm _))).
    now apply lookup_Some_In. }
  rewrite <- (firstn_skipn n sorted) in Hs. apply in_app_or in Hs.
  destruct Hs as [Hs|Hs].
  - exfalso. apply Hout. unfold ks. apply in_map_iff.
    now exists (id', ts').
  - exact (ordered_split sorted n (id, ts) (id', ts')
             (sorted_by_time_ordered _) H0 Hs).
Qed.

Lemma remove_expired_keeps (now : datetime) (st : Store) (id : string)
  (ts : datetime) :
  consistent st ->
  lookup (session_timestamps st) id = Some ts ->
  is_expired_entry fromisoformat now st id ts = false ->
  let st1 := remove_sessions st (expired_sessions fromisoformat now st) in
  lookup (session_timestamps st1) id = Some ts /\
  lookup (session_store st1) id = lookup (session_store st) id.
Proof.
  intros [ND EQ] L HE. cbv zeta.
  assert (NDt : NoDup (keys (session_timestamps st))) by now rewrite <- EQ.
  pose proof (not_expired_entry_kept fromisoformat now st id ts NDt
                (lookup_Some_In _ _ _ L) HE) as Hkeep.
  rewrite remove_sessions_filter. simpl.
  rewrite (lookup_filter_keep
             (fun k => notin (expired_sessions fromisoformat now st) k)
             (session_timestamps st) id Hkeep).
  rewrite (lookup_filter_keep
             (fun k => notin (expired_sessions fromisoformat now st) k)
             (session_store st) id Hkeep).
  now split.
Qed.

(** X3: oldest first.  When the sweep removes a record that has not
    expired, it does so for capacity, and then every record it keeps has a
    timestamp at least as recent. *)
Theorem capacity_eviction_is_oldest_first (now : datetime) (st : Store)
  (id id' : string) (ts ts' : datetime) :
  consistent st ->
  lookup (session_timestamps st) id = Some ts ->
  is_expired_entry fromisoformat now st id ts = false ->
  lookup (session_timestamps (sweep now st)) id = None ->
  lookup (session_timestamps (sweep now st)) id' = Some ts' ->
  (MAX_SESSIONS < population st)%nat /\ ts <= ts'.
Proof.
  intros C L HE Gone Kept.
  destruct (remove_expired_keeps now st id ts C L HE) as [L1 _].
  unfold cleanup_expired_sessions in Gone, Kept.
  set (st1 := remove_sessions st (expired_sessions fromisoformat now st)) in *.
  split.
  - destruct (Nat.ltb_spec MAX_SESSIONS (List.length (session_store st1)))
      as [Hgt|Hle].
    + unfold population. unfold st1 in Hgt.
      rewrite remove_sessions_filter in Hgt. simpl in Hgt.
      pose proof (filter_length_le
                    (fun kv => notin (expired_sessions fromisoformat now st)
                                     (fst kv))
                    (session_store st)). lia.
    + unfold evict_oldest in Gone. apply Nat.ltb_ge in Hle.
      rewrite Hle in Gone. congruence.
  - apply (evict_oldest_order st1 id id' ts ts');
      [now apply remove_sessions_consistent | assumption..].
Qed.

(** The newest record survives the capacity step. *)
Lemma evict_oldest_keeps_newest (st : Store) (id : string) (ts : datetime) :
  consistent st ->
  lookup (session_timestamps st) id = Some ts ->
  (forall id' ts', id' <> id ->
     lookup (session_timestamps st) id' = Some ts' -> ts' < ts) ->
  lookup (session_timestamps (evict_oldest st)) id = Some ts /\
  lookup (session_store (evict_oldest st)) id = lookup (session_store st) id.
Proof.
  intros [ND EQ] L Newest.
  assert (NDt : NoDup (keys (session_timestamps st))) by now rewrite <- EQ.
  destruct (Nat.ltb_spec MAX_SESSIONS (List.length (session_store st)))
    as [Hgt|Hle].
  2:{ unfold evict_oldest. apply Nat.ltb_ge in Hle. rewrite Hle.
      now split. }
  rewrite (evict_oldest_timestamps st Hgt), (evict_oldest_store st Hgt).
  set (n := (List.length (session_store st) - MAX_SESSIONS)%nat).
  set (sorted := sorted_by_time (session_timestamps st)).
  set (ks := map fst (firstn n sorted)).
  assert (Hlen : List.length sorted = List.length (session_store st)).
  { unfold sorted. rewrite (Permutation_length (sorted_by_time_perm _)).
    rewrite <- (length_keys (session_timestamps st)), <- EQ.
    apply length_keys. }
  assert (Hkeep : notin ks id = true).
  { apply notin_true_iff. intro Hin. unfold ks in Hin.
    apply in_map_iff in Hin. destruct Hin as [[id0 t0] [E0 H0]].
    simpl in E0. subst id0.
    assert (Hs0 : In (id, t0) sorted).
    { rewrite <- (firstn_skipn n sorted). apply in_or_app. now left. }
    pose proof (lookup_sorted _ _ _ NDt Hs0) as L0.
    assert (t0 = ts) by congruence. subst t0.
    destruct (skipn n sorted) as [|[id1 t1] rest] eqn:Sk.
    { pose proof (length_skipn n sorted) as K. rewrite Sk in K.
      simpl in K. unfold n, MAX_SESSIONS in *. lia. }
    assert (H1 : In (id1, t1) (skipn n sorted))
      by (rewrite Sk; now left).
    pose proof (ordered_split sorted n (id, ts) (id1, t1)
                  (sorted_by_time_ordered _) H0 H1) as Hle. simpl in Hle.
    assert (Hs1 : In (id1, t1) sorted).
    { rewrite <- (firstn_skipn n sorted). apply in_or_app. now right. }
    pose proof (lookup_sorted _ _ _ NDt Hs1) as L1.
    destruct (String.eqb_spec id1 id) as [->|Hne].
    - assert (NDs : NoDup (map fst sorted)).
      { apply (Permutation_NoDup
                 (Permutation_map fst
                    (Permutation_sym (sorted_by_time_perm _)))).
        exact NDt. }
      rewrite <- (firstn_skipn n sorted), map_app in NDs.
      apply (NoDup_app_disjoint _ _ NDs id).
      + apply in_map_iff. now exists (id, ts).
      + apply in_map_iff. now exists (id, t1).
    - specialize (Newest id1 t1 Hne L1). lia. }
  rewrite (lookup_filter_keep (fun k => notin ks k) _ id Hkeep).
  rewrite (lookup_filter_keep (fun k => notin ks k) _ id Hkeep).
  now split.
Qed.

(** A record that has not expired and is newer than all others survives the
    sweep. *)
Lemma sweep_keeps_newest (now : datetime) (st : Store) (id : string)
  (ts : datetime) (state : StockAgentState) :
  consistent st ->
  lookup (session_timestamps st) id = Some ts ->
  lookup (session_store st) id = Some state ->
  is_expired_entry fromisoformat now st id ts = false ->
  (forall id' ts', id' <> id ->
     lookup (session_timestamps st) id' = Some ts' -> ts' < ts) ->
  lookup (session_timestamps (sweep now st)) id = Some ts /\
  lookup (session_store (sweep now st)) id = Some state.
Proof.
  intros C L S HE Newest.
  destruct (remove_expired_keeps now st id ts C L HE) as [L1 S1].
  unfold cleanup_expired_sessions.
  set (st1 := remove_sessions st (expired_sessions fromisoformat now st)) in *.
  assert (C1 : consistent st1) by now apply remove_sessions_consistent.
  assert (N1 : forall id' ts', id' <> id ->
                 lookup (session_timestamps st1) id' = Some ts' -> ts' < ts).
  { intros id' ts' Hne H. apply (Newest id' ts' Hne).
    unfold st1 in H. rewrite remove_sessions_filter in H. simpl in H.
    exact (lookup_filter_Some (fun k => notin _ k) _ _ _ H). }
  destruct (evict_oldest_keeps_newest st1 id ts C1 L1 N1) as [A B].
  split; [exact A | now rewrite B, S1].
Qed.

(** After a save, the record is there with the saved state and the time of
    the save, and it is newer than the others when they are older than the
    save. *)
Lemma save_lookup (now : datetime) (st : Store) (id : string)
  (state : StockAgentState) :
  id <> "" ->
  lookup (session_store (save_session_state now st id state)) id
    = Some state /\
  lookup (session_timestamps (save_session_state now st id state)) id
    = Some now /\
  (forall id' ts', id' <> id ->
     lookup (session_timestamps (save_session_state now st id state)) id'
       = Some ts' ->
     lookup (session_timestamps st) id' = Some ts').
Proof.
  intro N. unfold save_session_state.
  destruct (String.eqb_spec id "") as [E|_]; [contradiction|]. simpl.
  rewrite !lookup_set_same. repeat split.
  intros id' ts' Hne H. now rewrite lookup_set_other in H.
Qed.

Lemma restore_found (now : datetime) (st : Store) (id : string)
  (state : StockAgentState) :
  id <> "" ->
  lookup (session_store (sweep now st)) id = Some state ->
  restore now st id =
  ({| session_store := session_store (sweep now st);
      session_timestamps := set (session_timestamps (sweep now st)) id now |},
   state).
Proof.
  intros N H. unfold get_session_state.
  destruct (String.eqb_spec id "") as [E|_]; [contradiction|].
  now rewrite H.
Qed.

(** The state a save stored is what the next lookup of the identifier
    returns, as long as the record has not expired by then. *)
Lemma restore_after_save (now now' : datetime) (st : Store) (id : string)
  (state : StockAgentState) :
  consistent st ->
  id <> "" ->
  (forall id' ts', id' <> id ->
     lookup (session_timestamps st) id' = Some ts' -> ts' < now) ->
  now' - now <= timedelta_minutes SESSION_TIMEOUT_MINUTES ->
  (quiz_session_active state = true ->
   QuizSessionManager.is_session_expired fromisoformat now' state = false) ->
  let saved := save_session_state now st id state in
  snd (restore now' saved id) = state /\
  lookup (session_store (fst (restore now' saved id))) id = Some state /\
  lookup (session_timestamps (fst (restore now' saved id))) id = Some now'.
Proof.
  intros C N Newest Hidle Hquiz. cbv zeta.
  destruct (save_lookup now st id state N) as [S [T O]].
  set (saved := save_session_state now st id state) in *.
  assert (Cs : consistent saved) by now apply save_consistent.
  assert (HE : is_expired_entry fromisoformat now' saved id now = false).
  { unfold is_expired_entry. apply Z.ltb_ge in Hidle. rewrite Hidle, S.
    destruct (quiz_session_active state); [now apply Hquiz | reflexivity]. }
  assert (Ns : forall id' ts', id' <> id ->
                 lookup (session_timestamps saved) id' = Some ts' -> ts' < now).
  { intros id' ts' Hne H. apply (Newest id' ts' Hne). now apply O. }
  destruct (sweep_keeps_newest now' saved id now state Cs T S HE Ns)
    as [_ K].
  rewrite (restore_found now' saved id state N K). simpl.
  split; [reflexivity | split; [exact K | apply lookup_set_same]].
Qed.

(** X4: round trip.  After [save_session_state] has stored a state under an
    identifier, the next [get_session_state] for it returns that very
    state and refreshes its timestamp, provided the lookup comes within ten
    minutes, a running quiz in the state has not expired by then, and the
    other records were last active before the save (so that the capacity
    step, which evicts the oldest, cannot take this one). *)
Theorem saved_state_is_restored (now now' : datetime) (st : Store)
  (id : string) (state : StockAgentState) :
  consistent st ->
  id <> "" ->
  (forall id' ts', id' <> id ->
     lookup (session_timestamps st) id' = Some ts' -> ts' < now) ->
  now' - now <= timedelta_minutes SESSION_TIMEOUT_MINUTES ->
  (quiz_session_active state = true ->
   QuizSessionManager.is_session_expired fromisoformat now' state = false) ->
  let saved := save_session_state now st id state in
  let looked_up := restore now' saved id in
  snd looked_up = state /\
  lookup (session_store (fst looked_up)) id = Some state /\
  lookup (session_timestamps (fst looked_up)) id = Some now' /\
  consistent (fst looked_up).
Proof.
  intros C N Newest Hidle Hquiz. cbv zeta.
  destruct (restore_after_save now now' st id state C N Newest Hidle Hquiz)
    as [A [B D]].
  repeat split; try assumption.
  - apply get_consistent, save_consistent, C.
  - apply get_consistent, save_consistent, C.
Qed.

Lemma set_other_absent (st : Store) (id : string) (state : StockAgentState)
  (ts : datetime) :
  id <> "" -> absent st "" ->
  absent {| session_store := set (session_store st) id state;
            session_timestamps := set (session_timestamps st) id ts |} "".
Proof.
  intros N [A B]. unfold absent. simpl.
  rewrite !lookup_set_other by (intro E; now apply N). now split.
Qed.

Lemma reachable_no_empty_id (st : Store) : reachable st -> absent st "".
Proof.
  induction 1 as [|now id st _ IH|now id state st _ IH|now st _ IH].
  - split; reflexivity.
  - assert (S : absent (sweep now st) "").
    { unfold cleanup_expired_sessions.
      apply evict_oldest_absent, remove_sessions_absent. now right. }
    unfold get_session_state.
    destruct (String.eqb_spec id "") as [E|N]; simpl; [exact S|].
    destruct (lookup (session_store (sweep now st)) id); simpl.
    + destruct S as [A B]. split; simpl; [exact A|].
      rewrite lookup_set_other by (intro E; now apply N). exact B.
    + now apply set_other_absent.
  - unfold save_session_state.
    destruct (String.eqb_spec id "") as [E|N]; [exact IH|].
    now apply set_other_absent.
  - unfold cleanup_expired_sessions.
    apply evict_oldest_absent, remove_sessions_absent. now right.
Qed.

(** X5: the empty identifier.  No sequence of lookups, saves and sweeps
    ever stores a record under the empty request id: a lookup with it only
    sweeps and hands out a fresh default state that is not kept, and a save
    with it does nothing. *)
Theorem empty_request_id_is_never_stored (st : Store) :
  reachable st ->
  absent st "" /\
  (forall now,
     restore now st "" = (sweep now st, default_stock_agent_state)) /\
  (forall now state, save_session_state now st "" state = st).
Proof.
  intro R. split; [exact (reachable_no_empty_id st R)|].
  split; reflexivity.
Qed.

End StoreInvariants.

(** ** The request handler *)
Section ApiFacts.
Import PyDict SessionStore ApiServer.
Variable fromisoformat : string -> option datetime.
Variable exn_str : exn -> string.

Local Abbreviation restore := (get_session_state fromisoformat).
Local Abbreviation handle agent :=
  (chat_with_agent fromisoformat agent exn_str).

(** The state the handler passes to the agent. *)
Definition prepared (state : StockAgentState)
  (request_id api_key question : option string) : StockAgentState :=
  set_request_id (set_api_key (set_query state (text question))
                              (text api_key))
                 (text request_id).

(** The store once the handler has looked the session up and written the
    request into its record. *)
Definition registered (now : datetime) (st : Store)
  (request_id api_key question : option string) : Store :=
  let st1 := fst (restore now st (text request_id)) in
  {| session_store :=
       set (session_store st1) (text request_id)
           (prepared (snd (restore now st (text request_id)))
                     request_id api_key question);
     session_timestamps := session_timestamps st1 |}.

Lemma chat_rejected (agent : StockAgentState -> outcome StockAgentState)
  (now now' : datetime) (st : Store)
  (request_id api_key question : option string) :
  py_not question = true \/ py_not request_id = true ->
  handle agent now now' st request_id api_key question
    = (st, Uncaught TypeError).
Proof.
  intro H. unfold chat_with_agent, chat_with_agent_try.
  destruct (py_not question); [reflexivity|].
  destruct (py_not request_id); [reflexivity|].
  destruct H as [H|H]; discriminate H.
Qed.

Lemma chat_accepted (agent : StockAgentState -> outcome StockAgentState)
  (now now' : datetime) (st : Store)
  (request_id api_key question : option string) :
  py_not question = false -> py_not request_id = false ->
  handle agent now now' st request_id api_key question =
  match agent (prepared (snd (restore now st (text request_id)))
                        request_id api_key question) with
  | Ok result =>
      (save_session_state now'
         (registered now st request_id api_key question)
         (text request_id) result,
       Answer (response result))
  | Raise _ =>
      (registered now st request_id api_key question, Uncaught TypeError)
  end.
Proof.
  intros Hq Hr. unfold chat_with_agent, chat_with_agent_try, registered,
    prepared.
  rewrite Hq, Hr.
  destruct (restore now st (text request_id)) as [st1 state]. simpl.
  destruct (agent _); reflexivity.
Qed.

(** X6: the handler never raises an [HTTPException].  For a request
    without a question or without a request id the try block raises the
    [HTTPException] with status 400, but the handler's own except clause
    catches it, and the log line of that clause calls [e.with_traceback()]
    without an argument: a [TypeError] leaves the handler instead, and the
    store is not touched.  The same [TypeError] replaces any exception of
    the agent, so the [HTTPException] with status 500 of the last line is
    never raised.  An answer is the response of the agent's result. *)
Theorem chat_with_agent_never_raises_http_error
  (agent : StockAgentState -> outcome StockAgentState)
  (now now' : datetime) (st : Store)
  (request_id api_key question : option string) :
  let out := handle agent now now' st request_id api_key question in
  (forall status_code detail, snd out <> HTTPException status_code detail) /\
  (py_not question = true \/ py_not request_id = true ->
   out = (st, Uncaught TypeError)) /\
  (forall e, snd out = Uncaught e -> e = TypeError) /\
  (forall answer, snd out = Answer answer ->
     exists state result,
       agent (prepared state request_id api_key question) = Ok result /\
       answer = response result).
Proof.
  cbv zeta.
  destruct (py_not question) eqn:Hq;
    [|destruct (py_not request_id) eqn:Hr].
  - rewrite (chat_rejected agent now now' st request_id api_key question)
      by (left; exact Hq).
    repeat split; simpl; intros; try discriminate; congruence.
  - rewrite (chat_rejected agent now now' st request_id api_key question)
      by (right; exact Hr).
    repeat split; simpl; intros; try discriminate; congruence.
  - rewrite (chat_accepted agent now now' st request_id api_key question
               Hq Hr).
    destruct (agent _) as [result|e] eqn:A; simpl.
    + repeat split; intros; try discriminate.
      * destruct H as [H|H]; discriminate H.
      * injection H as <-. eauto.
    + repeat split; intros; try discriminate; try congruence.
      destruct H as [H|H]; discriminate H.
Qed.

Lemma py_not_false (x : option string) :
  py_not x = false -> text x <> "".
Proof.
  destruct x as [s|]; simpl; [|discriminate].
  destruct (String.eqb_spec s ""); [discriminate | auto].
Qed.

Lemma restore_registers (now : datetime) (st : Store) (id : string) :
  id <> "" ->
  lookup (session_store (fst (restore now st id))) id
    = Some (snd (restore now st id)).
Proof.
  intro N. unfold get_session_state.
  destruct (String.eqb_spec id "") as [E|_]; [contradiction|].
  destruct (lookup (session_store
                      (cleanup_expired_sessions fromisoformat now st)) id)
    as [state|] eqn:L; simpl.
  - exact L.
  - apply lookup_set_same.
Qed.

Lemma registered_invariant (now : datetime) (st : Store)
  (request_id api_key question : option string) :
  consistent st -> text request_id <> "" ->
  consistent (registered now st request_id api_key question) /\
  (population (registered now st request_id api_key question)
   <= S MAX_SESSIONS)%nat /\
  lookup (session_store (registered now st request_id api_key question))
         (text request_id)
    = Some (prepared (snd (restore now st (text request_id)))
                     request_id api_key question).
Proof.
  intros C N.
  pose proof (get_consistent fromisoformat now st (text request_id) C)
    as [ND EQ].
  pose proof (get_population fromisoformat now st (text request_id) C) as P.
  pose proof (restore_registers now st (text request_id) N) as R.
  unfold registered, consistent, population in *. simpl.
  rewrite (keys_set_present _ _ _ _ R).
  split; [now split|]. split; [|apply lookup_set_same].
  rewrite <- length_keys, (keys_set_present _ _ _ _ R), length_keys.
  exact P.
Qed.

Lemma save_present_population (now : datetime) (st : Store) (id : string)
  (state old : StockAgentState) :
  lookup (session_store st) id = Some old ->
  population (save_session_state now st id state) = population st.
Proof.
  intro L. unfold save_session_state, population.
  destruct (String.eqb id ""); [reflexivity|]. simpl.
  now rewrite <- length_keys, (keys_set_present _ _ _ _ L), length_keys.
Qed.

Lemma chat_invariant (agent : StockAgentState -> outcome StockAgentState)
  (now now' : datetime) (st : Store)
  (request_id api_key question : option string) :
  consistent st /\ (population st <= S MAX_SESSIONS)%nat ->
  let st' := fst (handle agent now now' st request_id api_key question) in
  consistent st' /\ (population st' <= S MAX_SESSIONS)%nat.
Proof.
  intros [C P]. cbv zeta.
  destruct (py_not question) eqn:Hq;
    [|destruct (py_not request_id) eqn:Hr].
  - rewrite chat_rejected by (left; exact Hq). now split.
  - rewrite chat_rejected by (right; exact Hr). now split.
  - rewrite (chat_accepted agent now now' st request_id api_key question
               Hq Hr).
    destruct (registered_invariant now st request_id api_key question C
                (py_not_false _ Hr)) as [C1 [P1 L1]].
    destruct (agent _) as [result|e]; simpl; [|now split].
    split; [now apply save_consistent|].
    now rewrite (save_present_population now' _ _ result _ L1).
Qed.

(** The stores that requests to the handler can leave behind, starting from
    the empty one; each request has its own headers, clock readings and
    behaviour of the agent. *)
Inductive served : Store -> Prop :=
| served_start : served empty
| served_request (agent : StockAgentState -> outcome StockAgentState)
    (now now' : datetime) (request_id api_key question : option string)
    (st : Store) :
    served st ->
    served (fst (handle agent now now' st request_id api_key question)).

(** X7: under any sequence of requests the store never holds more than
    [MAX_SESSIONS + 1] records, and its two dictionaries keep the same
    identifiers, each once. *)
Theorem served_store_is_bounded (st : Store) :
  served st ->
  consistent st /\ (population st <= S MAX_SESSIONS)%nat.
Proof.
  induction 1 as [|agent now now' request_id api_key question st _ IH].
  - split; [split; [constructor | reflexivity]|].
    unfold population. simpl. lia.
  - exact (chat_invariant agent now now' st request_id api_key question IH).
Qed.

(** X8: the state the agent returned for a session is the state it is
    given on the next request of that session, with the new question,
    key and request id written into it, provided the next request comes
    within ten minutes, a quiz running in that state has not expired by
    then, and the other sessions were last active before the first answer
    was saved. *)
Theorem agent_state_carries_over
  (agent1 agent2 : StockAgentState -> outcome StockAgentState)
  (now1 now1' now2 now2' : datetime) (st : Store)
  (request_id api_key1 question1 api_key2 question2 : option string)
  (result : StockAgentState) :
  consistent st ->
  py_not request_id = false ->
  py_not question1 = false ->
  py_not question2 = false ->
  agent1 (prepared (snd (restore now1 st (text request_id)))
                   request_id api_key1 question1) = Ok result ->
  (forall id' ts', id' <> text request_id ->
     lookup (session_timestamps st) id' = Some ts' -> ts' < now1') ->
  now2 - now1' <= timedelta_minutes SESSION_TIMEOUT_MINUTES ->
  (quiz_session_active result = true ->
   QuizSessionManager.is_session_expired fromisoformat now2 result = false) ->
  let first :=
    handle agent1 now1 now1' st request_id api_key1 question1 in
  let second :=
    handle agent2 now2 now2' (fst first) request_id api_key2 question2 in
  snd first = Answer (response result) /\
  snd second =
    match agent2 (prepared result request_id api_key2 question2) with
    | Ok result2 => Answer (response result2)
    | Raise _ => Uncaught TypeError
    end.
Proof.
  intros C Hr Hq1 Hq2 A1 Newest Hidle Hquiz. cbv zeta.
  pose proof (py_not_false _ Hr) as N.
  rewrite (chat_accepted agent1 now1 now1' st request_id api_key1 question1
             Hq1 Hr), A1.
  simpl fst. simpl snd. split; [reflexivity|].
  destruct (registered_invariant now1 st request_id api_key1 question1 C N)
    as [C1 _].
  assert (N1 : forall id' ts', id' <> text request_id ->
            lookup (session_timestamps
                      (registered now1 st request_id api_key1 question1)) id'
              = Some ts' -> ts' < now1').
  { intros id' ts' Hne H. apply (Newest id' ts' Hne).
    unfold registered in H. simpl in H.
    unfold get_session_state in H.
    destruct (String.eqb_spec (text request_id) "") as [E|_];
      [contradiction|].
    destruct (sweep_lookup fromisoformat now1 st id') as [_ F].
    apply F.
    destruct (lookup (session_store
                        (cleanup_expired_sessions fromisoformat now1 st))
                     (text request_id)); simpl in H;
      now rewrite lookup_set_other in H. }
  destruct (restore_after_save fromisoformat now1' now2
              (registered now1 st request_id api_key1 question1)
              (text request_id) result C1 N N1 Hidle Hquiz) as [R _].
  rewrite (chat_accepted agent2 now2 now2' _ request_id api_key2 question2
             Hq2 Hr).
  rewrite R. destruct (agent2 _); reflexivity.
Qed.

End ApiFacts.

(** ** The quiz session manager: expiry *)
Section ExpiryFacts.
Import QuizSessionManager.
Variable fromisoformat : string -> option datetime.
Variable save_quiz_result : QuizDatabase.SaveFn.

Local Abbreviation expired := (is_session_expired fromisoformat).

(** The state [end_session] leaves. *)
Definition torn_down (state : StockAgentState) : StockAgentState :=
  set_quiz_fields state false "" "" None false (phase_value INACTIVE).

Lemma end_session_default_eq (now : datetime) (db : QuizDb)
  (state : StockAgentState) :
  end_session_default save_quiz_result now db state = (db, torn_down state).
Proof. reflexivity. Qed.

Lemma cleanup_expired_session_eq (now : datetime) (db : QuizDb)
  (state : StockAgentState) :
  cleanup_expired_session fromisoformat save_quiz_result now db state =
  (db, if expired now state then torn_down state else state).
Proof.
  unfold cleanup_expired_session.
  destruct (expired now state); reflexivity.
Qed.

Lemma torn_down_not_expired (now : datetime) (state : StockAgentState) :
  expired now (torn_down state) = false.
Proof. reflexivity. Qed.

(** X9: a session that has expired stays expired.  Once
    [is_session_expired] says yes at some time, it says yes at every later
    time, as long as the quiz fields are not changed. *)
Theorem expiry_is_permanent (now now' : datetime) (state : StockAgentState) :
  expired now state = true ->
  now <= now' ->
  expired now' state = true.
Proof.
  unfold is_session_expired. intros H Hle.
  destruct (negb (is_session_active state)); [discriminate H|].
  destruct (String.eqb (quiz_session_start_time state) ""); [reflexivity|].
  destruct (fromisoformat (quiz_session_start_time state)) as [start|];
    [|reflexivity].
  apply Z.ltb_lt in H. apply Z.ltb_lt. lia.
Qed.

(** X10: [cleanup_expired_session] writes nothing to storage, returns a
    state that is not expired at that time, leaves a state that had not
    expired as it was, resets the quiz fields of one that had, and changes
    nothing when it is run again. *)
Theorem cleanup_expired_session_postcondition (now : datetime) (db : QuizDb)
  (state : StockAgentState) :
  let out :=
    cleanup_expired_session fromisoformat save_quiz_result now db state in
  fst out = db /\
  expired now (snd out) = false /\
  (expired now state = false -> snd out = state) /\
  (expired now state = true -> quiz_fields_reset (snd out)) /\
  cleanup_expired_session fromisoformat save_quiz_result now (fst out)
    (snd out) = out.
Proof.
  cbv zeta. rewrite cleanup_expired_session_eq. simpl fst. simpl snd.
  destruct (expired now state) eqn:E.
  - rewrite cleanup_expired_session_eq, torn_down_not_expired.
    repeat split; try reflexivity; discriminate.
  - rewrite cleanup_expired_session_eq, E.
    repeat split; try reflexivity; discriminate.
Qed.

(** X11: the window of a new quiz.  [start_new_session] writes nothing to
    storage, even when it first ends a session that was still running, and
    opens an active session in phase asking on the given question, with no
    hint used.  When [current_time] parses back to the instant [start], the
    session expires exactly when more than ten minutes have passed since
    [start]; when it is empty or does not parse, the new session counts as
    expired from the beginning. *)
Theorem new_session_window (now : datetime) (db : QuizDb)
  (session_id current_time : string) (state : StockAgentState)
  (quiz_data : QuizQuestion) :
  let out :=
    start_new_session save_quiz_result now db session_id current_time state
      quiz_data in
  fst out = db /\
  snd out = set_quiz_fields state true session_id current_time
              (Some quiz_data) false (phase_value ASKING) /\
  (forall start now',
     current_time <> "" ->
     fromisoformat current_time = Some start ->
     expired now' (snd out)
       = (timedelta_minutes SESSION_TIMEOUT_MINUTES <? now' - start)) /\
  (forall now',
     current_time = "" \/ fromisoformat current_time = None ->
     expired now' (snd out) = true).
Proof.
  cbv zeta. unfold start_new_session.
  assert (E : (if quiz_session_active state
               then end_session_default save_quiz_result now db state
               else (db, state))
              = (db, if quiz_session_active state then torn_down state
                     else state))
    by (destruct (quiz_session_active state); reflexivity).
  rewrite E. simpl fst. simpl snd.
  split; [reflexivity|]. split.
  - destruct (quiz_session_active state); reflexivity.
  - unfold is_session_expired, is_session_active.
    cbn [quiz_session_active quiz_session_start_time set_quiz_fields negb].
    split.
    + intros start now' N P.
      destruct (String.eqb_spec current_time ""); [contradiction|].
      now rewrite P.
    + intros now' [->|P]; [reflexivity|].
      destruct (String.eqb current_time ""); [reflexivity|].
      now rewrite P.
Qed.

End ExpiryFacts.

(** ** The quiz node: invariant, storage, hints, failures, expiry *)
Section QuizNodeFacts.
Import QuizNode.
Variable fromisoformat : string -> option datetime.
Variable isoformat : datetime -> string.
Variable save_quiz_result : QuizDatabase.SaveFn.
Variable check_answer : QuizQuestion -> string -> AnswerResult.
Variable get_hint : QuizQuestion -> string.
Variable generate_answer_package :
  QuizQuestion -> string -> AnswerResult -> string -> InfoPackage.
Variable generate_news_based_hint : QuizQuestion -> NewsHint.
Variable quiz_file_exists : bool.
Variable parse_quiz_file : list QuizQuestion.
Variable get_unplayed_quiz : list QuizQuestion -> string -> option QuizQuestion.
Variable generate_session_id : string.
Variable generate_quiz_start_message : QuizQuestion -> string.

(** The node over any storage function, and over the repository's own. *)
Local Abbreviation node_over save :=
  (quiz_stock_data fromisoformat isoformat save
     check_answer get_hint generate_answer_package generate_news_based_hint
     quiz_file_exists parse_quiz_file get_unplayed_quiz generate_session_id
     generate_quiz_start_message).
Local Abbreviation quiz_node := (node_over QuizDatabase.save_quiz_result).
Local Abbreviation start_over save :=
  (_handle_quiz_start isoformat save quiz_file_exists parse_quiz_file
     get_unplayed_quiz generate_session_id generate_quiz_start_message).
Local Abbreviation answer_over save :=
  (_handle_user_answer save check_answer get_hint generate_answer_package
     generate_news_based_hint).
Local Abbreviation expired :=
  (QuizSessionManager.is_session_expired fromisoformat).

(** The payloads of the node. *)
Definition error_payload (error_message : string) : StateData :=
  quiz_payload (ErrorEntry error_message "다시 '주식퀴즈도전'으로 시도해보세요.")
               "퀴즈 오류 발생" "quiz_error".

Definition completion_payload : StateData :=
  quiz_payload
    (SessionCompleted
       "퀴즈가 완료되었습니다. '주식퀴즈도전'으로 새로운 퀴즈를 시작할 수 있습니다!"
       true)
    "퀴즈 세션 완료" "quiz_completion".

(** The state the node dispatches on: the given one, torn down first when
    its quiz has expired. *)
Definition swept (now : datetime) (state : StockAgentState)
  : StockAgentState :=
  if expired now state then torn_down state else state.

Lemma node_dispatch (now : datetime) (db : QuizDb) (state : StockAgentState) :
  node_over save_quiz_result now db state =
  let query := Str.strip (query state) in
  let state := swept now state in
  let current_phase := quiz_session_phase state in
  if String.eqb current_phase "inactive" then
    start_over save_quiz_result now db state query
  else if String.eqb current_phase "asking" then
    answer_over save_quiz_result now db state query
  else if String.eqb current_phase "processing" then
    (db, set_data (torn_down state) completion_payload)
  else if String.eqb current_phase "completed" then
    (db, set_data (torn_down state) completion_payload)
  else
    (db, set_data (torn_down state)
           (error_payload "퀴즈 세션 상태 오류가 발생했습니다.")).
Proof.
  unfold quiz_stock_data.
  rewrite (cleanup_expired_session_eq fromisoformat save_quiz_result).
  cbv zeta. fold (swept now state).
  cbv beta iota delta [phase_value].
  destruct (String.eqb (quiz_session_phase (swept now state)) "inactive");
    [reflexivity|].
  destruct (String.eqb (quiz_session_phase (swept now state)) "asking");
    [reflexivity|].
  unfold _handle_session_completion.
  rewrite !(end_session_default_eq save_quiz_result).
  destruct (String.eqb (quiz_session_phase (swept now state)) "processing").
  - unfold QuizSessionManager.update_session_phase.
    destruct (negb (QuizSessionManager.is_session_active (swept now state)));
      reflexivity.
  - destruct (String.eqb (quiz_session_phase (swept now state)) "completed");
      reflexivity.
Qed.

(** What a quiz start does. *)
Lemma start_cases (now : datetime) (db : QuizDb) (state : StockAgentState)
  (query : string) :
  start_over save_quiz_result now db state query =
  (db,
   if negb quiz_file_exists then
     set_data state (error_payload "퀴즈 파일을 찾을 수 없습니다.")
   else
     match parse_quiz_file with
     | [] => set_data state (error_payload "유효한 퀴즈를 로드할 수 없습니다.")
     | _ :: _ =>
         match get_unplayed_quiz parse_quiz_file (request_id state) with
         | None => set_data state (error_payload "퀴즈 선택에 실패했습니다.")
         | Some selected_quiz =>
             set_data
               (set_quiz_fields state true generate_session_id
                  (isoformat now) (Some selected_quiz) false "asking")
               (quiz_payload
                  (QuizGeneration (generate_quiz_start_message selected_quiz)
                                  selected_quiz)
                  ("퀴즈 #" ++ str_of_Z (quiz_id selected_quiz) ++ " 시작")
                  "quiz_start")
         end
     end).
Proof.
  unfold _handle_quiz_start.
  destruct (negb quiz_file_exists); [reflexivity|].
  destruct parse_quiz_file as [|q0 qs]; [reflexivity|].
  destruct (get_unplayed_quiz (q0 :: qs) (request_id state)) as [q|];
    [|reflexivity].
  unfold QuizSessionManager.start_new_session.
  destruct (quiz_session_active state);
    rewrite ?(end_session_default_eq save_quiz_result); reflexivity.
Qed.

(** The session part of a state, as a running or a closed quiz. *)
Definition quiz_running (s : StockAgentState) : Prop :=
  quiz_session_active s = true /\
  (quiz_session_phase s = "asking" \/ quiz_session_phase s = "processing") /\
  quiz_current_question s <> None.

Definition quiz_well_formed (s : StockAgentState) : Prop :=
  quiz_fields_reset s \/ quiz_running s.

Lemma torn_down_reset (s : StockAgentState) : quiz_fields_reset (torn_down s).
Proof. unfold quiz_fields_reset. repeat split. Qed.

Lemma set_data_well_formed (s : StockAgentState) (d : StateData) :
  quiz_well_formed s -> quiz_well_formed (set_data s d).
Proof. intro H. exact H. Qed.

Lemma start_well_formed (now : datetime) (db : QuizDb)
  (state : StockAgentState) (query : string) :
  quiz_well_formed state ->
  quiz_well_formed (snd (start_over save_quiz_result now db state query)).
Proof.
  intro W. rewrite start_cases. simpl snd.
  destruct (negb quiz_file_exists); [exact W|].
  destruct parse_quiz_file as [|q0 qs]; [exact W|].
  destruct (get_unplayed_quiz (q0 :: qs) (request_id state)) as [q|];
    [|exact W].
  right. unfold quiz_running. simpl. repeat split; auto; discriminate.
Qed.

(** What the answer handler does with a running quiz in phase asking. *)
Lemma answer_cases (now : datetime) (db : QuizDb) (state : StockAgentState)
  (q : QuizQuestion) (user_answer : string) :
  quiz_session_active state = true ->
  quiz_current_question state = Some q ->
  answer_over save_quiz_result now db state user_answer =
  if is_hint_request user_answer then
    (db, _handle_hint_request get_hint generate_news_based_hint state q)
  else if negb (answer_success (check_answer q user_answer)) then
    (db, set_data (set_quiz_session_phase state "processing")
           (error_payload "답변 검증 중 오류가 발생했습니다."))
  else if answer_is_correct (check_answer q user_answer) then
    _handle_correct_answer save_quiz_result generate_answer_package now db
      (set_quiz_session_phase state "processing") q user_answer
      (check_answer q user_answer)
  else
    (db,
     set_data (set_quiz_session_phase
                 (set_quiz_session_phase state "processing") "asking")
       (quiz_payload
          (WrongAnswerWithHint (wrong_answer_text user_answer (get_hint q))
                               user_answer (get_hint q) true)
          ("퀴즈 #" ++ str_of_Z (quiz_id q) ++ " 오답 + 힌트 제공")
          "quiz_wrong_answer")).
Proof.
  intros Ha Hq. unfold _handle_user_answer. rewrite Hq.
  destruct (is_hint_request user_answer); [reflexivity|].
  rewrite (update_active state PROCESSING Ha).
  cbv beta iota delta [phase_value].
  destruct (negb (answer_success (check_answer q user_answer)));
    [reflexivity|].
  destruct (answer_is_correct (check_answer q user_answer)); [reflexivity|].
  unfold _handle_wrong_answer.
  now rewrite (update_active (set_quiz_session_phase state "processing")
                 ASKING Ha).
Qed.

(** The correct-answer handler always ends the session. *)
Lemma correct_answer_resets (now : datetime) (db : QuizDb)
  (state : StockAgentState) (q : QuizQuestion) (user_answer : string)
  (r : AnswerResult) :
  exists payload,
    snd (_handle_correct_answer save_quiz_result generate_answer_package
           now db state q user_answer r)
    = set_data (torn_down state) payload.
Proof.
  unfold _handle_correct_answer.
  set (upd := QuizSessionManager.update_session_phase state COMPLETED).
  assert (T : torn_down upd = torn_down state).
  { unfold upd, QuizSessionManager.update_session_phase.
    destruct (negb (QuizSessionManager.is_session_active state));
      reflexivity. }
  unfold QuizSessionManager.end_session.
  destruct (quiz_current_question upd) as [cq|].
  - destruct (save_quiz_result _ _ _ _ _ _ _ _ _ _ _) as [db1 [[|]|]];
      eexists; simpl;
      change (set_quiz_fields upd false "" "" None false "inactive")
        with (torn_down upd);
      rewrite T; reflexivity.
  - eexists. simpl.
    change (set_quiz_fields upd false "" "" None false "inactive")
      with (torn_down upd).
    rewrite T. reflexivity.
Qed.

(** X12: the invariant of the quiz node.  A state whose quiz fields are
    either fully reset, or describe a running quiz (active, in phase asking
    or processing, with a question), is turned by one pass of the node into
    a state of the same kind, whatever the collaborators answer and
    whatever storage does; in particular no pass leaves a session in phase
    completed or without its question. *)
Theorem quiz_node_keeps_session_well_formed (now : datetime) (db : QuizDb)
  (state : StockAgentState) :
  quiz_well_formed state ->
  quiz_well_formed (snd (node_over save_quiz_result now db state)).
Proof.
  intro W. rewrite node_dispatch. cbv zeta.
  assert (W0 : quiz_well_formed (swept now state)).
  { unfold swept. destruct (expired now state); [|exact W].
    left. apply torn_down_reset. }
  set (s0 := swept now state) in *.
  destruct W0 as [R|[Ha [Hp Hq]]].
  - assert (P : quiz_session_phase s0 = "inactive") by apply R.
    rewrite P. simpl String.eqb. cbv iota.
    apply start_well_formed. now left.
  - destruct (quiz_current_question s0) as [q|] eqn:Q; [|congruence].
    destruct Hp as [P|P]; rewrite P; simpl String.eqb; cbv iota.
    + rewrite (answer_cases now db s0 q _ Ha Q).
      destruct (is_hint_request _).
      { right. unfold quiz_running. simpl. rewrite Ha, P, Q.
        repeat split; auto; discriminate. }
      destruct (negb (answer_success _)).
      { right. unfold quiz_running. simpl. rewrite Ha, Q.
        repeat split; auto; discriminate. }
      destruct (answer_is_correct _).
      { destruct (correct_answer_resets now db
                    (set_quiz_session_phase s0 "processing") q
                    (Str.strip (query state))
                    (check_answer q (Str.strip (query state))))
          as [payload E].
        rewrite E. left. apply torn_down_reset. }
      right. unfold quiz_running. simpl. rewrite Ha, Q.
      repeat split; auto; discriminate.
    + left. apply torn_down_reset.
Qed.

(** The correct-answer handler: the state and the payload it leaves. *)
Lemma correct_answer_payload (now : datetime) (db : QuizDb)
  (state : StockAgentState) (q : QuizQuestion) (user_answer : string)
  (r : AnswerResult) :
  exists result_message,
    snd (_handle_correct_answer save_quiz_result generate_answer_package
           now db state q user_answer r)
    = set_data (torn_down state)
        (quiz_payload (AnswerChecking result_message true true)
                      ("퀴즈 정답: " ++ user_answer) "quiz_answer").
Proof.
  unfold _handle_correct_answer.
  set (upd := QuizSessionManager.update_session_phase state COMPLETED).
  assert (T : torn_down upd = torn_down state).
  { unfold upd, QuizSessionManager.update_session_phase.
    destruct (negb (QuizSessionManager.is_session_active state));
      reflexivity. }
  unfold QuizSessionManager.end_session.
  destruct (quiz_current_question upd) as [cq|].
  - destruct (save_quiz_result _ _ _ _ _ _ _ _ _ _ _) as [db1 [[|]|]];
      eexists; cbn [fst snd];
      change (set_quiz_fields upd false "" "" None false
                              (phase_value INACTIVE))
        with (torn_down upd);
      rewrite T; reflexivity.
  - eexists. cbn [fst snd].
    change (set_quiz_fields upd false "" "" None false (phase_value INACTIVE))
      with (torn_down upd).
    rewrite T. reflexivity.
Qed.

(** Every branch of the answer handler ends in [set_data] with a payload of
    one entry. *)
Lemma answer_payload (now : datetime) (db : QuizDb) (state : StockAgentState)
  (user_answer : string) :
  exists s entry summary query_type,
    snd (answer_over save_quiz_result now db state user_answer)
      = set_data s (quiz_payload entry summary query_type) /\
    (forall e sug, entry = ErrorEntry e sug ->
       sug = "다시 '주식퀴즈도전'으로 시도해보세요.").
Proof.
  unfold _handle_user_answer.
  destruct (quiz_current_question state) as [q|].
  - destruct (is_hint_request user_answer).
    { do 4 eexists. split; [reflexivity|]. intros e sug H. discriminate H. }
    destruct (negb (answer_success _)).
    { do 4 eexists. split; [reflexivity|].
      intros e sug H. now injection H as _ <-. }
    destruct (answer_is_correct _).
    + destruct (correct_answer_payload now db
                  (QuizSessionManager.update_session_phase state PROCESSING)
                  q user_answer
                  (check_answer q user_answer)) as [text E].
      rewrite E. do 4 eexists. split; [reflexivity|].
      intros e sug H. discriminate H.
    + do 4 eexists. split; [reflexivity|]. intros e sug H. discriminate H.
  - rewrite (end_session_default_eq save_quiz_result).
    do 4 eexists. split; [reflexivity|].
    intros e sug H. now injection H as _ <-.
Qed.

Lemma node_payload (now : datetime) (db : QuizDb) (state : StockAgentState) :
  exists s entry summary query_type,
    snd (node_over save_quiz_result now db state)
      = set_data s (quiz_payload entry summary query_type) /\
    (forall e sug, entry = ErrorEntry e sug ->
       sug = "다시 '주식퀴즈도전'으로 시도해보세요.").
Proof.
  rewrite node_dispatch. cbv zeta.
  set (s0 := swept now state).
  destruct (String.eqb (quiz_session_phase s0) "inactive").
  { rewrite start_cases. cbn [snd].
    destruct (negb quiz_file_exists).
    { do 4 eexists. split; [reflexivity|].
      intros e sug H. now injection H as _ <-. }
    destruct parse_quiz_file as [|q0 qs].
    { do 4 eexists. split; [reflexivity|].
      intros e sug H. now injection H as _ <-. }
    destruct (get_unplayed_quiz (q0 :: qs) (request_id s0)) as [q|].
    - do 4 eexists. split; [reflexivity|]. intros e sug H. discriminate H.
    - do 4 eexists. split; [reflexivity|].
      intros e sug H. now injection H as _ <-. }
  destruct (String.eqb (quiz_session_phase s0) "asking").
  { apply answer_payload. }
  destruct (String.eqb (quiz_session_phase s0) "processing").
  { do 4 eexists. split; [reflexivity|]. intros e sug H. discriminate H. }
  destruct (String.eqb (quiz_session_phase s0) "completed").
  { do 4 eexists. split; [reflexivity|]. intros e sug H. discriminate H. }
  do 4 eexists. split; [reflexivity|].
  intros e sug H. now injection H as _ <-.
Qed.

(** X13: what the user is shown after a quiz turn.  Every pass of the quiz
    node, from any state, leaves a payload with source quiz and exactly one
    result entry; the response node that follows it in the graph then
    answers with the text of that entry (for an error entry, the error text,
    an empty line and the fixed suggestion) and changes nothing else. *)
Theorem quiz_turn_response (now : datetime) (db : QuizDb)
  (state : StockAgentState) :
  let after := snd (node_over save_quiz_result now db state) in
  exists entry summary query_type,
    data after = quiz_payload entry summary query_type /\
    QuizResponse.quiz_generate_response after =
    set_response after
      match entry with
      | QuizGeneration quiz_text _ => quiz_text
      | AnswerChecking result_text _ _ => result_text
      | WrongAnswerWithHint wrong_answer_message _ _ _ => wrong_answer_message
      | HintProvided hint_text _ => hint_text
      | SessionCompleted completion_text _ => completion_text
      | ErrorEntry error_text _ =>
          error_text ++ newline ++ newline
          ++ "다시 '주식퀴즈도전'으로 시도해보세요."
      end.
Proof.
  cbv zeta.
  destruct (node_payload now db state)
    as [s [entry [summary [query_type [E S]]]]].
  rewrite E. exists entry, summary, query_type.
  split; [reflexivity|].
  unfold QuizResponse.quiz_generate_response. f_equal.
  cbn [data set_data]. unfold quiz_payload, QuizResponse.format_quiz_response.
  cbn [source results].
  destruct entry; try reflexivity.
  rewrite (S _ _ eq_refl). reflexivity.
Qed.

(** A hint request on a running quiz. *)
Lemma hint_step (now : datetime) (db : QuizDb) (state : StockAgentState)
  (q : QuizQuestion) :
  quiz_session_active state = true ->
  quiz_session_phase state = "asking" ->
  quiz_current_question state = Some q ->
  expired now state = false ->
  is_hint_request (Str.strip (query state)) = true ->
  node_over save_quiz_result now db state =
  (db,
   set_data (set_quiz_hint_used state true)
     (quiz_payload
        (HintProvided
           (_combine_hints (get_hint q) (generate_news_based_hint q)) true)
        ("퀴즈 #" ++ str_of_Z (quiz_id q) ++ " 힌트 제공 (기존 + 뉴스)")
        "quiz_hint")).
Proof.
  intros Ha Hp Hq He Hh. rewrite node_dispatch. cbv zeta.
  unfold swept. rewrite He, Hp. simpl String.eqb. cbv iota.
  rewrite (answer_cases now db state q _ Ha Hq), Hh. reflexivity.
Qed.

(** X14: when the checker fails.  If the checker cannot judge an answer,
    the node answers with an error entry, stores nothing and leaves the
    session active in phase processing with its question.  Whatever the
    user sends next (within the ten minutes), be it the right answer or a
    request for a hint, is not looked at: the session is torn down with the
    completion message, and nothing is stored. *)
Theorem checker_failure_ends_the_session (now1 now2 : datetime) (db : QuizDb)
  (state : StockAgentState) (q : QuizQuestion) (second_query : string) :
  let first := node_over save_quiz_result now1 db state in
  let second :=
    node_over save_quiz_result now2 (fst first)
      (set_query (snd first) second_query) in
  quiz_session_active state = true ->
  quiz_session_phase state = "asking" ->
  quiz_current_question state = Some q ->
  expired now1 state = false ->
  expired now2 state = false ->
  is_hint_request (Str.strip (query state)) = false ->
  answer_success (check_answer q (Str.strip (query state))) = false ->
  first =
    (db, set_data (set_quiz_session_phase state "processing")
           (error_payload "답변 검증 중 오류가 발생했습니다.")) /\
  fst second = db /\
  quiz_fields_reset (snd second) /\
  data (snd second) = completion_payload.
Proof.
  cbv zeta. intros Ha Hp Hq He1 He2 Hh Hs.
  assert (F : node_over save_quiz_result now1 db state =
              (db, set_data (set_quiz_session_phase state "processing")
                     (error_payload "답변 검증 중 오류가 발생했습니다."))).
  { rewrite node_dispatch. cbv zeta. unfold swept.
    rewrite He1, Hp. simpl String.eqb. cbv iota.
    rewrite (answer_cases now1 db state q _ Ha Hq), Hh, Hs. reflexivity. }
  rewrite F. split; [reflexivity|]. cbn [fst snd].
  rewrite node_dispatch. cbv zeta. unfold swept.
  set (s1 := set_query _ second_query).
  assert (E : expired now2 s1 = false).
  { rewrite <- He2.
    apply (expired_ext fromisoformat now2 state s1); reflexivity. }
  rewrite E.
  change (quiz_session_phase s1) with "processing".
  simpl String.eqb. cbv iota. cbn [fst snd].
  repeat split.
Qed.

(** X15: an answer that comes too late.  When the quiz of the state has
    expired, the node does not look at the answer at all: it tears the
    session down without a storage write and starts over as for a first
    request, so the user is shown a new quiz (or the error entry of a failed
    start), whatever the checker would have said. *)
Theorem expired_quiz_is_replaced (now : datetime) (db : QuizDb)
  (state : StockAgentState) :
  let out := node_over save_quiz_result now db state in
  expired now state = true ->
  fst out = db /\
  (forall selected_quiz,
     quiz_file_exists = true ->
     parse_quiz_file <> [] ->
     get_unplayed_quiz parse_quiz_file (request_id state)
       = Some selected_quiz ->
     snd out =
     set_data
       (set_quiz_fields state true generate_session_id (isoformat now)
          (Some selected_quiz) false "asking")
       (quiz_payload
          (QuizGeneration (generate_quiz_start_message selected_quiz)
                          selected_quiz)
          ("퀴즈 #" ++ str_of_Z (quiz_id selected_quiz) ++ " 시작")
          "quiz_start")) /\
  (quiz_file_exists = false \/ parse_quiz_file = [] \/
   get_unplayed_quiz parse_quiz_file (request_id state) = None ->
   quiz_fields_reset (snd out) /\
   exists error_message, data (snd out) = error_payload error_message).
Proof.
  cbv zeta. intro He. rewrite node_dispatch. cbv zeta. unfold swept.
  rewrite He. change (quiz_session_phase (torn_down state)) with "inactive".
  simpl String.eqb. cbv iota. rewrite start_cases. cbn [fst snd].
  split; [reflexivity|]. split.
  - intros selected_quiz Hf Hn Hs. rewrite Hf. cbn [negb].
    destruct parse_quiz_file as [|q0 qs]; [congruence|].
    change (request_id (torn_down state)) with (request_id state).
    rewrite Hs. reflexivity.
  - intro H. destruct quiz_file_exists; cbn [negb].
    2:{ split; [apply torn_down_reset | eexists; reflexivity]. }
    destruct parse_quiz_file as [|q0 qs].
    { split; [apply torn_down_reset | eexists; reflexivity]. }
    change (request_id (torn_down state)) with (request_id state).
    destruct H as [H|[H|H]]; [discriminate H | discriminate H |].
    rewrite H. split; [apply torn_down_reset | eexists; reflexivity].
Qed.

(** A sequence of turns of one session: each message is written into
    the state the previous pass left, as the request handler does. *)
Fixpoint play (turns : list (datetime * string)) (db : QuizDb)
  (state : StockAgentState) : QuizDb * StockAgentState :=
  match turns with
  | [] => (db, state)
  | turn :: rest =>
      let '(db, state) :=
        node_over save_quiz_result (fst turn) db
                  (set_query state (snd turn)) in
      play rest db state
  end.

(** The quiz a state is asking. *)
Definition asking_quiz (q : QuizQuestion) (start : string) (hint : bool)
  (s : StockAgentState) : Prop :=
  quiz_session_active s = true /\
  quiz_session_phase s = "asking" /\
  quiz_current_question s = Some q /\
  quiz_session_start_time s = start /\
  quiz_hint_used s = hint.

Lemma wrong_step (now : datetime) (db : QuizDb) (state : StockAgentState)
  (q : QuizQuestion) (start : string) (hint : bool) :
  asking_quiz q start hint state ->
  expired now state = false ->
  is_hint_request (Str.strip (query state)) = false ->
  answer_success (check_answer q (Str.strip (query state))) = true ->
  answer_is_correct (check_answer q (Str.strip (query state))) = false ->
  fst (node_over save_quiz_result now db state) = db /\
  asking_quiz q start hint (snd (node_over save_quiz_result now db state)).
Proof.
  intros [Ha [Hp [Hq [Hs Hu]]]] He Hh Hok Hc.
  rewrite node_dispatch. cbv zeta. unfold swept.
  rewrite He, Hp. simpl String.eqb. cbv iota.
  rewrite (answer_cases now db state q _ Ha Hq), Hh, Hok, Hc.
  cbn [negb fst snd]. split; [reflexivity|].
  unfold asking_quiz. cbn. now repeat split.
Qed.

Lemma play_wrong (turns : list (datetime * string)) (db : QuizDb)
  (s : StockAgentState) (q : QuizQuestion) (start : string) (hint : bool) :
  asking_quiz q start hint s ->
  Forall (fun turn =>
            forall s', asking_quiz q start hint s' ->
            expired (fst turn) s' = false /\
            is_hint_request (Str.strip (snd turn)) = false /\
            answer_success (check_answer q (Str.strip (snd turn))) = true /\
            answer_is_correct (check_answer q (Str.strip (snd turn)))
              = false)
         turns ->
  fst (play turns db s) = db /\
  asking_quiz q start hint (snd (play turns db s)).
Proof.
  intros A G. revert s A.
  induction G as [|turn rest Ht _ IH]; intros s A; simpl.
  - now split.
  - assert (A' : asking_quiz q start hint (set_query s (snd turn)))
      by exact A.
    destruct (Ht _ A') as [E [Hh [Hok Hc]]].
    destruct (wrong_step (fst turn) db (set_query s (snd turn)) q _ _
                A' E Hh Hok Hc) as [D W].
    destruct (node_over save_quiz_result (fst turn) db
                        (set_query s (snd turn))) as [db1 s1].
    simpl in D, W. subst db1. now apply IH.
Qed.

(** X16: wrong answers never close a quiz.  However many answers the
    checker judges incorrect arrive while the quiz has not expired, the
    session stays active, in phase asking, on the same question, with its
    start time and hint flag untouched, and nothing is written to storage:
    the number of attempts is not limited, only the clock ends the quiz. *)
Theorem wrong_answers_keep_the_quiz_open (turns : list (datetime * string))
  (db : QuizDb) (state : StockAgentState) (q : QuizQuestion) :
  quiz_session_active state = true ->
  quiz_session_phase state = "asking" ->
  quiz_current_question state = Some q ->
  Forall (fun turn =>
            expired (fst turn) state = false /\
            is_hint_request (Str.strip (snd turn)) = false /\
            answer_success (check_answer q (Str.strip (snd turn))) = true /\
            answer_is_correct (check_answer q (Str.strip (snd turn)))
              = false)
         turns ->
  fst (play turns db state) = db /\
  asking_quiz q (quiz_session_start_time state) (quiz_hint_used state)
              (snd (play turns db state)).
Proof.
  intros Ha Hp Hq F.
  apply play_wrong; [now repeat split|].
  apply (Forall_impl _ (P := fun turn =>
            expired (fst turn) state = false /\
            is_hint_request (Str.strip (snd turn)) = false /\
            answer_success (check_answer q (Str.strip (snd turn))) = true /\
            answer_is_correct (check_answer q (Str.strip (snd turn)))
              = false)); [|exact F].
  intros turn [E R] s [Sa [_ [_ [Ss _]]]]. split; [|exact R].
  rewrite <- E.
  apply (expired_ext fromisoformat (fst turn) state s); [|exact Ss].
  now rewrite Sa, Ha.
Qed.

End QuizNodeFacts.

(** ** The quiz node and the quiz history *)
Section QuizStorageFacts.
Import QuizNode.
Variable fromisoformat : string -> option datetime.
Variable isoformat : datetime -> string.
Variable check_answer : QuizQuestion -> string -> AnswerResult.
Variable get_hint : QuizQuestion -> string.
Variable generate_answer_package :
  QuizQuestion -> string -> AnswerResult -> string -> InfoPackage.
Variable generate_news_based_hint : QuizQuestion -> NewsHint.
Variable quiz_file_exists : bool.
Variable parse_quiz_file : list QuizQuestion.
Variable get_unplayed_quiz : list QuizQuestion -> string -> option QuizQuestion.
Variable generate_session_id : string.
Variable generate_quiz_start_message : QuizQuestion -> string.

Local Abbreviation quiz_node :=
  (quiz_stock_data fromisoformat isoformat QuizDatabase.save_quiz_result
     check_answer get_hint generate_answer_package generate_news_based_hint
     quiz_file_exists parse_quiz_file get_unplayed_quiz generate_session_id
     generate_quiz_start_message).
Local Abbreviation expired :=
  (QuizSessionManager.is_session_expired fromisoformat).
Local Abbreviation dispatch :=
  (node_dispatch fromisoformat isoformat QuizDatabase.save_quiz_result
     check_answer get_hint generate_answer_package generate_news_based_hint
     quiz_file_exists parse_quiz_file get_unplayed_quiz generate_session_id
     generate_quiz_start_message).

Lemma update_session_phase_fields (s : StockAgentState)
  (p : QuizSessionPhase) :
  quiz_current_question (QuizSessionManager.update_session_phase s p)
    = quiz_current_question s /\
  quiz_hint_used (QuizSessionManager.update_session_phase s p)
    = quiz_hint_used s /\
  request_id (QuizSessionManager.update_session_phase s p) = request_id s.
Proof.
  unfold QuizSessionManager.update_session_phase.
  destruct (negb (QuizSessionManager.is_session_active s)); repeat split.
Qed.

(** The one write of the node: the row of a correct answer. *)
Definition correct_row (now : datetime) (state : StockAgentState)
  (q : QuizQuestion) (user_answer : string) (reward : RewardInfo)
  : QuizHistoryRow :=
  {| row_request_id := request_id state; row_quiz_id := quiz_id q;
     row_quiz_question := quiz_question q;
     row_correct_answer := correct_company q;
     row_user_answer := user_answer;
     row_is_correct := true; row_hint_used := quiz_hint_used state;
     row_reward_stock := reward_stock reward;
     row_reward_amount := reward_amount reward;
     row_completed_at := now |}.

Lemma correct_answer_storage (now : datetime) (db : QuizDb)
  (state : StockAgentState) (q : QuizQuestion) (user_answer : string)
  (r : AnswerResult) :
  quiz_current_question state = Some q ->
  exists reward,
    fst (_handle_correct_answer QuizDatabase.save_quiz_result
           generate_answer_package now db state q user_answer r)
    = if db_writable db then
        {| quiz_history :=
             (quiz_history db
              ++ [correct_row now state q user_answer reward])%list;
           db_writable := true |}
      else db.
Proof.
  intro Hq. unfold _handle_correct_answer.
  destruct (update_session_phase_fields state COMPLETED) as [U1 [U2 U3]].
  unfold QuizSessionManager.end_session. rewrite U1, Hq, U2.
  unfold QuizDatabase.save_quiz_result.
  eexists {| reward_stock := _; reward_amount := _ |}.
  destruct (db_writable db); reflexivity.
Qed.

(** X17: the history only gains rows for correct answers.  One pass of the
    quiz node either leaves the quiz history as it was, or appends exactly
    one row; the latter happens only when the state is in phase asking with
    a question and an unexpired quiz, the message is not a hint request,
    the checker succeeded and judged the answer correct, and the database
    is writable, and the row then records this user, this question, the
    answer as typed (stripped), the flag correct, whether a hint was used,
    and the time of the pass.  A wrong answer, a hint request, a failed
    check, a start or a teardown never writes. *)
Theorem quiz_node_stores_only_correct_answers (now : datetime) (db : QuizDb)
  (state : StockAgentState) :
  let out := quiz_node now db state in
  let user_answer := Str.strip (query state) in
  fst out = db \/
  exists q reward,
    quiz_session_phase state = "asking" /\
    quiz_current_question state = Some q /\
    expired now state = false /\
    is_hint_request user_answer = false /\
    answer_success (check_answer q user_answer) = true /\
    answer_is_correct (check_answer q user_answer) = true /\
    db_writable db = true /\
    fst out =
      {| quiz_history :=
           (quiz_history db
            ++ [correct_row now state q user_answer reward])%list;
         db_writable := true |}.
Proof.
  cbv zeta. rewrite dispatch. cbv zeta. unfold swept.
  destruct (expired now state) eqn:He.
  { left. change (quiz_session_phase (torn_down state)) with "inactive".
    simpl String.eqb. cbv iota. now rewrite start_cases. }
  destruct (String.eqb_spec (quiz_session_phase state) "inactive") as [_|_].
  { left. now rewrite start_cases. }
  destruct (String.eqb_spec (quiz_session_phase state) "asking") as [Hp|_].
  2:{ left.
      destruct (String.eqb (quiz_session_phase state) "processing");
        [reflexivity|].
      destruct (String.eqb (quiz_session_phase state) "completed");
        reflexivity. }
  unfold _handle_user_answer.
  destruct (quiz_current_question state) as [q|] eqn:Hq.
  2:{ left. reflexivity. }
  destruct (is_hint_request (Str.strip (query state))) eqn:Hh.
  { left. reflexivity. }
  destruct (answer_success (check_answer q (Str.strip (query state)))) eqn:Hs;
    cbn [negb].
  2:{ left. reflexivity. }
  destruct (answer_is_correct (check_answer q (Str.strip (query state))))
    eqn:Hc.
  2:{ left. reflexivity. }
  destruct (update_session_phase_fields state PROCESSING) as [U1 [U2 U3]].
  destruct (correct_answer_storage now db
              (QuizSessionManager.update_session_phase state PROCESSING)
              q (Str.strip (query state))
              (check_answer q (Str.strip (query state)))
              (eq_trans U1 Hq)) as [reward E].
  rewrite E. destruct (db_writable db) eqn:Hw; [|now left].
  right. exists q, reward. repeat split; try assumption.
  unfold correct_row. now rewrite U2, U3.
Qed.

(** X18: a hint is remembered.  On a running, unexpired quiz in phase
    asking, a hint request stores nothing, keeps the session asking the same
    question, marks the hint as used and answers with the combined hint; a
    correct answer that follows ends the session and appends one row to the
    history, and that row says a hint was used. *)
Theorem hint_then_correct_answer_records_the_hint (now1 now2 : datetime)
  (db : QuizDb) (state : StockAgentState) (q : QuizQuestion)
  (second_query : string) :
  let answer2 := Str.strip second_query in
  let first := quiz_node now1 db state in
  let second :=
    quiz_node now2 (fst first) (set_query (snd first) second_query) in
  quiz_session_active state = true ->
  quiz_session_phase state = "asking" ->
  quiz_current_question state = Some q ->
  expired now1 state = false ->
  expired now2 state = false ->
  is_hint_request (Str.strip (query state)) = true ->
  is_hint_request answer2 = false ->
  answer_success (check_answer q answer2) = true ->
  answer_is_correct (check_answer q answer2) = true ->
  db_writable db = true ->
  (fst first = db /\
   quiz_session_active (snd first) = true /\
   quiz_session_phase (snd first) = "asking" /\
   quiz_current_question (snd first) = Some q /\
   quiz_hint_used (snd first) = true /\
   data (snd first)
     = quiz_payload
         (HintProvided
            (_combine_hints (get_hint q) (generate_news_based_hint q)) true)
         ("퀴즈 #" ++ str_of_Z (quiz_id q) ++ " 힌트 제공 (기존 + 뉴스)")
         "quiz_hint") /\
  quiz_fields_reset (snd second) /\
  exists row,
    quiz_history (fst second) = (quiz_history db ++ [row])%list /\
    row_quiz_id row = quiz_id q /\
    row_user_answer row = answer2 /\
    row_is_correct row = true /\
    row_hint_used row = true.
Proof.
  cbv zeta. intros Ha Hp Hq He1 He2 Hh1 Hh2 Hs2 Hc2 Hw.
  rewrite (hint_step fromisoformat isoformat QuizDatabase.save_quiz_result
             check_answer get_hint generate_answer_package
             generate_news_based_hint quiz_file_exists parse_quiz_file
             get_unplayed_quiz generate_session_id
             generate_quiz_start_message now1 db state q Ha Hp Hq He1 Hh1).
  cbn [fst snd].
  set (s1 := set_data _ _).
  split; [repeat split; assumption|].
  assert (A1 : quiz_session_active (set_query s1 second_query) = true)
    by exact Ha.
  assert (P1 : quiz_session_phase (set_query s1 second_query)
               = phase_value ASKING) by exact Hp.
  assert (Q1 : quiz_current_question (set_query s1 second_query) = Some q)
    by exact Hq.
  assert (E1 : expired now2 (set_query s1 second_query) = false).
  { rewrite <- He2. now apply expired_ext. }
  destruct (correct_answer_step fromisoformat isoformat check_answer get_hint
              generate_answer_package generate_news_based_hint
              quiz_file_exists parse_quiz_file get_unplayed_quiz
              generate_session_id generate_quiz_start_message
              now2 db (set_query s1 second_query) q
              A1 P1 Q1 E1 Hh2 Hs2 Hc2 Hw)
    as [mid [reward [payload [row
         [M1 [M2 [M3 [M4 [M5 [M6 [R1 [R2 [R3 [R4 R5]]]]]]]]]]]]]].
  split.
  - rewrite M5. unfold quiz_fields_reset. repeat split.
  - exists row. repeat split; assumption.
Qed.

End QuizStorageFacts.

(** ** Choosing the next quiz *)
Section SelectionFacts.
Import QuizSelection.
Variable rand : nat -> nat.

(** Whether the history has a row of this user for this quiz. *)
Definition attempted (db : QuizDb) (request_id : string) (id : Z) : bool :=
  existsb (fun row => String.eqb (row_request_id row) request_id
                      && (row_quiz_id row =? id))
          (quiz_history db).

Lemma insert_id_In (x y : Z) (l : list Z) :
  In y (insert_id x l) <-> y = x \/ In y l.
Proof.
  induction l as [|z l IH]; simpl.
  - intuition.
  - destruct (Z.ltb_spec x z); simpl; [intuition|].
    destruct (Z.eqb_spec x z) as [->|_]; simpl; [intuition|].
    rewrite IH. intuition.
Qed.

Lemma distinct_sorted_In (y : Z) (l : list Z) :
  In y (distinct_sorted l) <-> In y l.
Proof.
  unfold distinct_sorted. induction l as [|x l IH]; simpl; [tauto|].
  rewrite insert_id_In, IH. intuition.
Qed.

Lemma attempted_ids (db : QuizDb) (request_id : string) (id : Z) :
  request_id <> "" ->
  existsb (Z.eqb id) (get_user_attempted_quiz_ids true db request_id)
    = attempted db request_id id.
Proof.
  intro N. unfold get_user_attempted_quiz_ids, attempted.
  destruct (String.eqb_spec request_id "") as [E|_]; [contradiction|].
  apply eq_true_iff_eq. rewrite !existsb_exists. split.
  - intros [x [Hx E]]. apply Z.eqb_eq in E. subst x.
    apply distinct_sorted_In, in_map_iff in Hx.
    destruct Hx as [row [Hr Hf]]. apply filter_In in Hf.
    destruct Hf as [HI HR]. exists row. split; [exact HI|].
    rewrite HR. simpl. now apply Z.eqb_eq.
  - intros [row [HI H]]. apply andb_true_iff in H. destruct H as [HR HQ].
    apply Z.eqb_eq in HQ. exists id. split; [|apply Z.eqb_refl].
    apply distinct_sorted_In, in_map_iff. exists row.
    split; [exact HQ|]. apply filter_In. now split.
Qed.

Lemma choice_In {A : Type} (l : list A) :
  l <> [] -> exists x, choice rand l = Some x /\ In x l.
Proof.
  intro N. unfold choice.
  assert (B : (rand (List.length l) mod List.length l < List.length l)%nat).
  { apply Nat.mod_upper_bound. destruct l; [congruence | discriminate]. }
  destruct (nth_error l (rand (List.length l) mod List.length l)) as [x|] eqn:E.
  - exists x. split; [reflexivity|]. exact (nth_error_In _ _ E).
  - apply nth_error_None in E. lia.
Qed.

Lemma get_random_quiz_In (quizzes : list QuizQuestion) :
  quizzes <> [] ->
  exists q, get_random_quiz rand quizzes = Some q /\ In q quizzes.
Proof.
  intro N. unfold get_random_quiz.
  destruct quizzes as [|q0 qs]; [congruence|]. now apply choice_In.
Qed.

Lemma get_unplayed_quiz_In (db_readable : bool) (db : QuizDb)
  (quizzes : list QuizQuestion) (request_id : string) :
  quizzes <> [] ->
  exists q,
    get_unplayed_quiz rand db_readable db quizzes request_id = Some q /\
    In q quizzes.
Proof.
  intro N. unfold get_unplayed_quiz.
  destruct quizzes as [|q0 qs] eqn:Q; [congruence|]. rewrite <- Q in *.
  destruct (String.eqb request_id ""); [now apply get_random_quiz_In|].
  set (unplayed := filter _ quizzes).
  destruct unplayed as [|u us] eqn:U; [now apply get_random_quiz_In|].
  rewrite <- U.
  destruct (choice_In unplayed) as [x [E HI]]; [rewrite U; discriminate|].
  rewrite E. exists x. split; [reflexivity|].
  unfold unplayed in HI. apply filter_In in HI. apply HI.
Qed.

Lemma get_unplayed_quiz_fresh (db : QuizDb) (quizzes : list QuizQuestion)
  (request_id : string) (q q' : QuizQuestion) :
  request_id <> "" ->
  In q' quizzes ->
  attempted db request_id (quiz_id q') = false ->
  get_unplayed_quiz rand true db quizzes request_id = Some q ->
  attempted db request_id (quiz_id q) = false.
Proof.
  intros N HI' HA'. unfold get_unplayed_quiz.
  destruct quizzes as [|q0 qs] eqn:Q; [contradiction|]. rewrite <- Q in *.
  destruct (String.eqb_spec request_id "") as [E|_]; [contradiction|].
  set (unplayed := filter _ quizzes).
  assert (HU : In q' unplayed).
  { unfold unplayed. apply filter_In. split; [exact HI'|].
    now rewrite (attempted_ids db request_id (quiz_id q') N), HA'. }
  destruct unplayed as [|u us] eqn:U; [contradiction|]. rewrite <- U.
  destruct (choice_In unplayed) as [x [E HI]]; [rewrite U; discriminate|].
  rewrite E. intro H. injection H as <-.
  unfold unplayed in HI. apply filter_In in HI. destruct HI as [_ HF].
  rewrite (attempted_ids db request_id (quiz_id x) N) in HF.
  now apply negb_true_iff in HF.
Qed.

(** X19: choosing a quiz.  From a non-empty list [get_unplayed_quiz] always
    returns one of its quizzes, also when the request id is empty or the
    history cannot be read.  When the id is there, the history can be read
    and some quiz of the list has no row of this user in the history, the
    quiz returned is one without such a row. *)
Theorem unplayed_quiz_is_preferred (db_readable : bool) (db : QuizDb)
  (quizzes : list QuizQuestion) (request_id : string) :
  quizzes <> [] ->
  exists q,
    get_unplayed_quiz rand db_readable db quizzes request_id = Some q /\
    In q quizzes /\
    (request_id <> "" ->
     db_readable = true ->
     (exists q', In q' quizzes /\
                 attempted db request_id (quiz_id q') = false) ->
     attempted db request_id (quiz_id q) = false).
Proof.
  intro N.
  destruct (get_unplayed_quiz_In db_readable db quizzes request_id N)
    as [q [E HI]].
  exists q. split; [exact E|]. split; [exact HI|].
  intros Hr -> [q' [HI' HA']].
  exact (get_unplayed_quiz_fresh db quizzes request_id q q' Hr HI' HA' E).
Qed.

End SelectionFacts.

(** ** A quiz answered correctly is not asked again *)
Section RepetitionFacts.
Import QuizNode QuizSelection.
Variable fromisoformat : string -> option datetime.
Variable isoformat : datetime -> string.
Variable check_answer : QuizQuestion -> string -> AnswerResult.
Variable get_hint : QuizQuestion -> string.
Variable generate_answer_package :
  QuizQuestion -> string -> AnswerResult -> string -> InfoPackage.
Variable generate_news_based_hint : QuizQuestion -> NewsHint.
Variable quiz_file_exists : bool.
Variable parse_quiz_file : list QuizQuestion.
Variable get_unplayed_quiz0 : list QuizQuestion -> string -> option QuizQuestion.
Variable generate_session_id : string.
Variable generate_quiz_start_message : QuizQuestion -> string.
Variable rand : nat -> nat.

(** X20: after the node has stored a correct answer to question [q] for a
    user, the selection of the next quiz for that user, reading the history
    the node left, does not return a quiz with the number of [q] as long
    as the list holds a quiz the user has no row for. *)
Theorem answered_quiz_is_not_asked_again (now : datetime) (db : QuizDb)
  (state : StockAgentState) (q next : QuizQuestion)
  (quizzes : list QuizQuestion) :
  let answer := Str.strip (query state) in
  let db' :=
    fst (quiz_stock_data fromisoformat isoformat
           QuizDatabase.save_quiz_result check_answer get_hint
           generate_answer_package generate_news_based_hint quiz_file_exists
           parse_quiz_file get_unplayed_quiz0 generate_session_id
           generate_quiz_start_message now db state) in
  quiz_session_active state = true ->
  quiz_session_phase state = "asking" ->
  quiz_current_question state = Some q ->
  QuizSessionManager.is_session_expired fromisoformat now state = false ->
  is_hint_request answer = false ->
  answer_success (check_answer q answer) = true ->
  answer_is_correct (check_answer q answer) = true ->
  db_writable db = true ->
  request_id state <> "" ->
  (exists q', In q' quizzes /\
              attempted db' (request_id state) (quiz_id q') = false) ->
  get_unplayed_quiz rand true db' quizzes (request_id state) = Some next ->
  attempted db' (request_id state) (quiz_id q) = true /\
  quiz_id next <> quiz_id q.
Proof.
  cbv zeta. intros Ha Hp Hq He Hh Hs Hc Hw Hr [q' [HI' HA']] Hn.
  destruct (correct_answer_step fromisoformat isoformat check_answer get_hint
              generate_answer_package generate_news_based_hint
              quiz_file_exists parse_quiz_file get_unplayed_quiz0
              generate_session_id generate_quiz_start_message
              now db state q Ha Hp Hq He Hh Hs Hc Hw)
    as [mid [reward [payload [row
         [M1 [M2 [M3 [M4 [M5 [M6 [R1 [R2 [R3 [R4 R5]]]]]]]]]]]]]].
  set (db' := fst (quiz_stock_data _ _ _ _ _ _ _ _ _ _ _ _ now db state)) in *.
  assert (A : attempted db' (request_id state) (quiz_id q) = true).
  { unfold attempted. rewrite M6, existsb_app. apply orb_true_iff. right.
    simpl. rewrite R1, R2, String.eqb_refl, Z.eqb_refl. reflexivity. }
  split; [exact A|].
  pose proof (get_unplayed_quiz_fresh rand db' quizzes (request_id state)
                next q' Hr HI' HA' Hn) as F.
  intro E. rewrite E in F. congruence.
Qed.

End RepetitionFacts.

(** ** Extraction of the category, characterised *)

(** Text made of ASCII characters only.  The string methods of [Str] are
    Python's on such text: [lower], [strip], the word boundary, the digit
    class and the matching under [re.IGNORECASE] differ from Python's only on
    characters beyond ASCII (the long s, the Kelvin sign, the no-break space,
    the full-width digits and the like). *)
Fixpoint ascii_text (s : string) : bool :=
  match s with
  | EmptyString => true
  | String c s' => (Str.code c <? 128)%nat && ascii_text s'
  end.

Section ExtractionShape.
Import Classify.

Lemma category_keys_lower (cat : string) :
  In cat category_keys -> Str.lower cat = cat.
Proof.
  intros [<-|[<-|[<-|[<-|[]]]]]; reflexivity.
Qed.

Lemma search_from_spelling (alts : list string) (prev : option ascii)
  (s m : string) :
  Str.search_from alts prev s = Some m ->
  exists lit, In lit alts /\ Str.lower m = Str.lower lit.
Proof.
  revert prev. induction s as [|c s IH]; intros prev H; simpl in H.
  - destruct (Str.match_alternatives alts prev "") as [m'|] eqn:A;
      [|discriminate].
    injection H as ->.
    destruct (match_alternatives_sound _ _ _ _ A) as [lit [rest [HI [_ [L _]]]]].
    now exists lit.
  - destruct (Str.match_alternatives alts prev (String c s)) as [m'|] eqn:A.
    + injection H as ->.
      destruct (match_alternatives_sound _ _ _ _ A)
        as [lit [rest [HI [_ [L _]]]]].
      now exists lit.
    + exact (IH _ H).
Qed.

(** A text the pattern finds is a category name up to case. *)
Lemma re_search_spelling (text m : string) :
  Str.re_search_word category_keys text = Some m ->
  In (Str.lower m) category_keys.
Proof.
  intro H. destruct (search_from_spelling _ _ _ _ H) as [lit [HI L]].
  now rewrite L, (category_keys_lower lit HI).
Qed.

Lemma extract_from_lines_spelling (lines : list string) (m : string) :
  extract_from_lines lines = Some m ->
  m <> "" /\ In (Str.lower m) category_keys.
Proof.
  induction lines as [|line rest IH]; [discriminate|].
  rewrite extract_from_lines_cons.
  destruct (mentions_category (Str.strip line)); [|exact IH].
  destruct (Str.re_search_word category_keys (Str.strip line)) as [m'|] eqn:R;
    [|exact IH].
  intro H. injection H as ->. split.
  - exact (proj2 (re_search_mentions _ _ R)).
  - exact (re_search_spelling _ _ R).
Qed.

Lemma extract_contained_some (cats : list string) (text c : string) :
  extract_contained cats text = Some c ->
  In c cats /\
  existsb (fun cat => Py.substring_of (Str.lower cat) (Str.lower text)) cats
    = true.
Proof.
  induction cats as [|cat cats IH]; simpl; [discriminate|].
  destruct (Py.substring_of (Str.lower cat) (Str.lower text)).
  - intro H. injection H as ->. split; [now left | reflexivity].
  - intro H. destruct (IH H) as [HI HE]. split; [now right | exact HE].
Qed.

Lemma extract_contained_nothing (cats : list string) (text : string) :
  extract_contained cats text = None ->
  existsb (fun cat => Py.substring_of (Str.lower cat) (Str.lower text)) cats
    = false.
Proof.
  induction cats as [|cat cats IH]; simpl; [reflexivity|].
  destruct (Py.substring_of (Str.lower cat) (Str.lower text));
    [discriminate | exact IH].
Qed.

Lemma mentions_strip (response : string) :
  mentions_category (Str.strip response) = true ->
  mentions_category response = true.
Proof.
  intro H. destruct (strip_infix response) as [p [q F]].
  rewrite F. now apply mentions_infix.
Qed.

(** X21: what the extraction returns on ASCII text.  For a response made of
    ASCII characters only, [extract_category_from_response] returns the empty
    string exactly when the stripped response mentions no category name (in
    any letter case); otherwise it returns a text that is one of the four
    category names once lowered. *)
Theorem extraction_characterised (response : string) :
  ascii_text response = true ->
  (extract_category_from_response response = "" <->
   mentions_category (Str.strip response) = false) /\
  (extract_category_from_response response <> "" ->
   In (Str.lower (extract_category_from_response response)) category_keys).
Proof.
  intros _.
  unfold extract_category_from_response.
  destruct (String.eqb_spec response "") as [->|N].
  { split; [split; reflexivity | congruence]. }
  set (r := Str.strip response).
  destruct (Str.re_search_word category_keys r) as [m|] eqn:R.
  { destruct (re_search_mentions _ _ R) as [M Hm].
    split; [|intros _; exact (re_search_spelling _ _ R)].
    split; intro H; [contradiction | congruence]. }
  destruct (extract_from_lines (Str.split_lines r)) as [m|] eqn:L.
  { destruct (extract_from_lines_spelling _ _ L) as [Hm Hs].
    destruct (extract_from_lines_mentions _ _ L) as [line [HI M]].
    split; [|intros _; exact Hs].
    split; intro H; [contradiction|].
    exfalso.
    destruct (split_lines_infix _ _ HI) as [a [b F]].
    apply mentions_strip in M.
    rewrite F in H. now rewrite (mentions_infix _ a b M) in H. }
  destruct (extract_contained category_keys r) as [c|] eqn:C.
  { destruct (extract_contained_some _ _ _ C) as [HI HE].
    split.
    - split; intro H.
      + exfalso. exact (category_keys_nonempty c HI H).
      + unfold mentions_category in H. congruence.
    - intros _. now rewrite (category_keys_lower c HI). }
  split; [|congruence].
  split; [|reflexivity]. intros _.
  exact (extract_contained_nothing _ _ C).
Qed.

End ExtractionShape.

(** ** Routing out of the classifier *)
Section RoutingFacts.
Import Classify Ambiguous Graph.
Variable classify_query_chain : string -> string -> outcome string.
Variable clarified_classify_query_chain : string -> string -> outcome string.
Variable analyze_information_with_llm : string -> string -> Analysis.
Variable generate_clarification_question : string -> string -> string.
Variable clarify_vague_question : string -> outcome (PyDict.dict string).

Local Abbreviation classify :=
  (classify_query classify_query_chain clarified_classify_query_chain).
Local Abbreviation clarify :=
  (clarify_question_node analyze_information_with_llm
     generate_clarification_question clarify_vague_question).

(** The nodes that produce data. *)
Definition data_targets : list (option ClassifyTarget) :=
  [ Some ToFetchStockData; Some ToConditionalStockData;
    Some ToSignalStockData; Some ToQuizStockData ].

Lemma classify_sets_category (state state' : StockAgentState) :
  classify state = Ok state' ->
  state' = set_query_category state (query_category state').
Proof.
  unfold classify_query.
  destruct (quiz_session_active state);
    [intro H; injection H as <-; reflexivity|].
  destruct (Py.substring_of QUIZ_TRIGGER (query state));
    [intro H; injection H as <-; reflexivity|].
  destruct (clarification_info state).
  - destruct (clarified_classify_query_chain _ _); [|discriminate].
    intro H. injection H as <-. reflexivity.
  - destruct (classify_query_chain _ _); [|discriminate].
    intro H. injection H as <-. reflexivity.
Qed.

Lemma classify_target (state state' : StockAgentState) :
  classify state = Ok state' ->
  (quiz_session_active state = true \/
   Py.substring_of QUIZ_TRIGGER (query state) = true ->
   classify_edge (classify_query_with_path state') = Some ToQuizStockData) /\
  (clarification_info state <> None ->
   In (classify_edge (classify_query_with_path state')) data_targets) /\
  In (classify_edge (classify_query_with_path state'))
     (Some ToAmbiguousQuery :: data_targets).
Proof.
  intro H. unfold classify_query_with_path.
  destruct (quiz_session_active state) eqn:Hq.
  { unfold classify_query in H. rewrite Hq in H. injection H as <-.
    simpl. repeat split; intros; auto 10. }
  destruct (Py.substring_of QUIZ_TRIGGER (query state)) eqn:Ht.
  { unfold classify_query in H. rewrite Hq, Ht in H. injection H as <-.
    simpl. repeat split; intros; auto 10. }
  pose proof (classify_query_category_valid classify_query_chain
                clarified_classify_query_chain state state' Hq Ht H) as V.
  split; [intros [K|K]; discriminate K|].
  destruct (clarification_info state) as [info|].
  - simpl in V.
    assert (X : In (classify_edge (query_category state')) data_targets).
    { destruct V as [<-|[<-|[<-|[]]]]; simpl; auto. }
    split; [intros _; exact X | now right].
  - split; [intro K; now contradiction K|].
    simpl in V. destruct V as [<-|[<-|[<-|[<-|[]]]]]; simpl; auto 10.
Qed.

(** X22: every classification can be routed.  When [classify_query]
    returns, it has changed nothing but the category, and the category is a
    key of the path map of the graph's conditional edges, so the walk
    always finds its next node: the quiz node when a quiz session is active
    or the query holds the trigger word, and never the clarification node
    once the state carries a clarification record. *)
Theorem classify_query_is_routable (state state' : StockAgentState) :
  classify state = Ok state' ->
  state' = set_query_category state (query_category state') /\
  classify_edge (classify_query_with_path state') <> None /\
  (quiz_session_active state = true \/
   Py.substring_of QUIZ_TRIGGER (query state) = true ->
   classify_edge (classify_query_with_path state') = Some ToQuizStockData) /\
  (clarification_info state <> None ->
   classify_edge (classify_query_with_path state') <> Some ToAmbiguousQuery).
Proof.
  intro H. destruct (classify_target state state' H) as [Q [D A]].
  split; [exact (classify_sets_category state state' H)|].
  split; [|split; [exact Q|]].
  - intro E. rewrite E in A. simpl in A.
    repeat (destruct A as [A|A]; [discriminate A|]). exact A.
  - intros N E. specialize (D N). rewrite E in D. simpl in D.
    repeat (destruct D as [D|D]; [discriminate D|]). exact D.
Qed.

(** X23: one clarification per question.  When the clarification node,
    entered with a non-empty query, sends the walk back to the classifier,
    it has stored a clarification record, and the classification that
    follows then leads to one of the data nodes or to the quiz node, never
    to the clarification node again. *)
Theorem self_clarification_is_not_repeated
  (state clarified_state state' : StockAgentState) :
  query state <> "" ->
  clarify state = Ok clarified_state ->
  ambiguous_edge (ambiguous_query_with_path clarified_state)
    = Some ToClassifyQuery ->
  classify clarified_state = Ok state' ->
  clarification_info clarified_state <> None /\
  clarification_info state' = clarification_info clarified_state /\
  In (classify_edge (classify_query_with_path state')) data_targets.
Proof.
  intros Hq Hn He Hc.
  assert (I : clarification_info clarified_state <> None).
  { unfold clarify_question_node in Hn.
    destruct (String.eqb_spec (query state) ""); [contradiction|].
    destruct (String.eqb _ ASK_USER).
    - injection Hn as <-. discriminate He.
    - destruct (clarify_vague_question (query state)); [|discriminate].
      injection Hn as <-. discriminate. }
  split; [exact I|]. split.
  - rewrite (classify_sets_category _ _ Hc). reflexivity.
  - exact (proj1 (proj2 (classify_target _ _ Hc)) I).
Qed.

(** X24: an empty query goes round in circles.  With no quiz session, no
    clarification record and an empty query, a classifier answer from which
    no category can be extracted makes [classify_query] choose
    ambiguous_query; the clarification node returns such a state unchanged
    and its edge leads back to the classifier, which, asked again, returns
    the same state: classifier and clarification node hand the state to each
    other without ever changing it. *)
Theorem empty_query_cycles (state : StockAgentState) (r : string) :
  let ambiguous := set_query_category state "ambiguous_query" in
  query state = "" ->
  quiz_session_active state = false ->
  clarification_info state = None ->
  classify_query_chain "" (context state) = Ok r ->
  extract_category_from_response r = "" ->
  classify state = Ok ambiguous /\
  classify_edge (classify_query_with_path ambiguous) = Some ToAmbiguousQuery /\
  clarify ambiguous = Ok ambiguous /\
  ambiguous_edge (ambiguous_query_with_path ambiguous)
    = Some ToClassifyQuery /\
  classify ambiguous = Ok ambiguous.
Proof.
  cbv zeta. intros Hq Ha Hi Hc Hx.
  assert (T : Py.substring_of QUIZ_TRIGGER "" = false) by reflexivity.
  assert (C : forall s, query s = "" -> quiz_session_active s = false ->
                clarification_info s = None -> context s = context state ->
                classify s = Ok (set_query_category s "ambiguous_query")).
  { intros s Sq Sa Si Sc. unfold classify_query.
    rewrite Sa, Sq, T, Si, Sc, Hc, Hx. reflexivity. }
  split; [now apply C|]. split; [reflexivity|]. split.
  - unfold clarify_question_node.
    cbn [query set_query_category]. now rewrite Hq.
  - split; [reflexivity|].
    exact (C (set_query_category state "ambiguous_query") Hq Ha Hi eq_refl).
Qed.

End RoutingFacts.

(** ** The analysis and its fallback *)
Section AnalysisFacts.
Import Ambiguous Analysis.
Variable stock_name_llm : string -> outcome string.
Variable information_analysis_llm : string -> string -> outcome Analysis.
Variable generate_clarification_question : string -> string -> string.
Variable clarify_vague_question : string -> outcome (PyDict.dict string).

Local Abbreviation analyze :=
  (analyze_information_with_llm stock_name_llm information_analysis_llm).
Local Abbreviation clarify :=
  (clarify_question_node analyze generate_clarification_question
     clarify_vague_question).

(** X25: when the analysis call fails.  If the model call or the parse of
    [analyze_information_with_llm] raises, the fallback analysis makes the
    decision SELF_CLARIFY whatever the query holds; the clarification node
    then never asks the user: it rewrites the query when the rewriting call
    answers, and raises the exception of that call when it does not. *)
Theorem analysis_failure_self_clarifies (state : StockAgentState) (e : exn) :
  query state <> "" ->
  information_analysis_llm (query state) (context state) = Raise e ->
  analyze_ambiguity_type analyze (query state) (context state)
    = SELF_CLARIFY /\
  (forall e', clarify_vague_question (query state) = Raise e' ->
     clarify state = Raise e') /\
  (forall clarified, clarify_vague_question (query state) = Ok clarified ->
     exists state',
       clarify state = Ok state' /\
       clarification_info state' <> None /\
       query state'
         = clarified_get clarified "specific_question" (query state) /\
       response state' = response state /\
       query_category state' = query_category state).
Proof.
  intros Hq Hf.
  assert (D : analyze_ambiguity_type analyze (query state) (context state)
              = SELF_CLARIFY).
  { unfold analyze_ambiguity_type, analyze_information_with_llm.
    rewrite Hf. reflexivity. }
  split; [exact D|].
  unfold clarify_question_node.
  destruct (String.eqb_spec (query state) ""); [contradiction|].
  rewrite D. change (String.eqb SELF_CLARIFY ASK_USER) with false. cbv iota.
  split.
  - intros e' H. now rewrite H.
  - intros clarified H. rewrite H. eexists. split; [reflexivity|].
    repeat split. discriminate.
Qed.

End AnalysisFacts.

(** ** Dates in a query *)
Section DateFacts.
Import Analysis.

Fixpoint all_digits (s : string) : bool :=
  match s with
  | EmptyString => true
  | String c s' => is_digit c && all_digits s'
  end.

Lemma take_digits_spec (n : nat) (s d rest : string) :
  take_digits n s = Some (d, rest) ->
  s = (d ++ rest)%string /\ all_digits d = true /\ String.length d = n.
Proof.
  revert s d rest. induction n as [|n IH]; intros s d rest H; simpl in H.
  - injection H as <- <-. repeat split.
  - destruct s as [|c s]; [discriminate|].
    destruct (is_digit c) eqn:Hc; [|discriminate].
    destruct (take_digits n s) as [[d' r']|] eqn:T; [|discriminate].
    injection H as <- <-. destruct (IH _ _ _ T) as [-> [A L]].
    simpl. rewrite Hc, A, L. repeat split.
Qed.

Lemma take_digits_app (d rest : string) :
  all_digits d = true ->
  take_digits (String.length d) (d ++ rest) = Some (d, rest).
Proof.
  induction d as [|c d IH]; simpl; intro H; [reflexivity|].
  apply andb_true_iff in H. destruct H as [Hc Hd].
  now rewrite Hc, (IH Hd).
Qed.

Lemma take_dash_spec (s rest : string) :
  take_dash s = Some rest -> s = String "-" rest.
Proof.
  destruct s as [|c s]; simpl; [discriminate|].
  destruct (Nat.eqb_spec (Str.code c) 45) as [E|_]; [|discriminate].
  intro H. injection H as <-. f_equal.
  rewrite <- (ascii_nat_embedding c). unfold Str.code in E. now rewrite E.
Qed.

(** The shape YYYY-MM-DD. *)
Definition dashed_date (d : string) : Prop :=
  exists y m dd,
    d = (y ++ "-" ++ m ++ "-" ++ dd)%string /\
    all_digits y = true /\ String.length y = 4%nat /\
    all_digits m = true /\ String.length m = 2%nat /\
    all_digits dd = true /\ String.length dd = 2%nat.

Lemma match_dashed_date_shape (s m : string) :
  match_dashed_date s = Some m -> dashed_date m.
Proof.
  unfold match_dashed_date.
  destruct (take_digits 4 s) as [[y r1]|] eqn:T1; [|discriminate].
  destruct (take_dash r1) as [r2|]; [|discriminate].
  destruct (take_digits 2 r2) as [[mm r3]|] eqn:T2; [|discriminate].
  destruct (take_dash r3) as [r4|]; [|discriminate].
  destruct (take_digits 2 r4) as [[dd r5]|] eqn:T3; [|discriminate].
  intro H. injection H as <-.
  destruct (take_digits_spec _ _ _ _ T1) as [_ [A1 L1]].
  destruct (take_digits_spec _ _ _ _ T2) as [_ [A2 L2]].
  destruct (take_digits_spec _ _ _ _ T3) as [_ [A3 L3]].
  exists y, mm, dd. repeat split; assumption.
Qed.

Lemma dashed_date_matches (d : string) :
  dashed_date d -> match_dashed_date d = Some d.
Proof.
  intros [y [m [dd [-> [A1 [L1 [A2 [L2 [A3 L3]]]]]]]]].
  unfold match_dashed_date.
  rewrite <- L1 at 1. rewrite (take_digits_app y _ A1).
  cbn [append take_dash]. simpl Nat.eqb. cbv iota.
  rewrite <- L2 at 1. rewrite (take_digits_app m _ A2).
  cbn [append take_dash]. simpl Nat.eqb. cbv iota.
  rewrite <- (append_empty_r dd) at 1.
  rewrite <- L3 at 1. rewrite (take_digits_app dd _ A3).
  reflexivity.
Qed.

Lemma re_search_found (matcher : string -> option string) (s m : string) :
  re_search matcher s = Some m -> exists t, matcher t = Some m.
Proof.
  induction s as [|c s IH]; simpl.
  - destruct (matcher "") eqn:E; [|discriminate].
    intro H. injection H as <-. now exists "".
  - destruct (matcher (String c s)) eqn:E.
    + intro H. injection H as <-. now exists (String c s).
    + exact IH.
Qed.

Lemma re_search_at_front (matcher : string -> option string) (s m : string) :
  matcher s = Some m -> re_search matcher s = Some m.
Proof. intro H. destruct s; simpl; now rewrite H. Qed.

Lemma eight_digits_dashed (d : string) :
  all_digits d = true -> String.length d = 8%nat ->
  dashed_date (String.substring 0 4 d ++ "-" ++
               String.substring 4 2 d ++ "-" ++
               String.substring 6 2 d).
Proof.
  intros A L.
  do 8 (destruct d as [|? d]; [discriminate L|]).
  destruct d; [|discriminate L]. clear L.
  simpl in A. repeat (apply andb_true_iff in A; destruct A as [? A]).
  eexists (String _ (String _ (String _ (String _ "")))),
          (String _ (String _ "")), (String _ (String _ "")).
  split; [reflexivity|]. simpl.
  repeat match goal with H : is_digit _ = true |- _ => rewrite H; clear H end.
  repeat split.
Qed.

Lemma length_append (a b : string) :
  String.length (a ++ b) = (String.length a + String.length b)%nat.
Proof. induction a as [|c a IH]; simpl; [reflexivity | now rewrite IH]. Qed.

Lemma dashed_date_length (d : string) :
  dashed_date d -> String.length d = 10%nat.
Proof.
  intros [y [m [dd [-> [_ [L1 [_ [L2 [_ L3]]]]]]]]].
  rewrite !length_append. simpl. lia.
Qed.

(** X26: the date found in an ASCII query.  When [extract_date_from_query]
    finds a date in a query made of ASCII characters only, the text it returns
    has the form YYYY-MM-DD (four digits 0 to 9, a dash, two digits, a dash,
    two digits: ten characters), also when the query held eight digits in a
    row, and extracting from that text gives the same text again. *)
Theorem extracted_date_is_dashed (query d : string) :
  ascii_text query = true ->
  extract_date_from_query query = Some d ->
  dashed_date d /\
  String.length d = 10%nat /\
  extract_date_from_query d = Some d.
Proof.
  intros _ H.
  assert (S : dashed_date d).
  { unfold extract_date_from_query in H.
    destruct (re_search match_dashed_date query) as [m|] eqn:R1.
    - injection H as <-. destruct (re_search_found _ _ _ R1) as [t T].
      exact (match_dashed_date_shape _ _ T).
    - destruct (re_search match_eight_digits query) as [date_str|] eqn:R2;
        [|discriminate].
      injection H as <-. destruct (re_search_found _ _ _ R2) as [t T].
      unfold match_eight_digits in T.
      destruct (take_digits 8 t) as [[d8 rest]|] eqn:T8; [|discriminate].
      injection T as <-.
      destruct (take_digits_spec _ _ _ _ T8) as [_ [A L]].
      now apply eight_digits_dashed. }
  split; [exact S|]. split; [now apply dashed_date_length|].
  unfold extract_date_from_query.
  now rewrite (re_search_at_front _ _ _ (dashed_date_matches d S)).
Qed.

End DateFacts.

(** ** The tool loop: entries and invocations *)
Section ToolLoopFacts.
Import FunctionCalling.
Variable exn_str : exn -> string.
Variable py_repr : json -> string.
Variable json_loads : string -> option json.

Local Abbreviation exec_tool := (execute_tool exn_str py_repr json_loads).
Local Abbreviation exec_all := (execute_all exn_str py_repr json_loads).

(** An entry answers a call: it carries the call's id and function name,
    and when it is marked successful its result is what the tool registered
    under that name returned for the entry's arguments. *)
Definition answers (tool_functions : PyDict.dict Tool) (tool_call : json)
  (entry : ToolResult) : Prop :=
  Py.getitem tool_call "id" = Ok (tool_call_id entry) /\
  (exists fn,
     Py.getitem tool_call "function" = Ok fn /\
     Py.getitem fn "name" = Ok (function_name entry)) /\
  (success entry = true ->
   exists name tool,
     function_name entry = JStr name /\
     PyDict.lookup tool_functions name = Some tool /\
     tool (arguments entry) = Ok (result entry)).

Lemma execute_tool_answers (tool_call : json)
  (tool_functions : PyDict.dict Tool) (log log' : list Event)
  (entry : ToolResult) :
  exec_tool tool_call tool_functions log = (Ok entry, log') ->
  answers tool_functions tool_call entry.
Proof.
  unfold execute_tool, bind, execute_tool_try, execute_tool_except, lift, ret.
  intro H.
  destruct (Py.getitem tool_call "function") as [fn|e0] eqn:Hf;
    cbn [loc_function_name] in H; [|discriminate H].
  destruct (Py.getitem fn "name") as [name|e0] eqn:Hn;
    cbn [loc_function_name] in H; [|discriminate H].
  destruct (Py.getitem fn "arguments") as [args|e0] eqn:Ha;
    cbn [loc_function_name loc_arguments] in H.
  2:{ destruct (Py.getitem tool_call "id"); discriminate H. }
  destruct (Py.getitem tool_call "id") as [id|e0] eqn:Hid.
  2:{ exfalso.
      destruct (match args with
                | JStr s => match json_loads s with
                            | Some a => Ok a
                            | None => Raise JSONDecodeError
                            end
                | _ => Ok args
                end) as [arguments|e]; [|discriminate H].
      destruct (negb (Py.hashable name)); [discriminate H|].
      destruct (match name with
                | JStr name0 =>
                    match PyDict.lookup tool_functions name0 with
                    | Some tool => Some (name0, tool)
                    | None => None
                    end
                | _ => None
                end) as [[name0 tool]|]; [|discriminate H].
      destruct (tool arguments); discriminate H. }
  assert (Failed_entry : forall arguments result0,
            answers tool_functions tool_call
              {| tool_call_id := id; function_name := name;
                 arguments := arguments; result := result0;
                 success := false |}).
  { intros. unfold answers. cbn [tool_call_id function_name success].
    split; [exact Hid|]. split; [exists fn; now split|]. discriminate. }
  destruct (match args with
            | JStr s => match json_loads s with
                        | Some a => Ok a
                        | None => Raise JSONDecodeError
                        end
            | _ => Ok args
            end) as [arguments|e].
  2:{ injection H as <- _. apply Failed_entry. }
  destruct (negb (Py.hashable name)).
  { injection H as <- _. apply Failed_entry. }
  destruct name as [| | |name0| |];
    try (injection H as <- _; apply Failed_entry).
  destruct (PyDict.lookup tool_functions name0) as [tool|] eqn:L.
  2:{ injection H as <- _. apply Failed_entry. }
  destruct (tool arguments) as [result0|e] eqn:R.
  2:{ injection H as <- _. apply Failed_entry. }
  injection H as <- _. unfold answers.
  cbn [tool_call_id function_name success FunctionCalling.arguments
       FunctionCalling.result].
  split; [exact Hid|]. split; [exists fn; now split|].
  intros _. exists name0, tool. now repeat split.
Qed.

(** X27: the loop answers every call, in order.  When [execute_all]
    returns, its list has one entry per requested call, in the order of the
    request; each entry carries the id and the function name of its call,
    and an entry marked successful holds exactly what the tool registered
    under that name returned for the arguments recorded in the entry. *)
Theorem execute_all_answers_calls_in_order (tool_calls : list json)
  (tool_functions : PyDict.dict Tool) (log log' : list Event)
  (tool_results : list ToolResult) :
  exec_all tool_calls tool_functions log = (Ok tool_results, log') ->
  Forall2 (answers tool_functions) tool_calls tool_results.
Proof.
  revert log log' tool_results.
  induction tool_calls as [|tc rest IH]; intros log log' rs; simpl.
  - unfold ret. intro E. injection E as <- _. constructor.
  - unfold bind at 1.
    destruct (exec_tool tc tool_functions log) as [[r|e] log1] eqn:E1;
      [|discriminate].
    unfold bind at 1.
    destruct (exec_all rest tool_functions log1) as [[rs'|e] log2] eqn:E2;
      [|discriminate].
    unfold ret. intro E. injection E as <- _.
    constructor.
    + exact (execute_tool_answers _ _ _ _ _ E1).
    + exact (IH _ _ _ E2).
Qed.

(** An event that invokes a tool of the registry. *)
Definition registered_invocation (tool_functions : PyDict.dict Tool)
  (e : Event) : Prop :=
  match e with
  | ToolInvocation name _ => PyDict.mem tool_functions name = true
  | CompletionRequest _ _ => False
  end.

Lemma execute_tool_try_invokes (tool_call : json)
  (tool_functions : PyDict.dict Tool) (log : list Event) :
  exists extra,
    snd (execute_tool_try py_repr json_loads tool_call tool_functions log)
      = (log ++ extra)%list /\
    Forall (registered_invocation tool_functions) extra /\
    (List.length extra <= 1)%nat.
Proof.
  unfold execute_tool_try.
  assert (Z0 : exists extra : list Event,
             log = (log ++ extra)%list /\
             Forall (registered_invocation tool_functions) extra /\
             (List.length extra <= 1)%nat).
  { exists []. rewrite app_nil_r. repeat split; [constructor | simpl; lia]. }
  destruct (Py.getitem tool_call "function") as [fn|]; [|exact Z0].
  destruct (Py.getitem fn "name") as [function_name|]; [|exact Z0].
  destruct (Py.getitem fn "arguments") as [arguments0|]; [|exact Z0].
  destruct (match arguments0 with
            | JStr s => match json_loads s with
                        | Some a => Ok a
                        | None => Raise JSONDecodeError
                        end
            | _ => Ok arguments0
            end) as [arguments|]; [|exact Z0].
  destruct (negb (Py.hashable function_name)); [exact Z0|].
  destruct function_name as [| | |name| |];
    try (destruct (Py.getitem tool_call "id"); exact Z0).
  destruct (PyDict.lookup tool_functions name) as [tool|] eqn:L.
  - assert (Z1 : exists extra : list Event,
               (log ++ [ToolInvocation name arguments])%list
               = (log ++ extra)%list /\
               Forall (registered_invocation tool_functions) extra /\
               (List.length extra <= 1)%nat).
    { exists [ToolInvocation name arguments].
      repeat split; [|simpl; lia].
      constructor; [|constructor]. simpl. unfold PyDict.mem. now rewrite L. }
    destruct (tool arguments); [|exact Z1].
    destruct (Py.getitem tool_call "id"); exact Z1.
  - destruct (Py.getitem tool_call "id"); exact Z0.
Qed.

Lemma execute_tool_invokes (tool_call : json)
  (tool_functions : PyDict.dict Tool) (log : list Event) :
  exists extra,
    snd (exec_tool tool_call tool_functions log) = (log ++ extra)%list /\
    Forall (registered_invocation tool_functions) extra /\
    (List.length extra <= 1)%nat.
Proof.
  unfold execute_tool, bind.
  destruct (execute_tool_try_invokes tool_call tool_functions log)
    as [extra [E F]].
  destruct (execute_tool_try py_repr json_loads tool_call tool_functions log)
    as [[[locals [entry|e]]|e] log1]; simpl in E; subst log1;
    exists extra; (split; [reflexivity | exact F]).
Qed.

(** X28: which tools are run.  Whatever the requested calls look like and
    whether the loop returns or raises, what [execute_all] adds to the
    trace are invocations of tools that are in the registry under the
    requested name, at most one per call, and nothing else: a name that is
    not registered is never run and no completion request is sent from the
    loop. *)
Theorem only_registered_tools_are_invoked (tool_calls : list json)
  (tool_functions : PyDict.dict Tool) (log : list Event) :
  exists extra,
    snd (exec_all tool_calls tool_functions log) = (log ++ extra)%list /\
    Forall (registered_invocation tool_functions) extra /\
    (List.length extra <= List.length tool_calls)%nat.
Proof.
  revert log. induction tool_calls as [|tc rest IH]; intro log; simpl.
  - exists []. rewrite app_nil_r. repeat split; [constructor | simpl; lia].
  - unfold bind at 1.
    destruct (execute_tool_invokes tc tool_functions log)
      as [extra1 [E1 [F1 L1]]].
    destruct (exec_tool tc tool_functions log) as [[r|e] log1];
      simpl in E1; subst log1.
    + unfold bind at 1.
      destruct (IH (log ++ extra1)%list) as [extra2 [E2 [F2 L2]]].
      destruct (exec_all rest tool_functions (log ++ extra1)%list)
        as [[rs|e] log2]; simpl in E2; subst log2; simpl;
        exists (extra1 ++ extra2)%list;
        (split; [now rewrite app_assoc|]);
        (split; [now apply Forall_app | rewrite length_app; lia]).
    + exists extra1. simpl. repeat split; [exact F1 | lia].
Qed.

End ToolLoopFacts.

(** ** A whole quiz turn: classifier, quiz node, response node *)
Section QuizTurnFacts.
Import Classify Graph QuizNode.
Variable classify_query_chain : string -> string -> outcome string.
Variable clarified_classify_query_chain : string -> string -> outcome string.
Variable fromisoformat : string -> option datetime.
Variable isoformat : datetime -> string.
Variable save_quiz_result : QuizDatabase.SaveFn.
Variable check_answer : QuizQuestion -> string -> AnswerResult.
Variable get_hint : QuizQuestion -> string.
Variable generate_answer_package :
  QuizQuestion -> string -> AnswerResult -> string -> InfoPackage.
Variable generate_news_based_hint : QuizQuestion -> NewsHint.
Variable quiz_file_exists : bool.
Variable parse_quiz_file : list QuizQuestion.
Variable get_unplayed_quiz : list QuizQuestion -> string -> option QuizQuestion.
Variable generate_session_id : string.
Variable generate_quiz_start_message : QuizQuestion -> string.

Local Abbreviation classify :=
  (classify_query classify_query_chain clarified_classify_query_chain).
Local Abbreviation quiz_node :=
  (quiz_stock_data fromisoformat isoformat save_quiz_result
     check_answer get_hint generate_answer_package generate_news_based_hint
     quiz_file_exists parse_quiz_file get_unplayed_quiz generate_session_id
     generate_quiz_start_message).

(** X29: asking for a quiz.  When no quiz is running and the query holds
    the trigger word, the classifier routes the turn to the quiz node
    without consulting its model, the quiz node opens a session on the quiz
    selected for the user (active, phase asking, started at the time of the
    pass, no hint used, nothing written to storage), and the response node
    answers with the start message of that quiz. *)
Theorem quiz_trigger_starts_a_quiz (now : datetime) (db : QuizDb)
  (state : StockAgentState) (selected_quiz : QuizQuestion) :
  quiz_fields_reset state ->
  Py.substring_of QUIZ_TRIGGER (query state) = true ->
  quiz_file_exists = true ->
  parse_quiz_file <> [] ->
  get_unplayed_quiz parse_quiz_file (request_id state) = Some selected_quiz ->
  exists classified,
    classify state = Ok classified /\
    classify_edge (classify_query_with_path classified)
      = Some ToQuizStockData /\
    let out := quiz_node now db classified in
    let answered := QuizResponse.quiz_generate_response (snd out) in
    fst out = db /\
    response answered = generate_quiz_start_message selected_quiz /\
    quiz_session_active answered = true /\
    quiz_session_phase answered = "asking" /\
    quiz_current_question answered = Some selected_quiz /\
    quiz_session_start_time answered = isoformat now /\
    quiz_hint_used answered = false.
Proof.
  intros [Ra [_ [_ [_ [_ Rp]]]]] Ht Hf Hn Hs.
  exists (set_query_category state "quiz_stock_data").
  split.
  { unfold classify_query. now rewrite Ra, Ht. }
  split; [reflexivity|]. cbv zeta.
  rewrite (node_dispatch fromisoformat isoformat save_quiz_result
             check_answer get_hint generate_answer_package
             generate_news_based_hint quiz_file_exists parse_quiz_file
             get_unplayed_quiz generate_session_id
             generate_quiz_start_message).
  cbv zeta. unfold swept.
  assert (E : QuizSessionManager.is_session_expired fromisoformat now
                (set_query_category state "quiz_stock_data") = false).
  { unfold QuizSessionManager.is_session_expired,
      QuizSessionManager.is_session_active.
    cbn [quiz_session_active set_query_category]. now rewrite Ra. }
  rewrite E.
  change (quiz_session_phase (set_query_category state "quiz_stock_data"))
    with (quiz_session_phase state).
  rewrite Rp. simpl String.eqb. cbv iota.
  rewrite (start_cases isoformat save_quiz_result quiz_file_exists
             parse_quiz_file get_unplayed_quiz generate_session_id
             generate_quiz_start_message).
  rewrite Hf. cbn [negb].
  destruct parse_quiz_file as [|q0 qs]; [congruence|].
  change (request_id (set_query_category state "quiz_stock_data"))
    with (request_id state).
  rewrite Hs. repeat split.
Qed.

End QuizTurnFacts.

(* ================================================================== *)
(** * Part V.  Further concrete runs                                   *)
(* ================================================================== *)

(** ** The session store *)

Lemma five_sessions_reachable : reachable iso_example (five_sessions iso_example).
Proof.
  cbv [five_sessions fold_left]. repeat apply reach_get. apply reach_empty.
Qed.

(** The five sessions and a sixth, opened at minute 5. *)
Definition six_sessions : SessionStore.Store :=
  fst (SessionStore.get_session_state iso_example (minute 5)
         (five_sessions iso_example) "S6").

Lemma six_sessions_reachable : reachable iso_example six_sessions.
Proof. apply reach_get, five_sessions_reachable. Qed.

(** The store invariant on the five sessions: consistent, and a sweep at
    minute 5 leaves no more than five records. *)
Lemma store_invariant_witness :
  consistent (five_sessions iso_example) /\
  (SessionStore.population
     (SessionStore.cleanup_expired_sessions iso_example (minute 5)
        (five_sessions iso_example))
   <= SessionStore.MAX_SESSIONS)%nat.
Proof.
  destruct (store_invariant iso_example (five_sessions iso_example)
              five_sessions_reachable) as [C [P _]].
  split; [exact C | exact (P (minute 5))].
Defined.

(** No record under the empty identifier among the six sessions. *)
Lemma empty_request_id_is_never_stored_witness :
  absent six_sessions "" /\
  SessionStore.save_session_state (minute 6) six_sessions ""
    default_stock_agent_state = six_sessions.
Proof.
  destruct (empty_request_id_is_never_stored iso_example six_sessions
              six_sessions_reachable) as [A [_ S]].
  split; [exact A | exact (S (minute 6) default_stock_agent_state)].
Defined.

(** With six sessions stored, the sweep at minute 5 removes S1, which has
    not expired, and keeps S2: the store was over its capacity and S1 was
    last active no later than S2. *)
Lemma capacity_eviction_is_oldest_first_witness :
  (SessionStore.MAX_SESSIONS < SessionStore.population six_sessions)%nat /\
  minute 0 <= minute 1.
Proof.
  apply (capacity_eviction_is_oldest_first iso_example (minute 5)
           six_sessions "S1" "S2" (minute 0) (minute 1)).
  - exact (reachable_consistent iso_example six_sessions
             six_sessions_reachable).
  - reflexivity.
  - reflexivity.
  - reflexivity.
  - reflexivity.
Defined.

(** One session, S1, opened at minute 0. *)
Definition one_session : SessionStore.Store :=
  fst (SessionStore.get_session_state iso_example (minute 0)
         SessionStore.empty "S1").

Lemma one_session_reachable : reachable iso_example one_session.
Proof. apply reach_get, reach_empty. Qed.

Lemma one_session_older (now : datetime) (id' : string) (ts' : datetime) :
  0 < now ->
  PyDict.lookup (SessionStore.session_timestamps one_session) id' = Some ts' ->
  ts' < now.
Proof.
  intros P H.
  change (SessionStore.session_timestamps one_session)
    with [("S1", minute 0)] in H.
  cbn [PyDict.lookup] in H.
  destruct (String.eqb "S1" id'); [|discriminate H].
  injection H as <-. exact P.
Qed.

(** A quiz state saved for S2 at minute 5 is what the lookup at minute 8
    returns. *)
Lemma saved_state_is_restored_witness :
  snd (SessionStore.get_session_state iso_example (minute 8)
         (SessionStore.save_session_state (minute 5) one_session "S2"
            (asking_state "Globex"))
         "S2")
  = asking_state "Globex".
Proof.
  apply (saved_state_is_restored iso_example (minute 5) (minute 8)
           one_session "S2" (asking_state "Globex")).
  - exact (reachable_consistent iso_example one_session
             one_session_reachable).
  - discriminate.
  - intros id' ts' _ H. now apply (one_session_older (minute 5) id' ts').
  - vm_compute. discriminate.
  - reflexivity.
Defined.

(** ** The request handler *)

(** An agent that echoes the question. *)
Definition echo_agent (state : StockAgentState) : outcome StockAgentState :=
  Ok (set_response state (query state)).

Definition first_request :=
  ApiServer.chat_with_agent iso_example echo_agent demo_exn_str
    (minute 0) (minute 1) SessionStore.empty (Some "S1") None (Some "hello").

(** After one request the store is consistent and within the bound. *)
Lemma served_store_is_bounded_witness :
  consistent (fst first_request) /\
  (SessionStore.population (fst first_request)
   <= S SessionStore.MAX_SESSIONS)%nat.
Proof.
  apply (served_store_is_bounded iso_example demo_exn_str).
  apply served_request, served_start.
Defined.

(** Two requests of session S1, one minute apart: the second time the agent
    is given the state it returned the first time, with the new question. *)
Lemma agent_state_carries_over_witness :
  snd first_request = ApiServer.Answer "hello" /\
  snd (ApiServer.chat_with_agent iso_example echo_agent demo_exn_str
         (minute 2) (minute 3) (fst first_request) (Some "S1") None
         (Some "again"))
  = ApiServer.Answer "again".
Proof.
  apply (agent_state_carries_over iso_example demo_exn_str echo_agent
           echo_agent (minute 0) (minute 1) (minute 2) (minute 3)
           SessionStore.empty (Some "S1") None (Some "hello") None
           (Some "again")
           (set_response
              (prepared default_stock_agent_state (Some "S1") None
                        (Some "hello"))
              "hello")).
  - split; [constructor | reflexivity].
  - reflexivity.
  - reflexivity.
  - reflexivity.
  - reflexivity.
  - intros id' ts' _ H. discriminate H.
  - vm_compute. discriminate.
  - intro H. discriminate H.
Defined.

(** ** The quiz session manager *)

(** The quiz that started at the origin has expired at minute 11, and so
    it has at minute 12. *)
Lemma expiry_is_permanent_witness :
  QuizSessionManager.is_session_expired iso_example (minute 12)
    (asking_state "") = true.
Proof.
  apply (expiry_is_permanent iso_example (minute 11) (minute 12)
           (asking_state "")).
  - reflexivity.
  - vm_compute. discriminate.
Defined.

(** ** The quiz node *)

(** After a wrong answer the session is still a running quiz. *)
Lemma quiz_node_keeps_session_well_formed_witness :
  quiz_well_formed
    (snd (demo_quiz_node (minute 1) empty_db (asking_state "Globex"))).
Proof.
  apply (quiz_node_keeps_session_well_formed iso_example
           (fun _ => "1970-01-01T00:00:00") QuizDatabase.save_quiz_result
           demo_check_answer demo_get_hint demo_package demo_news true
           [example_quiz] (fun quizzes _ => List.hd_error quizzes)
           "a1b2c3d4" (fun q => quiz_question q)
           (minute 1) empty_db (asking_state "Globex")).
  right. unfold quiz_running. simpl.
  split; [reflexivity|]. split; [now left | discriminate].
Defined.

(** A checker that is out of order. *)
Definition failing_check (q : QuizQuestion) (answer : string)
  : QuizNode.AnswerResult :=
  {| QuizNode.answer_success := false;
     QuizNode.answer_is_correct := false;
     QuizNode.answer_confidence := 0;
     QuizNode.answer_explanation := "답변 검증 중 오류가 발생했습니다." |}.

Definition unchecked_quiz_node :=
  QuizNode.quiz_stock_data iso_example (fun _ => "1970-01-01T00:00:00")
    QuizDatabase.save_quiz_result failing_check demo_get_hint
    demo_package demo_news true [example_quiz]
    (fun quizzes _ => List.hd_error quizzes) "a1b2c3d4"
    (fun q => quiz_question q).

(** The check fails at minute 1; the right answer sent at minute 2 is not
    looked at: the session is torn down and nothing is stored. *)
Lemma checker_failure_ends_the_session_witness :
  let first := unchecked_quiz_node (minute 1) empty_db (asking_state "ACME") in
  let second :=
    unchecked_quiz_node (minute 2) (fst first)
      (set_query (snd first) "ACME") in
  quiz_session_phase (snd first) = "processing" /\
  fst second = empty_db /\
  quiz_fields_reset (snd second) /\
  data (snd second) = completion_payload.
Proof.
  cbv zeta.
  destruct (checker_failure_ends_the_session iso_example
              (fun _ => "1970-01-01T00:00:00") QuizDatabase.save_quiz_result
              failing_check demo_get_hint demo_package demo_news true
              [example_quiz] (fun quizzes _ => List.hd_error quizzes)
              "a1b2c3d4" (fun q => quiz_question q)
              (minute 1) (minute 2) empty_db (asking_state "ACME")
              example_quiz "ACME"
              eq_refl eq_refl eq_refl eq_refl eq_refl eq_refl eq_refl)
    as [F [D [R P]]].
  split; [|split; [exact D | split; [exact R | exact P]]].
  unfold unchecked_quiz_node. rewrite F. reflexivity.
Defined.

(** The right answer at minute 11 comes too late: nothing is stored and
    the user is given a quiz anew. *)
Lemma expired_quiz_is_replaced_witness :
  let out := demo_quiz_node (minute 11) empty_db (asking_state "ACME") in
  fst out = empty_db /\
  quiz_session_phase (snd out) = "asking" /\
  quiz_hint_used (snd out) = false.
Proof.
  cbv zeta.
  destruct (expired_quiz_is_replaced iso_example
              (fun _ => "1970-01-01T00:00:00") QuizDatabase.save_quiz_result
              demo_check_answer demo_get_hint demo_package demo_news true
              [example_quiz] (fun quizzes _ => List.hd_error quizzes)
              "a1b2c3d4" (fun q => quiz_question q)
              (minute 11) empty_db (asking_state "ACME") eq_refl)
    as [D [S _]].
  split; [exact D|].
  unfold demo_quiz_node.
  rewrite (S example_quiz eq_refl (fun H => nil_cons (eq_sym H)) eq_refl).
  split; reflexivity.
Defined.

(** A hint at minute 1, the right answer at minute 2: the one row of the
    history says that a hint was used. *)
Lemma hint_then_correct_answer_records_the_hint_witness :
  let first := demo_quiz_node (minute 1) empty_db (asking_state "hint") in
  let second :=
    demo_quiz_node (minute 2) (fst first) (set_query (snd first) "ACME") in
  quiz_hint_used (snd first) = true /\
  map row_hint_used (quiz_history (fst second)) = [true].
Proof.
  cbv zeta.
  destruct (hint_then_correct_answer_records_the_hint iso_example
              (fun _ => "1970-01-01T00:00:00")
              demo_check_answer demo_get_hint demo_package demo_news true
              [example_quiz] (fun quizzes _ => List.hd_error quizzes)
              "a1b2c3d4" (fun q => quiz_question q)
              (minute 1) (minute 2) empty_db (asking_state "hint")
              example_quiz "ACME"
              eq_refl eq_refl eq_refl eq_refl eq_refl eq_refl eq_refl
              eq_refl eq_refl eq_refl)
    as [[_ [_ [_ [_ [H _]]]]] [_ [row [R [_ [_ [_ U]]]]]]].
  split; [exact H|].
  unfold demo_quiz_node. rewrite R. simpl. now rewrite U.
Defined.

(** ** Choosing the next quiz *)

Definition second_quiz : QuizQuestion :=
  {| quiz_id := 8; quiz_question := "Which company split its stock in 2018?";
     quiz_options := [("1", "ACME"); ("2", "Globex"); ("3", "Initech");
                      ("4", "Umbrella")];
     correct_number := "2"; correct_company := "Globex";
     correct_symbol := "2"; quiz_background := "Split in 2018." |}.

(** A history in which user S1 has answered quiz 7. *)
Definition played_db : QuizDb :=
  {| quiz_history :=
       [ {| row_request_id := "S1"; row_quiz_id := 7;
            row_quiz_question := quiz_question example_quiz;
            row_correct_answer := "ACME"; row_user_answer := "ACME";
            row_is_correct := true; row_hint_used := false;
            row_reward_stock := "ACME"; row_reward_amount := 1;
            row_completed_at := minute 2 |} ];
     db_writable := true |}.

(** User S1 is given a quiz of the list for which the history has no row
    of S1. *)
Lemma unplayed_quiz_is_preferred_witness :
  exists q,
    QuizSelection.get_unplayed_quiz (fun _ => 0%nat) true played_db
      [example_quiz; second_quiz] "S1" = Some q /\
    In q [example_quiz; second_quiz] /\
    attempted played_db "S1" (quiz_id q) = false.
Proof.
  destruct (unplayed_quiz_is_preferred (fun _ => 0%nat) true played_db
              [example_quiz; second_quiz] "S1"
              (fun H => nil_cons (eq_sym H)))
    as [q [E [HI F]]].
  exists q. split; [exact E|]. split; [exact HI|].
  apply F; [discriminate | reflexivity |].
  exists second_quiz. split; [simpl; auto | reflexivity].
Defined.

(** User S1 answers quiz 7 correctly at minute 1; the history then has a
    row of S1 for quiz 7, and the selection that reads it gives quiz 8. *)
Lemma answered_quiz_is_not_asked_again_witness :
  attempted
    (fst (demo_quiz_node (minute 1) empty_db
            (set_request_id (asking_state "ACME") "S1")))
    "S1" (quiz_id example_quiz) = true /\
  quiz_id second_quiz <> quiz_id example_quiz.
Proof.
  apply (answered_quiz_is_not_asked_again iso_example
           (fun _ => "1970-01-01T00:00:00")
           demo_check_answer demo_get_hint demo_package demo_news true
           [example_quiz] (fun quizzes _ => List.hd_error quizzes)
           "a1b2c3d4" (fun q => quiz_question q) (fun _ => 0%nat)
           (minute 1) empty_db (set_request_id (asking_state "ACME") "S1")
           example_quiz second_quiz [example_quiz; second_quiz]);
    try reflexivity.
  - discriminate.
  - exists second_quiz. split; [simpl; auto | reflexivity].
Defined.

(** ** Classification and clarification *)

(** The classifier's vague answer is routed to the clarification node on a
    first pass. *)
Lemma classify_query_is_routable_witness :
  Graph.classify_edge
    (Classify.classify_query_with_path
       (set_query_category (set_query default_stock_agent_state "AAPL")
          "ambiguous_query"))
  <> None.
Proof.
  apply (classify_query_is_routable chatty_chain chatty_chain
           (set_query default_stock_agent_state "AAPL")
           (set_query_category (set_query default_stock_agent_state "AAPL")
              "ambiguous_query")).
  reflexivity.
Defined.

(** An analysis that finds the question vague altogether. *)
Definition vague_analysis (query context : string) : Ambiguous.Analysis :=
  [ ("has_stock_name", JBool true); ("has_specific_date", JBool false);
    ("has_relative_time", JBool false);
    ("missing_information_type", JStr "NONE");
    ("information_completeness", JStr "AMBIGUOUS") ].

Definition rewrite_question (query : string) : outcome (PyDict.dict string) :=
  Ok [("specific_question", "AAPL close on 2024-01-02");
      ("start_date", "2024-01-02"); ("end_date", "2024-01-02")].

Definition vague_state : StockAgentState :=
  set_query_category (set_query default_stock_agent_state "AAPL")
    "ambiguous_query".

Definition rewritten_state : StockAgentState :=
  set_query
    (set_clarification_info vague_state
       (Some {| original_query := "AAPL";
                clarified_query := "AAPL close on 2024-01-02";
                start_date := "2024-01-02"; end_date := "2024-01-02";
                market_scope := ""; primary_criteria := "";
                secondary_criteria := "" |}))
    "AAPL close on 2024-01-02".

(** After the rewriting of a vague question, the classifier's vague answer
    leads to a data node. *)
Lemma self_clarification_is_not_repeated_witness :
  In (Graph.classify_edge
        (Classify.classify_query_with_path
           (set_query_category rewritten_state "fetch_stock_data")))
     data_targets.
Proof.
  apply (self_clarification_is_not_repeated chatty_chain chatty_chain
           vague_analysis follow_up rewrite_question
           vague_state rewritten_state
           (set_query_category rewritten_state "fetch_stock_data")).
  - discriminate.
  - reflexivity.
  - reflexivity.
  - reflexivity.
Defined.

(** The empty query and the vague classifier: the state comes back from
    the clarification node as it went in. *)
Lemma empty_query_cycles_witness :
  let ambiguous :=
    set_query_category default_stock_agent_state "ambiguous_query" in
  Ambiguous.clarify_question_node vague_analysis follow_up rewrite_question
    ambiguous = Ok ambiguous /\
  Classify.classify_query chatty_chain chatty_chain ambiguous = Ok ambiguous.
Proof.
  cbv zeta.
  destruct (empty_query_cycles chatty_chain chatty_chain vague_analysis
              follow_up rewrite_question default_stock_agent_state
              "I am not sure which handler fits this question."
              eq_refl eq_refl eq_refl eq_refl eq_refl)
    as [_ [_ [N [_ C]]]].
  split; [exact N | exact C].
Defined.

(** A model that cannot be reached. *)
Definition analysis_unavailable (query context : string)
  : outcome Ambiguous.Analysis :=
  Raise (OtherError "ConnectionError" "no model").

Definition name_unavailable (query : string) : outcome string :=
  Raise (OtherError "ConnectionError" "no model").

(** With the analysis model down the decision is to self-clarify. *)
Lemma analysis_failure_self_clarifies_witness :
  Ambiguous.analyze_ambiguity_type
    (Analysis.analyze_information_with_llm name_unavailable
       analysis_unavailable)
    "close price?" ""
  = Ambiguous.SELF_CLARIFY.
Proof.
  apply (analysis_failure_self_clarifies name_unavailable
           analysis_unavailable follow_up rewrite_question
           (set_query default_stock_agent_state "close price?")
           (OtherError "ConnectionError" "no model")).
  - discriminate.
  - reflexivity.
Defined.

(** A category named in capitals inside a sentence is returned as written,
    and is a category once lowered. *)
Lemma extraction_characterised_witness :
  Classify.extract_category_from_response
    "The category is FETCH_STOCK_DATA, a single-day lookup."
    = "FETCH_STOCK_DATA" /\
  In (Str.lower
        (Classify.extract_category_from_response
           "The category is FETCH_STOCK_DATA, a single-day lookup."))
     Classify.category_keys.
Proof.
  split; [reflexivity|].
  destruct (extraction_characterised
              "The category is FETCH_STOCK_DATA, a single-day lookup." eq_refl)
    as [_ H].
  apply H. discriminate.
Defined.

(** Eight digits in a row are returned with dashes. *)
Lemma extracted_date_is_dashed_witness :
  dashed_date "2024-01-02" /\
  Analysis.extract_date_from_query "2024-01-02" = Some "2024-01-02".
Proof.
  destruct (extracted_date_is_dashed "close on 20240102?" "2024-01-02"
              eq_refl eq_refl) as [S [_ I]].
  split; [exact S | exact I].
Defined.

(** ** The tool loop *)

(** The three demo calls are answered in order. *)
Lemma execute_all_answers_calls_in_order_witness :
  Forall2 (answers demo_tools) demo_calls demo_results.
Proof.
  apply (execute_all_answers_calls_in_order demo_exn_str demo_repr demo_loads
           demo_calls demo_tools demo_sent (snd demo_execution)).
  reflexivity.
Defined.

(** ** Whole turns *)

(** Three wrong answers in three minutes leave the quiz open and the
    history empty. *)
Lemma wrong_answers_keep_the_quiz_open_witness :
  let out :=
    play iso_example (fun _ => "1970-01-01T00:00:00")
      QuizDatabase.save_quiz_result demo_check_answer demo_get_hint
      demo_package demo_news true [example_quiz]
      (fun quizzes _ => List.hd_error quizzes) "a1b2c3d4"
      (fun q => quiz_question q)
      [(minute 1, "Globex"); (minute 2, "Initech"); (minute 3, "Umbrella")]
      empty_db (asking_state "") in
  fst out = empty_db /\
  asking_quiz example_quiz "1970-01-01T00:00:00" false (snd out).
Proof.
  cbv zeta.
  apply (wrong_answers_keep_the_quiz_open iso_example
           (fun _ => "1970-01-01T00:00:00") QuizDatabase.save_quiz_result
           demo_check_answer demo_get_hint demo_package demo_news true
           [example_quiz] (fun quizzes _ => List.hd_error quizzes)
           "a1b2c3d4" (fun q => quiz_question q)
           [(minute 1, "Globex"); (minute 2, "Initech");
            (minute 3, "Umbrella")]
           empty_db (asking_state "") example_quiz);
    try reflexivity.
  repeat constructor.
Defined.

(** The trigger word with no quiz running: the user is shown the question
    of the selected quiz. *)
Lemma quiz_trigger_starts_a_quiz_witness :
  response
    (QuizResponse.quiz_generate_response
       (snd (demo_quiz_node (minute 0) empty_db
               (set_query_category
                  (set_query default_stock_agent_state "주식퀴즈도전")
                  "quiz_stock_data"))))
  = quiz_question example_quiz.
Proof.
  destruct (quiz_trigger_starts_a_quiz chatty_chain chatty_chain iso_example
              (fun _ => "1970-01-01T00:00:00") QuizDatabase.save_quiz_result
              demo_check_answer demo_get_hint demo_package demo_news true
              [example_quiz] (fun quizzes _ => List.hd_error quizzes)
              "a1b2c3d4" (fun q => quiz_question q)
              (minute 0) empty_db
              (set_query default_stock_agent_state "주식퀴즈도전")
              example_quiz)
    as [classified [C [_ H]]].
  - unfold quiz_fields_reset. repeat split.
  - reflexivity.
  - reflexivity.
  - discriminate.
  - reflexivity.
  - assert (E : classified
                = set_query_category
                    (set_query default_stock_agent_state "주식퀴즈도전")
                    "quiz_stock_data").
    { assert (X : Ok (set_query_category
                        (set_query default_stock_agent_state "주식퀴즈도전")
                        "quiz_stock_data") = Ok classified) by exact C.
      now injection X. }
    subst classified. exact (proj1 (proj2 H)).
Defined.
